(** * Engagement and notification subsystem of microdos-api

    A shallow embedding of [src/modules/community/notifications.ts] (the
    notification service with its inbox and subscription routes) and of the
    community router that follows it in the same file (groups, posts, feed,
    comments, reactions).

    The Prisma client is modelled as a record of tables; every route handler
    is a computation in a state-and-exception monad over that record.  A
    storage call that Prisma rejects (a missing row on [update] or [delete],
    a negative [skip]) throws, and what was written before the throw stays
    written: no handler of the source opens a transaction.

    A [string] stands for a JavaScript string, one character per UTF-16 code
    unit; a [Date] is a number of milliseconds, in [Z]. *)

From stdpp Require Import gmap strings list fin_maps sorting.
From Stdlib Require Import ZArith Ascii.

Local Open Scope string_scope.
Local Open Scope Z_scope.
Local Open Scope list_scope.

(** ** Exceptions, results and the handler monad *)

Inductive error : Type :=
  | RecordNotFound      (* Prisma P2025: a required row does not exist *)
  | InvalidArgument     (* Prisma validation: a negative [skip] *)
  | UniqueConstraint    (* Prisma P2002: a unique key is already taken *)
  | ForeignKeyViolation (* Prisma P2003: a referenced row does not exist *)
  | StorageUnavailable  (* the storage refused the call *)
  | ZodError            (* [schema.parse] rejected the body *)
  | TypeError.          (* a property read on [null] *)

Inductive result (A : Type) : Type :=
  | Ok (a : A)
  | Throw (e : error).
Arguments Ok {A} a.
Arguments Throw {A} e.

(** ** Rows of the tables *)

Record User := {
  user_name : option string;
  user_handle : option string
}.

Record Post := {
  post_title : option string;
  post_content : string;
  post_authorId : string;
  post_groupId : option string;
  post_status : string;
  post_reactionCount : Z;
  post_commentCount : Z;
  post_viewCount : Z;
  post_scheduledFor : option Z;
  post_publishedAt : option Z;
  post_createdAt : Z
}.

Record Comment := {
  comment_postId : string;
  comment_authorId : string;
  comment_content : string;
  comment_parentId : option string;
  comment_reactionCount : Z;
  comment_createdAt : Z
}.

(** A reaction row is stored under its unique triple
    [targetType_targetId_userId]; the primary key [id] is a field. *)
Record Reaction := {
  reaction_id : string;
  reaction_type : string;
  reaction_createdAt : Z
}.

Inductive NotificationType : Type :=
  | MENTION | REPLY | REACTION | POST_APPROVED | POST_REJECTED | POST_CREATED
  | GROUP_INVITE | GROUP_JOIN_REQUEST | MODERATION_ACTION | SYSTEM_ANNOUNCEMENT.

Inductive NotificationStatus : Type := scheduled | delivered.

(** The [data] of a payload is an object of strings and booleans. *)
Inductive jsval : Type :=
  | JStr (s : string)
  | JBool (b : bool).

Record NotificationPayload := {
  payload_type : NotificationType;
  payload_title : string;
  payload_message : string;
  payload_data : list (string * jsval);
  payload_actionUrl : option string
}.

Record Metadata := {
  meta_data : list (string * jsval);
  meta_actionUrl : option string
}.

Record Notification := {
  notif_userId : string;
  notif_type : NotificationType;
  notif_title : string;
  notif_message : string;
  notif_scheduledFor : Z;
  notif_status : NotificationStatus;
  notif_metadata : Metadata;
  notif_createdAt : Z;
  notif_readAt : option Z
}.

(** A subscription row is stored under its unique triple
    [userId_targetType_targetId]. *)
Record Subscription := {
  sub_id : string;
  sub_inApp : bool;
  sub_email : bool;
  sub_push : bool;
  sub_createdAt : Z
}.

Record Group := {
  group_slug : string;
  group_name : string;
  group_ownerId : string;
  group_visibility : string
}.

(** A membership is stored under its unique pair [groupId_userId]. *)
Record GroupMember := {
  member_role : string;
  member_status : string
}.

(** ** The store *)

Record Store := {
  users : gmap string User;
  posts : gmap string Post;
  comments : gmap string Comment;
  reactions : gmap (string * string * string) Reaction;
  notifications : gmap string Notification;
  subscriptions : gmap (string * string * string) Subscription;
  groups : gmap string Group;
  groupMembers : gmap (string * string) GroupMember;
  console : list string
}.

Definition set_posts (f : gmap string Post → gmap string Post) (s : Store) : Store :=
  {| users := users s; posts := f (posts s); comments := comments s;
     reactions := reactions s; notifications := notifications s;
     subscriptions := subscriptions s; groups := groups s;
     groupMembers := groupMembers s; console := console s |}.

Definition set_comments (f : gmap string Comment → gmap string Comment) (s : Store) : Store :=
  {| users := users s; posts := posts s; comments := f (comments s);
     reactions := reactions s; notifications := notifications s;
     subscriptions := subscriptions s; groups := groups s;
     groupMembers := groupMembers s; console := console s |}.

Definition set_reactions
    (f : gmap (string * string * string) Reaction → gmap (string * string * string) Reaction)
    (s : Store) : Store :=
  {| users := users s; posts := posts s; comments := comments s;
     reactions := f (reactions s); notifications := notifications s;
     subscriptions := subscriptions s; groups := groups s;
     groupMembers := groupMembers s; console := console s |}.

Definition set_notifications
    (f : gmap string Notification → gmap string Notification) (s : Store) : Store :=
  {| users := users s; posts := posts s; comments := comments s;
     reactions := reactions s; notifications := f (notifications s);
     subscriptions := subscriptions s; groups := groups s;
     groupMembers := groupMembers s; console := console s |}.

Definition set_subscriptions
    (f : gmap (string * string * string) Subscription → gmap (string * string * string) Subscription)
    (s : Store) : Store :=
  {| users := users s; posts := posts s; comments := comments s;
     reactions := reactions s; notifications := notifications s;
     subscriptions := f (subscriptions s); groups := groups s;
     groupMembers := groupMembers s; console := console s |}.

Definition set_groupMembers
    (f : gmap (string * string) GroupMember → gmap (string * string) GroupMember)
    (s : Store) : Store :=
  {| users := users s; posts := posts s; comments := comments s;
     reactions := reactions s; notifications := notifications s;
     subscriptions := subscriptions s; groups := groups s;
     groupMembers := f (groupMembers s); console := console s |}.

Definition set_console (f : list string → list string) (s : Store) : Store :=
  {| users := users s; posts := posts s; comments := comments s;
     reactions := reactions s; notifications := notifications s;
     subscriptions := subscriptions s; groups := groups s;
     groupMembers := groupMembers s; console := f (console s) |}.

(** ** The monad *)

Definition M (A : Type) : Type := Store → result A * Store.

Definition ret {A} (a : A) : M A := λ s, (Ok a, s).

Definition bind {A B} (m : M A) (k : A → M B) : M B :=
  λ s, match m s with
       | (Ok a, s') => k a s'
       | (Throw e, s') => (Throw e, s')
       end.

Definition throw {A} (e : error) : M A := λ s, (Throw e, s).

(** [try { body } catch (error) { handler }] *)
Definition try_catch {A} (body : M A) (handler : error → M A) : M A :=
  λ s, match body s with
       | (Ok a, s') => (Ok a, s')
       | (Throw e, s') => handler e s'
       end.

Definition get {A} (f : Store → A) : M A := λ s, (Ok (f s), s).
Definition modify (f : Store → Store) : M unit := λ s, (Ok tt, f s).

Notation "'let!' x ':=' m 'in' k" := (bind m (λ x, k))
  (at level 10, x name, m at level 100, k at level 200,
   format "'[v' 'let!'  x  ':='  m  'in'  '/' k ']'").
Notation "'do!' m 'in' k" := (bind m (λ _, k))
  (at level 10, m at level 100, k at level 200,
   format "'[v' 'do!'  m  'in'  '/' k ']'").

(** [console.error(msg, error)] *)
Definition console_error (msg : string) : M unit :=
  modify (set_console (λ l, l ++ [msg])).

(** What an Express handler leaves behind: a response it sent itself, or
    the exception it handed to [next]. *)
Inductive outcome (B : Type) : Type :=
  | Respond (status : Z) (body : B)
  | Next (e : error).
Arguments Respond {B} status body.
Arguments Next {B} e.

(** [async (req, res, next) => { try { ... } catch (error) { next(error) } }] *)
Definition handler {B} (body : M (Z * B)) : Store → outcome B * Store :=
  λ s, match body s with
       | (Ok (st, b), s') => (Respond st b, s')
       | (Throw e, s') => (Next e, s')
       end.

(** ** JavaScript helpers *)

(** Truthiness of an optional string: [undefined], [null] and [''] are falsy. *)
Definition truthy (o : option string) : option string :=
  match o with
  | Some "" => None
  | Some s => Some s
  | None => None
  end.

(** [a || b] on optional strings. *)
Definition js_or (a b : option string) : option string :=
  match truthy a with
  | Some s => Some s
  | None => b
  end.

(** A value inside a template literal. *)
Definition tmpl (o : option string) : string :=
  match o with
  | Some s => s
  | None => "null"
  end.

(** [content.substring(0, 100) + (content.length > 100 ? '...' : '')] *)
Definition excerpt (content : string) : string :=
  String.substring 0 100 content
  +:+ (if decide (100 < String.length content)%nat then "..." else "").

(** What the environment supplies to one request: the clock, and whether the
    storage accepts a notification insert. *)
Record Env := {
  now : Z;
  notification_insert_fails : bool
}.

(** ** The Prisma client

    [findUnique] returns the row or [null]; [update] and [delete] throw
    [RecordNotFound] when no row matches; [create] generates the primary
    key.  *)

Definition prisma_user_findUnique (id : string) : M (option User) :=
  get (λ s, users s !! id).

Definition prisma_post_findUnique (id : string) : M (option Post) :=
  get (λ s, posts s !! id).

Definition prisma_comment_findUnique (id : string) : M (option Comment) :=
  get (λ s, comments s !! id).

(** [data: { reactionCount: { increment: d } }] *)
Definition post_reactionCount_add (d : Z) (p : Post) : Post :=
  {| post_title := post_title p; post_content := post_content p;
     post_authorId := post_authorId p; post_groupId := post_groupId p;
     post_status := post_status p;
     post_reactionCount := post_reactionCount p + d;
     post_commentCount := post_commentCount p;
     post_viewCount := post_viewCount p;
     post_scheduledFor := post_scheduledFor p;
     post_publishedAt := post_publishedAt p;
     post_createdAt := post_createdAt p |}.

(** [data: { commentCount: { increment: d } }] *)
Definition post_commentCount_add (d : Z) (p : Post) : Post :=
  {| post_title := post_title p; post_content := post_content p;
     post_authorId := post_authorId p; post_groupId := post_groupId p;
     post_status := post_status p;
     post_reactionCount := post_reactionCount p;
     post_commentCount := post_commentCount p + d;
     post_viewCount := post_viewCount p;
     post_scheduledFor := post_scheduledFor p;
     post_publishedAt := post_publishedAt p;
     post_createdAt := post_createdAt p |}.

Definition comment_reactionCount_add (d : Z) (c : Comment) : Comment :=
  {| comment_postId := comment_postId c; comment_authorId := comment_authorId c;
     comment_content := comment_content c; comment_parentId := comment_parentId c;
     comment_reactionCount := comment_reactionCount c + d;
     comment_createdAt := comment_createdAt c |}.

Definition prisma_post_update (id : string) (f : Post → Post) : M Post :=
  λ s, match posts s !! id with
       | Some p => (Ok (f p), set_posts (insert id (f p)) s)
       | None => (Throw RecordNotFound, s)
       end.

Definition prisma_comment_update (id : string) (f : Comment → Comment) : M Comment :=
  λ s, match comments s !! id with
       | Some c => (Ok (f c), set_comments (insert id (f c)) s)
       | None => (Throw RecordNotFound, s)
       end.

(** [where: { targetType_targetId_userId: { targetType, targetId, userId } }] *)
Definition prisma_reaction_findUnique (key : string * string * string)
    : M (option Reaction) :=
  get (λ s, reactions s !! key).

(** The primary keys in use in the reaction table. *)
Definition reaction_ids (m : gmap (string * string * string) Reaction) : list string :=
  (λ kv : string * string * string * Reaction, reaction_id kv.2) <$> map_to_list m.

(** [prisma.reaction.create({ data: { targetType, targetId, userId, type } })];
    a second row for the same triple violates the unique index. *)
Definition prisma_reaction_create (env : Env) (key : string * string * string)
    (type : string) : M Reaction :=
  λ s, match reactions s !! key with
       | Some _ => (Throw UniqueConstraint, s)
       | None =>
           let r := {| reaction_id := fresh (reaction_ids (reactions s));
                       reaction_type := type;
                       reaction_createdAt := now env |} in
           (Ok r, set_reactions (insert key r) s)
       end.

(** [prisma.reaction.delete({ where: { id: existingReaction.id } })]: the row
    is addressed by its primary key, and it is the row the handler has just
    read under [key]. *)
Definition prisma_reaction_delete (key : string * string * string) : M unit :=
  λ s, match reactions s !! key with
       | Some _ => (Ok tt, set_reactions (delete key) s)
       | None => (Throw RecordNotFound, s)
       end.

(** What [prisma.notification.create] is given by the service. *)
Record NotificationCreateInput := {
  input_userId : string;
  input_type : NotificationType;
  input_title : string;
  input_message : string;
  input_scheduledFor : Z;
  input_status : NotificationStatus;
  input_metadata : Metadata
}.

(** Modelled from the spec: the Prisma schema is not part of the sources;
    the columns the service leaves out take the defaults the data model
    gives them, [createdAt] the time of the insert and [readAt] null until
    the notification is read. *)
Definition notification_of_input (env : Env) (i : NotificationCreateInput)
    : Notification :=
  {| notif_userId := input_userId i; notif_type := input_type i;
     notif_title := input_title i; notif_message := input_message i;
     notif_scheduledFor := input_scheduledFor i;
     notif_status := input_status i; notif_metadata := input_metadata i;
     notif_createdAt := now env; notif_readAt := None |}.

Definition insert_notification (env : Env) (i : NotificationCreateInput)
    (m : gmap string Notification) : gmap string Notification :=
  <[fresh (dom m) := notification_of_input env i]> m.

Definition prisma_notification_create (env : Env) (i : NotificationCreateInput)
    : M unit :=
  λ s, if notification_insert_fails env then (Throw StorageUnavailable, s)
       else (Ok tt, set_notifications (insert_notification env i) s).

(** [createMany] inserts the whole batch or nothing. *)
Definition prisma_notification_createMany (env : Env)
    (l : list NotificationCreateInput) : M unit :=
  λ s, if notification_insert_fails env then (Throw StorageUnavailable, s)
       else (Ok tt,
             set_notifications (λ m, foldl (λ m i, insert_notification env i m) m l) s).

(** ** NotificationService *)

(** U+00E4, one code unit. *)
Definition a_umlaut : string := String (Ascii.ascii_of_nat 228) EmptyString.

Module NotificationService.

(** [createNotification(userId, payload)] *)
Definition createNotification (env : Env) (userId : string)
    (payload : NotificationPayload) : M unit :=
  try_catch
    (prisma_notification_create env
       {| input_userId := userId;
          input_type := payload_type payload;
          input_title := payload_title payload;
          input_message := payload_message payload;
          input_scheduledFor := now env;
          input_status := scheduled;
          input_metadata := {| meta_data := payload_data payload;
                               meta_actionUrl := payload_actionUrl payload |} |})
    (λ _, console_error "Error creating notification:").

(** [createBulkNotifications(userIds, payload)] *)
Definition createBulkNotifications (env : Env) (userIds : list string)
    (payload : NotificationPayload) : M unit :=
  try_catch
    (let notifications :=
       (λ userId,
          {| input_userId := userId;
             input_type := payload_type payload;
             input_title := payload_title payload;
             input_message := payload_message payload;
             input_scheduledFor := now env;
             input_status := scheduled;
             input_metadata := {| meta_data := payload_data payload;
                                  meta_actionUrl := payload_actionUrl payload |} |})
       <$> userIds in
     prisma_notification_createMany env notifications)
    (λ _, console_error "Error creating bulk notifications:").

(** [targetType === 'post' ? `/posts/${targetId}`
                           : `/posts/${targetId}#comment-${targetId}`] *)
Definition targetUrl (targetType targetId : string) : string :=
  if decide (targetType = "post") then "/posts/" +:+ targetId
  else "/posts/" +:+ targetId +:+ "#comment-" +:+ targetId.

(** [targetType === 'post' ? 'Post' : 'Kommentar'] *)
Definition targetNoun (targetType : string) : string :=
  if decide (targetType = "post") then "Post" else "Kommentar".

(** [sendMentionNotification(mentionedUserId, mentionerId, targetType,
    targetId, content)] *)
Definition sendMentionNotification (env : Env)
    (mentionedUserId mentionerId targetType targetId content : string) : M unit :=
  let! mentioner := prisma_user_findUnique mentionerId in
  match mentioner with
  | None => ret tt
  | Some mentioner =>
      let actionUrl := targetUrl targetType targetId in
      createNotification env mentionedUserId
        {| payload_type := MENTION;
           payload_title := "Du wurdest erw" +:+ a_umlaut +:+ "hnt";
           payload_message :=
             tmpl (js_or (user_name mentioner) (user_handle mentioner))
             +:+ " hat dich in einem " +:+ targetNoun targetType
             +:+ " erw" +:+ a_umlaut +:+ "hnt";
           payload_data :=
             [("mentionerId", JStr mentionerId);
              ("targetType", JStr targetType);
              ("targetId", JStr targetId);
              ("content", JStr (excerpt content))];
           payload_actionUrl := Some actionUrl |}
  end.

(** [sendReplyNotification(originalAuthorId, replierId, postId, commentId,
    content)] *)
Definition sendReplyNotification (env : Env)
    (originalAuthorId replierId postId commentId content : string) : M unit :=
  let! replier := prisma_user_findUnique replierId in
  match replier with
  | None => ret tt
  | Some replier =>
      if decide (originalAuthorId = replierId) then ret tt
      else
        createNotification env originalAuthorId
          {| payload_type := REPLY;
             payload_title := "Neue Antwort";
             payload_message :=
               tmpl (js_or (user_name replier) (user_handle replier))
               +:+ " hat auf deinen Post geantwortet";
             payload_data :=
               [("replierId", JStr replierId);
                ("postId", JStr postId);
                ("commentId", JStr commentId);
                ("content", JStr (excerpt content))];
             payload_actionUrl :=
               Some ("/posts/" +:+ postId +:+ "#comment-" +:+ commentId) |}
  end.

(** [sendReactionNotification(contentAuthorId, reactorId, targetType,
    targetId, reactionType)] *)
Definition sendReactionNotification (env : Env)
    (contentAuthorId reactorId targetType targetId reactionType : string) : M unit :=
  let! reactor := prisma_user_findUnique reactorId in
  match reactor with
  | None => ret tt
  | Some reactor =>
      if decide (contentAuthorId = reactorId) then ret tt
      else
        let actionUrl := targetUrl targetType targetId in
        createNotification env contentAuthorId
          {| payload_type := REACTION;
             payload_title := "Neue Reaktion";
             payload_message :=
               tmpl (js_or (user_name reactor) (user_handle reactor))
               +:+ " hat deinen " +:+ targetNoun targetType
               +:+ " mit " +:+ reactionType +:+ " reagiert";
             payload_data :=
               [("reactorId", JStr reactorId);
                ("targetType", JStr targetType);
                ("targetId", JStr targetId);
                ("reactionType", JStr reactionType)];
             payload_actionUrl := Some actionUrl |}
  end.

(** [sendPostApprovalNotification(authorId, postId, approved)]; the post is
    read with its group, and [post.group.name] on a post without a group
    is a property read on [null]. *)
Definition sendPostApprovalNotification (env : Env)
    (authorId postId : string) (approved : bool) : M unit :=
  let! post := prisma_post_findUnique postId in
  match post with
  | None => ret tt
  | Some post =>
      let! group := get (λ s, post_groupId post ≫= λ g, groups s !! g) in
      match group with
      | None => throw TypeError
      | Some group =>
          createNotification env authorId
            {| payload_type := if approved then POST_APPROVED else POST_REJECTED;
               payload_title :=
                 if approved then "Post genehmigt" else "Post abgelehnt";
               payload_message :=
                 "Dein Post " +:+ String (Ascii.ascii_of_nat 34) EmptyString
                 +:+ tmpl (js_or (post_title post) (Some "Ohne Titel"))
                 +:+ String (Ascii.ascii_of_nat 34) EmptyString
                 +:+ " in " +:+ group_name group +:+ " wurde "
                 +:+ (if approved then "genehmigt" else "abgelehnt");
               payload_data :=
                 [("postId", JStr postId);
                  ("groupName", JStr (group_name group));
                  ("approved", JBool approved)];
               payload_actionUrl :=
                 if approved then Some ("/posts/" +:+ postId) else None |}
      end
  end.

End NotificationService.

(** ** Reactions *)

(** The bodies the two reaction routes send. *)
Inductive ReactionBody : Type :=
  | ReactionError (error : string)
  | ReactionToggled (message : option string) (action : string)
      (reaction : option Reaction).

(** The block "Send notification to post author" of
    [/posts/:id/reactions]:
    [try { const post = ...; if (post && post.authorId !== userId) await
    NotificationService.sendReactionNotification(...) } catch (error) {
    console.error(...) }] *)
Definition notify_reaction (env : Env) (id userId type : string) : M unit :=
  try_catch
    (let! post := prisma_post_findUnique id in
     match post with
     | Some post =>
         if decide (post_authorId post ≠ userId) then
           NotificationService.sendReactionNotification env
             (post_authorId post) userId "post" id type
         else ret tt
     | None => ret tt
     end)
    (λ _, console_error "Error sending reaction notification:").

(** [router.post('/posts/:id/reactions', requireAuth, ...)] *)
Definition post_posts_id_reactions (env : Env) (user : option string)
    (id : string) (type : option string) : Store → outcome ReactionBody * Store :=
  handler (
    let type := default "like" type in
    match truthy user with
    | None => ret (401, ReactionError "Authentication required")
    | Some userId =>
        let! post := prisma_post_findUnique id in
        match post with
        | None => ret (404, ReactionError "Post not found")
        | Some _ =>
            let! existingReaction := prisma_reaction_findUnique ("post", id, userId) in
            match existingReaction with
            | Some _ =>
                do! prisma_reaction_delete ("post", id, userId) in
                let! _ := prisma_post_update id (post_reactionCount_add (-1)) in
                ret (200, ReactionToggled (Some "Like erfolgreich entfernt!")
                            "removed" None)
            | None =>
                let! reaction := prisma_reaction_create env ("post", id, userId) type in
                let! _ := prisma_post_update id (post_reactionCount_add 1) in
                do! notify_reaction env id userId type in
                ret (200, ReactionToggled (Some "Post erfolgreich geliked!")
                            "added" (Some reaction))
            end
        end
    end).

(** The counter update of the generic route:
    [if (targetType === 'post') ... else if (targetType === 'comment') ...] *)
Definition update_count (targetType targetId : string) (d : Z) : M unit :=
  if decide (targetType = "post") then
    let! _ := prisma_post_update targetId (post_reactionCount_add d) in ret tt
  else if decide (targetType = "comment") then
    let! _ := prisma_comment_update targetId (comment_reactionCount_add d) in ret tt
  else ret tt.

(** [router.post('/reactions', requireAuth, ...)] *)
Definition post_reactions (env : Env) (user : option string)
    (targetType targetId : string) (type : option string)
    : Store → outcome ReactionBody * Store :=
  handler (
    match truthy user with
    | None => ret (401, ReactionError "Authentication required")
    | Some userId =>
        let type := default "like" type in
        let! existingReaction :=
          prisma_reaction_findUnique (targetType, targetId, userId) in
        match existingReaction with
        | Some _ =>
            do! prisma_reaction_delete (targetType, targetId, userId) in
            do! update_count targetType targetId (-1) in
            ret (200, ReactionToggled None "removed" None)
        | None =>
            let! reaction :=
              prisma_reaction_create env (targetType, targetId, userId) type in
            do! update_count targetType targetId 1 in
            ret (201, ReactionToggled None "added" (Some reaction))
        end
    end).

(** ** The reaction ledger as seen from one target *)

(** A target is a pair [(targetType, targetId)]. *)
Definition target : Type := string * string.

(** The rows of the ledger that refer to target [T], whoever reacted. *)
Definition live_rows (s : Store) (T : target) : nat :=
  size (filter (λ kv : string * string * string * Reaction, kv.1.1 = T) (reactions s)).

(** The [reactionCount] column of target [T], when [T] is a post or a
    comment that exists. *)
Definition target_counter (s : Store) (T : target) : option Z :=
  if decide (T.1 = "post") then post_reactionCount <$> posts s !! T.2
  else if decide (T.1 = "comment") then comment_reactionCount <$> comments s !! T.2
  else None.

(** One toggle request: the route it is sent to, the environment it runs
    in, and the [type] of its body. *)
Inductive route : Type := PostsIdReactions | Reactions.

Record toggle := {
  toggle_route : route;
  toggle_env : Env;
  toggle_type : option string
}.

(** [/posts/:id/reactions] reaches posts only. *)
Definition route_serves (T : target) (c : toggle) : Prop :=
  toggle_route c = PostsIdReactions → T.1 = "post".

Definition toggleReaction (T : target) (U : string) (c : toggle)
    : Store → outcome ReactionBody * Store :=
  match toggle_route c with
  | PostsIdReactions =>
      post_posts_id_reactions (toggle_env c) (Some U) T.2 (toggle_type c)
  | Reactions =>
      post_reactions (toggle_env c) (Some U) T.1 T.2 (toggle_type c)
  end.

(** A sequence of toggle requests by [U] on [T], one after the other. *)
Definition run_toggles (T : target) (U : string) (calls : list toggle) (s : Store)
    : Store :=
  foldl (λ s c, (toggleReaction T U c s).2) s calls.

(** The distance between the counter of [T] and the number of its rows. *)
Definition counter_drift (s : Store) (T : target) : option Z :=
  (λ n, n - Z.of_nat (live_rows s T)) <$> target_counter s T.

(** ** What the dispatcher may touch *)

(** Two stores with the same primary tables: they differ at most in the
    notification table and in what was logged. *)
Definition same_primary (s s' : Store) : Prop :=
  users s' = users s ∧ posts s' = posts s ∧ comments s' = comments s ∧
  reactions s' = reactions s ∧ subscriptions s' = subscriptions s ∧
  groups s' = groups s ∧ groupMembers s' = groupMembers s.

(** A computation that returns normally and leaves the primary tables as
    they were. *)
Definition quiet (m : M unit) : Prop :=
  ∀ s, ∃ s', m s = (Ok tt, s') ∧ same_primary s s'.


(** ** Queries

    [findMany({ where, orderBy, skip, take })] filters, orders, then cuts a
    window.  Prisma rejects a negative [skip]; a negative [take] counts from
    the end of the ordered rows.  Query values such as [page] and [limit] are
    taken to be integers when they are present. *)

Definition window {A} (rows : list A) (skip limit : Z) : result (list A) :=
  if decide (skip < 0) then Throw InvalidArgument
  else if decide (0 ≤ limit) then
    Ok (take (Z.to_nat limit) (drop (Z.to_nat skip) rows))
  else
    Ok (reverse (take (Z.to_nat (- limit)) (drop (Z.to_nat skip) (reverse rows)))).

(** [Math.ceil(total / limit)]; not a number when [limit] is zero. *)
Definition pages_of (total limit : Z) : option Z :=
  if decide (limit = 0) then None else Some (- ((- total) `div` limit)).

Record Pagination := {
  pagination_page : Z;
  pagination_limit : Z;
  pagination_total : Z;
  pagination_pages : option Z;
  pagination_hasMore : option bool
}.

(** ** The notification inbox *)

(** [orderBy: { createdAt: 'desc' }] on notifications. *)
Definition newest_first (a b : string * Notification) : Prop :=
  notif_createdAt b.2 ≤ notif_createdAt a.2.

Global Instance newest_first_dec : RelDecision newest_first.
Proof. intros a b. unfold newest_first. apply _. Defined.

(** The [where] clause of the inbox: [{ userId }], with [readAt: null] added
    when [unreadOnly === 'true']. *)
Definition inbox_where (userId : string) (unreadOnly : option string)
    (n : Notification) : bool :=
  bool_decide (notif_userId n = userId)
  && (if decide (unreadOnly = Some "true") then bool_decide (notif_readAt n = None)
      else true).

(** [where: { userId, readAt: null }] *)
Definition unread_of (userId : string) (n : Notification) : bool :=
  bool_decide (notif_userId n = userId) && bool_decide (notif_readAt n = None).

Definition notification_rows (P : Notification → bool) (s : Store)
    : list (string * Notification) :=
  filter (λ kv, P kv.2 = true) (map_to_list (notifications s)).

Definition prisma_notification_findMany (P : Notification → bool) (skip take : Z)
    : M (list (string * Notification)) :=
  λ s, (window (merge_sort newest_first (notification_rows P s)) skip take, s).

Definition prisma_notification_count (P : Notification → bool) : M Z :=
  get (λ s, Z.of_nat (length (notification_rows P s))).

Definition prisma_notification_findUnique (id : string) : M (option Notification) :=
  get (λ s, notifications s !! id).

Definition prisma_notification_update (id : string) (f : Notification → Notification)
    : M Notification :=
  λ s, match notifications s !! id with
       | Some n => (Ok (f n), set_notifications (insert id (f n)) s)
       | None => (Throw RecordNotFound, s)
       end.

Definition prisma_notification_updateMany (P : Notification → bool)
    (f : Notification → Notification) : M unit :=
  modify (set_notifications (fmap (λ n, if P n then f n else n))).

(** [data: { readAt: new Date(), status: 'delivered' }] *)
Definition mark_read (at_ : Z) (n : Notification) : Notification :=
  {| notif_userId := notif_userId n; notif_type := notif_type n;
     notif_title := notif_title n; notif_message := notif_message n;
     notif_scheduledFor := notif_scheduledFor n;
     notif_status := delivered; notif_metadata := notif_metadata n;
     notif_createdAt := notif_createdAt n; notif_readAt := Some at_ |}.

Record NotificationView := {
  view_id : string;
  view_type : NotificationType;
  view_title : string;
  view_message : string;
  view_isRead : bool;
  view_createdAt : Z;
  view_data : list (string * jsval);
  view_actionUrl : option string
}.

Definition transform (kv : string * Notification) : NotificationView :=
  {| view_id := kv.1; view_type := notif_type kv.2;
     view_title := notif_title kv.2; view_message := notif_message kv.2;
     view_isRead := bool_decide (notif_readAt kv.2 ≠ None);
     view_createdAt := notif_createdAt kv.2;
     view_data := meta_data (notif_metadata kv.2);
     view_actionUrl := meta_actionUrl (notif_metadata kv.2) |}.

Inductive InboxBody : Type :=
  | InboxError (error : string)
  | InboxPage (notifications : list NotificationView) (unreadCount : Z)
      (pagination : Pagination)
  | InboxNotification (notification : Notification)
  | InboxMessage (message : string).

(** [router.get('/notifications', requireAuth, ...)] *)
Definition get_notifications (user : option string) (page limit : option Z)
    (unreadOnly : option string) : Store → outcome InboxBody * Store :=
  handler (
    let page := default 1 page in
    let limit := default 20 limit in
    match truthy user with
    | None => ret (401, InboxError "Authentication required")
    | Some userId =>
        let skip := (page - 1) * limit in
        let where_ := inbox_where userId unreadOnly in
        let! notifications := prisma_notification_findMany where_ skip limit in
        let! total := prisma_notification_count where_ in
        let! unreadCount := prisma_notification_count (unread_of userId) in
        ret (200, InboxPage (transform <$> notifications) unreadCount
                    {| pagination_page := page; pagination_limit := limit;
                       pagination_total := total;
                       pagination_pages := pages_of total limit;
                       pagination_hasMore := None |})
    end).

(** [router.post('/notifications/:id/read', requireAuth, ...)] *)
Definition post_notifications_id_read (env : Env) (user : option string)
    (id : string) : Store → outcome InboxBody * Store :=
  handler (
    match truthy user with
    | None => ret (401, InboxError "Authentication required")
    | Some userId =>
        let! notification := prisma_notification_findUnique id in
        match notification with
        | None => ret (404, InboxError "Notification not found")
        | Some notification =>
            if decide (notif_userId notification ≠ userId) then
              ret (403, InboxError "Not authorized")
            else
              let! updatedNotification :=
                prisma_notification_update id (mark_read (now env)) in
              ret (200, InboxNotification updatedNotification)
        end
    end).

(** [router.post('/notifications/read-all', requireAuth, ...)] *)
Definition post_notifications_read_all (env : Env) (user : option string)
    : Store → outcome InboxBody * Store :=
  handler (
    match truthy user with
    | None => ret (401, InboxError "Authentication required")
    | Some userId =>
        do! prisma_notification_updateMany (unread_of userId)
              (mark_read (now env)) in
        ret (200, InboxMessage "All notifications marked as read")
    end).

(** ** The subscription registry *)

Inductive SubscriptionBody : Type :=
  | SubscriptionError (error : string)
  | SubscriptionMessage (message : string).

(** [prisma.subscription.delete({ where: { userId_targetType_targetId } })] *)
Definition prisma_subscription_delete (key : string * string * string)
    : M Subscription :=
  λ s, match subscriptions s !! key with
       | Some row => (Ok row, set_subscriptions (delete key) s)
       | None => (Throw RecordNotFound, s)
       end.

(** [router.delete('/subscriptions/:targetType/:targetId', requireAuth, ...)] *)
Definition delete_subscriptions (user : option string)
    (targetType targetId : string) : Store → outcome SubscriptionBody * Store :=
  handler (
    match truthy user with
    | None => ret (401, SubscriptionError "Authentication required")
    | Some userId =>
        let! _ := prisma_subscription_delete (userId, targetType, targetId) in
        ret (200, SubscriptionMessage "Unsubscribed successfully")
    end).

(** ** The feed *)

(** [{ contains: search, mode: 'insensitive' }]: the comparison is the
    database's.  Prisma sends the search between two [%] as the pattern of a
    case-insensitive [LIKE] and does not escape it, so in the search [%]
    stands for any run of characters, [_] for any one character, and a
    backslash makes the character after it literal.  Letters A to Z are
    folded to lower case. *)
Definition to_lower (a : ascii) : ascii :=
  let n := nat_of_ascii a in
  if ((65 <=? n) && (n <=? 90))%nat then ascii_of_nat (n + 32) else a.

Fixpoint lower (s : string) : string :=
  match s with
  | EmptyString => EmptyString
  | String a s' => String (to_lower a) (lower s')
  end.

(** [value LIKE pattern]; a pattern that ends in a lone backslash, which the
    database rejects, matches nothing (no search gives such a pattern, since
    a [%] follows it). *)
Fixpoint like (pattern : string) : string → bool :=
  match pattern with
  | EmptyString =>
      λ value, match value with EmptyString => true | String _ _ => false end
  | String c p =>
      if (nat_of_ascii c =? 92)%nat then
        match p with
        | EmptyString => λ _, false
        | String d p' =>
            λ value, match value with
                     | EmptyString => false
                     | String e value' => Ascii.eqb d e && like p' value'
                     end
        end
      else if (nat_of_ascii c =? 37)%nat then
        fix any (value : string) : bool :=
          like p value
          || match value with
             | EmptyString => false
             | String _ value' => any value'
             end
      else if (nat_of_ascii c =? 95)%nat then
        λ value, match value with
                 | EmptyString => false
                 | String _ value' => like p value'
                 end
      else
        λ value, match value with
                 | EmptyString => false
                 | String e value' => Ascii.eqb c e && like p value'
                 end
  end.

Definition contains_insensitive (search : string) (field : option string) : bool :=
  match field with
  | Some v => like (lower ("%" +:+ search +:+ "%")) (lower v)
  | None => false
  end.

(** The [where] clause of the feed. *)
Definition feed_where (s : Store) (cursor groupId search : option string)
    (kv : string * Post) : bool :=
  bool_decide (post_status kv.2 = "published")
  && match truthy cursor with
     | Some c => String.ltb kv.1 c
     | None => true
     end
  && match truthy groupId with
     | Some g => bool_decide (post_groupId kv.2 = Some g)
     | None => true
     end
  && match truthy search with
     | Some q =>
         contains_insensitive q (post_title kv.2)
         || contains_insensitive q (Some (post_content kv.2))
         || contains_insensitive q (users s !! post_authorId kv.2 ≫= user_name)
     | None => true
     end.

(** The three orders of the [switch (sort)]. *)
Definition by_createdAt_desc (a b : string * Post) : Prop :=
  post_createdAt b.2 ≤ post_createdAt a.2.

Definition by_reactionCount_desc (a b : string * Post) : Prop :=
  post_reactionCount b.2 ≤ post_reactionCount a.2.

Definition by_trending (a b : string * Post) : Prop :=
  post_reactionCount b.2 < post_reactionCount a.2
  ∨ (post_reactionCount b.2 = post_reactionCount a.2
     ∧ post_createdAt b.2 ≤ post_createdAt a.2).

Global Instance by_createdAt_desc_dec : RelDecision by_createdAt_desc.
Proof. intros a b. unfold by_createdAt_desc. apply _. Defined.
Global Instance by_reactionCount_desc_dec : RelDecision by_reactionCount_desc.
Proof. intros a b. unfold by_reactionCount_desc. apply _. Defined.
Global Instance by_trending_dec : RelDecision by_trending.
Proof. intros a b. unfold by_trending. apply _. Defined.

Definition order_posts (sort : option string) (rows : list (string * Post))
    : list (string * Post) :=
  if decide (sort = Some "top") then merge_sort by_reactionCount_desc rows
  else if decide (sort = Some "trending") then merge_sort by_trending rows
  else merge_sort by_createdAt_desc rows.

Definition post_rows (s : Store) (cursor groupId search : option string)
    : list (string * Post) :=
  filter (λ kv, feed_where s cursor groupId search kv = true) (map_to_list (posts s)).

(** One post of the feed, with the two [_count] values that replace the
    stored counters in the response. *)
Record FeedItem := {
  item_id : string;
  item_post : Post;
  item_reactionCount : Z;
  item_commentCount : Z
}.

(** Modelled from the spec: the relations [reactions] and [comments] of a
    post are declared in the Prisma schema, which is not part of the
    sources; [_count] counts the ledger rows that refer to the post and the
    comments whose [postId] is the post. *)
Definition count_reactions (s : Store) (id : string) : Z :=
  Z.of_nat (live_rows s ("post", id)).

Definition count_comments (s : Store) (id : string) : Z :=
  Z.of_nat (size (filter (λ kv : string * Comment, comment_postId kv.2 = id) (comments s))).

Definition feed_item (s : Store) (kv : string * Post) : FeedItem :=
  {| item_id := kv.1; item_post := kv.2;
     item_reactionCount := count_reactions s kv.1;
     item_commentCount := count_comments s kv.1 |}.

Inductive FeedBody : Type :=
  | FeedPage (posts : list FeedItem) (pagination : Pagination).

(** [const skip = cursor ? 0 : (Number(page) - 1) * Number(limit)] *)
Definition feed_skip (cursor : option string) (page limit : Z) : Z :=
  match truthy cursor with
  | Some _ => 0
  | None => (page - 1) * limit
  end.

(** [router.get('/posts', ...)] *)
Definition get_posts (sort : option string) (page limit : option Z)
    (cursor search groupId : option string) : Store → outcome FeedBody * Store :=
  handler (
    let page := default 1 page in
    let limit := default 20 limit in
    let skip := feed_skip cursor page limit in
    let! posts :=
      (λ s, (window (order_posts sort (post_rows s cursor groupId search)) skip limit, s)) in
    let! total := get (λ s, Z.of_nat (length (post_rows s cursor groupId search))) in
    let! items := get (λ s, feed_item s <$> posts) in
    ret (200, FeedPage items
                {| pagination_page := page; pagination_limit := limit;
                   pagination_total := total;
                   pagination_pages := pages_of total limit;
                   pagination_hasMore := Some (bool_decide (skip + limit < total)) |})).

(** ** Comments, posts and groups: the actions that notify *)

(** [String.prototype.trim], on the white space below U+0100. *)
Definition is_space (a : ascii) : bool :=
  let n := nat_of_ascii a in
  ((n =? 32) || ((9 <=? n) && (n <=? 13)) || (n =? 160))%nat.

Fixpoint trim_start (s : string) : string :=
  match s with
  | EmptyString => EmptyString
  | String a s' => if is_space a then trim_start s' else s
  end.

Definition trim (s : string) : string :=
  String.rev (trim_start (String.rev (trim_start s))).

Inductive CommentBody : Type :=
  | CommentError (error : string)
  | CommentCreated (id : string) (comment : Comment) (reactionCount : Z)
      (message : string).

(** [prisma.comment.create({ data: { postId, authorId, content, parentId } })];
    the counter of a new comment starts at zero. *)
Definition prisma_comment_create (env : Env) (postId authorId content : string)
    (parentId : option string) : M (string * Comment) :=
  λ s, let id := fresh (dom (comments s)) in
       let c := {| comment_postId := postId; comment_authorId := authorId;
                   comment_content := content; comment_parentId := parentId;
                   comment_reactionCount := 0; comment_createdAt := now env |} in
       (Ok (id, c), set_comments (insert id c) s).

(** The block "Send notification to post author" of [/posts/:id/comments]. *)
Definition notify_reply (env : Env) (id userId commentId content : string) : M unit :=
  try_catch
    (let! post := prisma_post_findUnique id in
     match post with
     | Some post =>
         if decide (post_authorId post ≠ userId) then
           NotificationService.sendReplyNotification env
             (post_authorId post) userId id commentId (trim content)
         else ret tt
     | None => ret tt
     end)
    (λ _, console_error "Error sending reply notification:").

(** [router.post('/posts/:id/comments', requireAuth, ...)] *)
Definition post_posts_id_comments (env : Env) (user : option string) (id : string)
    (content parentId : option string) : Store → outcome CommentBody * Store :=
  handler (
    match truthy content with
    | None => ret (400, CommentError "Content is required")
    | Some content =>
        if decide (trim content = "") then
          ret (400, CommentError "Content is required")
        else
        match truthy user with
        | None => ret (401, CommentError "Authentication required")
        | Some userId =>
            let! post := prisma_post_findUnique id in
            match post with
            | None => ret (404, CommentError "Post not found")
            | Some _ =>
                let! parentOk :=
                  match truthy parentId with
                  | Some parentId =>
                      let! parentComment := prisma_comment_findUnique parentId in
                      ret (match parentComment with
                           | Some c => bool_decide (comment_postId c = id)
                           | None => false
                           end)
                  | None => ret true
                  end in
                if negb parentOk then ret (400, CommentError "Invalid parent comment")
                else
                  let! newComment :=
                    prisma_comment_create env id userId (trim content)
                      (truthy parentId) in
                  let! count :=
                    get (λ s, Z.of_nat (live_rows s ("comment", newComment.1))) in
                  let! _ := prisma_post_update id (post_commentCount_add 1) in
                  do! notify_reply env id userId newComment.1 content in
                  ret (201, CommentCreated newComment.1 newComment.2 count
                              "Kommentar erfolgreich erstellt!")
            end
        end
    end).

(** [createPostSchema]: the fields of the body that reach the post row
    ([media] and [ogPreview] are stored as they come and are left out). *)
Record CreatePost := {
  create_title : option string;
  create_content : string;
  create_groupId : option string;
  create_scheduledFor : option Z
}.

(** [createPostSchema.parse(req.body)] *)
Definition parse_createPost (b : CreatePost) : M CreatePost :=
  if match create_title b with
     | Some t => Z.of_nat (String.length t) <=? 200
     | None => true
     end
     && (1 <=? Z.of_nat (String.length (create_content b)))
     && (Z.of_nat (String.length (create_content b)) <=? 10000)
  then ret b else throw ZodError.

Inductive PostBody : Type :=
  | PostError (error : string)
  | PostCreated (id : string) (post : Post) (reactionCount commentCount viewCount : Z)
      (message : string).

(** [prisma.groupMember.findUnique({ where: { groupId_userId } })] *)
Definition prisma_groupMember_findUnique (key : string * string)
    : M (option GroupMember) :=
  get (λ s, groupMembers s !! key).

(** [prisma.post.create({ data })]; the counters of a new post start at
    zero. *)
Definition prisma_post_create (env : Env) (title : option string) (content : string)
    (groupId : option string) (authorId : string) (scheduledFor : option Z)
    (status : string) (publishedAt : option Z) : M (string * Post) :=
  λ s, let id := fresh (dom (posts s)) in
       let p := {| post_title := title; post_content := content;
                   post_authorId := authorId; post_groupId := groupId;
                   post_status := status; post_reactionCount := 0;
                   post_commentCount := 0; post_viewCount := 0;
                   post_scheduledFor := scheduledFor;
                   post_publishedAt := publishedAt;
                   post_createdAt := now env |} in
       (Ok (id, p), set_posts (insert id p) s).

(** [prisma.groupMember.findMany({ where: { groupId, status: 'active',
    userId: { not: userId } }, select: { userId: true } })] *)
Definition active_members_except (groupId userId : string) : M (list string) :=
  get (λ s,
    (λ kv : string * string * GroupMember, kv.1.2)
    <$> filter (λ kv : string * string * GroupMember,
                  kv.1.1 = groupId ∧ member_status kv.2 = "active" ∧ kv.1.2 ≠ userId)
          (map_to_list (groupMembers s))).

(** The block "Send notification to group members" of [/posts]. *)
Definition notify_group (env : Env) (groupId userId postId : string) : M unit :=
  try_catch
    (let! memberIds := active_members_except groupId userId in
     if decide (0 < length memberIds)%nat then
       NotificationService.createBulkNotifications env memberIds
         {| payload_type := POST_CREATED;
            payload_title := "Neuer Post in der Gruppe";
            payload_message := "Ein neuer Post wurde in der Gruppe erstellt";
            payload_data :=
              [("postId", JStr postId); ("groupId", JStr groupId);
               ("authorId", JStr userId)];
            payload_actionUrl := Some ("/posts/" +:+ postId) |}
     else ret tt)
    (λ _, console_error "Error sending group notifications:").

(** [router.post('/posts', requireAuth, ...)] *)
Definition post_posts (env : Env) (user : option string) (body : CreatePost)
    : Store → outcome PostBody * Store :=
  handler (
    match truthy user with
    | None => ret (401, PostError "Authentication required")
    | Some userId =>
        let! validatedData := parse_createPost body in
        if decide (trim (create_content validatedData) = "") then
          ret (400, PostError "Content is required")
        else
          let! member :=
            match truthy (create_groupId validatedData) with
            | Some groupId =>
                let! membership := prisma_groupMember_findUnique (groupId, userId) in
                ret (match membership with
                     | Some m => bool_decide (member_status m = "active")
                     | None => false
                     end)
            | None => ret true
            end in
          if negb member then ret (403, PostError "Not a member of this group")
          else
            let! newPost :=
              prisma_post_create env
                (truthy (trim <$> create_title validatedData))
                (trim (create_content validatedData))
                (truthy (create_groupId validatedData))
                userId
                (create_scheduledFor validatedData)
                (match create_scheduledFor validatedData with
                 | Some _ => "scheduled"
                 | None => "published"
                 end)
                (match create_scheduledFor validatedData with
                 | Some _ => None
                 | None => Some (now env)
                 end) in
            let! reactionCount := get (λ s, count_reactions s newPost.1) in
            let! commentCount := get (λ s, count_comments s newPost.1) in
            do! match truthy (create_groupId validatedData) with
                | Some groupId => notify_group env groupId userId newPost.1
                | None => ret tt
                end in
            ret (201, PostCreated newPost.1 newPost.2 reactionCount commentCount
                        (post_viewCount newPost.2) "Post erfolgreich erstellt!")
    end).

(** [prisma.group.findUnique({ where: { slug } })] *)
Definition prisma_group_findUnique_slug (slug : string) : M (option (string * Group)) :=
  get (λ s, head (filter (λ kv : string * Group, group_slug kv.2 = slug)
                    (map_to_list (groups s)))).

(** [prisma.groupMember.create({ data, include: { user } })]: the pair is
    unique and the member must be a user. *)
Definition prisma_groupMember_create (key : string * string) (m : GroupMember)
    : M (GroupMember * User) :=
  λ s, match groupMembers s !! key with
       | Some _ => (Throw UniqueConstraint, s)
       | None =>
           match users s !! key.2 with
           | Some u => (Ok (m, u), set_groupMembers (insert key m) s)
           | None => (Throw ForeignKeyViolation, s)
           end
       end.

Inductive JoinBody : Type :=
  | JoinError (error : string)
  | Joined (membership : GroupMember) (user : User).

(** The block "Send notification to group owner about new member" of
    [/groups/:slug/join]. *)
Definition notify_owner (env : Env) (group : string * Group) (userId : string)
    (membership : GroupMember * User) : M unit :=
  try_catch
    (if decide (group_ownerId group.2 ≠ userId) then
       NotificationService.createNotification env (group_ownerId group.2)
         {| payload_type := GROUP_JOIN_REQUEST;
            payload_title := "Neues Gruppenmitglied";
            payload_message :=
              tmpl (user_name membership.2) +:+ " ist der Gruppe "
              +:+ String (ascii_of_nat 34) EmptyString +:+ group_name group.2
              +:+ String (ascii_of_nat 34) EmptyString +:+ " beigetreten";
            payload_data :=
              [("groupId", JStr group.1); ("memberId", JStr userId);
               ("status", JStr (member_status membership.1))];
            payload_actionUrl := Some ("/groups/" +:+ group_slug group.2) |}
     else ret tt)
    (λ _, console_error "Error sending group join notification:").

(** [router.post('/groups/:slug/join', requireAuth, ...)] *)
Definition post_groups_slug_join (env : Env) (user : option string) (slug : string)
    : Store → outcome JoinBody * Store :=
  handler (
    match truthy user with
    | None => ret (401, JoinError "Authentication required")
    | Some userId =>
        let! group := prisma_group_findUnique_slug slug in
        match group with
        | None => ret (404, JoinError "Group not found")
        | Some group =>
            let! existingMembership :=
              prisma_groupMember_findUnique (group.1, userId) in
            match existingMembership with
            | Some _ => ret (400, JoinError "Already a member of this group")
            | None =>
                let! membership :=
                  prisma_groupMember_create (group.1, userId)
                    {| member_role := "member";
                       member_status :=
                         if decide (group_visibility group.2 = "public")
                         then "active" else "pending" |} in
                do! notify_owner env group userId membership in
                ret (201, Joined membership.1 membership.2)
            end
        end
    end).

(** The [content] a notification carries in its [data]. *)
Definition stored_content (n : Notification) : option string :=
  match (list_to_map (meta_data (notif_metadata n)) : gmap string jsval) !! "content" with
  | Some (JStr c) => Some c
  | _ => None
  end.

(** The notifications of [s'] that [s] does not have. *)
Definition created (s s' : Store) : gmap string Notification :=
  notifications s' ∖ notifications s.

(** ** A small community, for examples *)

Definition example_env : Env := {| now := 1000; notification_insert_fails := false |}.

Definition ann : User := {| user_name := Some "Ann"; user_handle := Some "ann" |}.
Definition bob : User := {| user_name := None; user_handle := Some "bob" |}.

Definition example_post : Post :=
  {| post_title := Some "Hello"; post_content := "First post";
     post_authorId := "u1"; post_groupId := None; post_status := "published";
     post_reactionCount := 0; post_commentCount := 0; post_viewCount := 0;
     post_scheduledFor := None; post_publishedAt := Some 10; post_createdAt := 10 |}.

Definition example_store : Store :=
  {| users := {["u1" := ann; "u2" := bob]};
     posts := {["p1" := example_post]};
     comments := ∅; reactions := ∅; notifications := ∅; subscriptions := ∅;
     groups := ∅; groupMembers := ∅; console := [] |}.

Definition example_notification (createdAt : Z) (readAt : option Z) : Notification :=
  {| notif_userId := "u1"; notif_type := SYSTEM_ANNOUNCEMENT;
     notif_title := "News"; notif_message := "Hello";
     notif_scheduledFor := createdAt;
     notif_status := match readAt with Some _ => delivered | None => scheduled end;
     notif_metadata := {| meta_data := []; meta_actionUrl := None |};
     notif_createdAt := createdAt; notif_readAt := readAt |}.

(** An inbox of user ["u1"] with three unread and two read notifications. *)
Definition example_inbox : Store :=
  set_notifications
    (λ _, {[ "n1" := example_notification 1 None;
             "n2" := example_notification 2 (Some 20);
             "n3" := example_notification 3 None;
             "n4" := example_notification 4 (Some 40);
             "n5" := example_notification 5 None ]})
    example_store.

(** ** Comparing two runs of a handler *)

(** The same request at the same time, with the storage accepting
    ([false]) or refusing ([true]) notification inserts. *)
Definition with_insert_failure (b : bool) (env : Env) : Env :=
  {| now := now env; notification_insert_fails := b |}.

(** Two runs agree when they leave the same outcome (the same response, or
    the same exception handed to [next]) and the same primary tables. *)
Definition agree {B} (r1 r2 : outcome B * Store) : Prop :=
  r1.1 = r2.1 ∧ same_primary r1.2 r2.2.

(** User ["u1"] follows post ["p1"]. *)
Definition example_subscription : Subscription :=
  {| sub_id := "s1"; sub_inApp := true; sub_email := false; sub_push := false;
     sub_createdAt := 50 |}.

Definition example_subscribed : Store :=
  set_subscriptions (λ _, {[ ("u1", "post", "p1") := example_subscription ]})
    example_store.

(** Three toggle requests, through both routes. *)
Definition example_toggles : list toggle :=
  [ {| toggle_route := PostsIdReactions; toggle_env := example_env;
       toggle_type := None |};
    {| toggle_route := Reactions; toggle_env := example_env;
       toggle_type := Some "love" |};
    {| toggle_route := PostsIdReactions;
       toggle_env := with_insert_failure true example_env;
       toggle_type := Some "like" |} ].

Definition example_post_at (createdAt reactionCount : Z) : Post :=
  {| post_title := Some "Hello"; post_content := "A post";
     post_authorId := "u1"; post_groupId := None; post_status := "published";
     post_reactionCount := reactionCount; post_commentCount := 0;
     post_viewCount := 0; post_scheduledFor := None;
     post_publishedAt := Some createdAt; post_createdAt := createdAt |}.

(** A feed of three published posts. *)
Definition example_feed : Store :=
  set_posts
    (λ _, {[ "p1" := example_post_at 10 5;
             "p2" := example_post_at 20 0;
             "p3" := example_post_at 30 2 ]})
    example_store.

(** A content of 104 characters. *)
Definition example_long_content : string :=
  "0123456789012345678901234567890123456789012345678901234567890123456789012345678901234567890123456789abcd".

(** Post ["pg"] of user ["u1"] in group ["g1"]. *)
Definition example_group_store : Store :=
  {| users := users example_store;
     posts := {[ "pg" := {| post_title := None; post_content := "In the group";
                            post_authorId := "u1"; post_groupId := Some "g1";
                            post_status := "published"; post_reactionCount := 0;
                            post_commentCount := 0; post_viewCount := 0;
                            post_scheduledFor := None; post_publishedAt := Some 10;
                            post_createdAt := 10 |} ]};
     comments := ∅; reactions := ∅; notifications := ∅; subscriptions := ∅;
     groups := {[ "g1" := {| group_slug := "general"; group_name := "General";
                             group_ownerId := "u1"; group_visibility := "public" |} ]};
     groupMembers := {[ ("g1", "u1") := {| member_role := "owner";
                                           member_status := "active" |} ]};
     console := [] |}.

(** ** The remaining routes of the two routers *)

Inductive MessageBody : Type :=
  | MessageError (error : string)
  | MessageOk (message : string).

(** [router.delete('/posts/:id/reactions', requireAuth, ...)] *)
Definition delete_posts_id_reactions (user : option string) (id : string)
    : Store → outcome MessageBody * Store :=
  handler (
    match truthy user with
    | None => ret (401, MessageError "Authentication required")
    | Some userId =>
        let! reaction := prisma_reaction_findUnique ("post", id, userId) in
        match reaction with
        | None => ret (404, MessageError "Reaction not found")
        | Some _ =>
            do! prisma_reaction_delete ("post", id, userId) in
            let! _ := prisma_post_update id (post_reactionCount_add (-1)) in
            ret (200, MessageOk "Like erfolgreich entfernt!")
        end
    end).

(** [prisma.notification.delete({ where: { id } })] *)
Definition prisma_notification_delete (id : string) : M unit :=
  λ s, match notifications s !! id with
       | Some _ => (Ok tt, set_notifications (delete id) s)
       | None => (Throw RecordNotFound, s)
       end.

(** [router.delete('/notifications/:id', requireAuth, ...)] *)
Definition delete_notifications_id (user : option string) (id : string)
    : Store → outcome MessageBody * Store :=
  handler (
    match truthy user with
    | None => ret (401, MessageError "Authentication required")
    | Some userId =>
        let! notification := prisma_notification_findUnique id in
        match notification with
        | None => ret (404, MessageError "Notification not found")
        | Some notification =>
            if decide (notif_userId notification ≠ userId) then
              ret (403, MessageError "Not authorized")
            else
              do! prisma_notification_delete id in
              ret (200, MessageOk "Notification deleted")
        end
    end).

(** The primary keys in use in the subscription table. *)
Definition subscription_ids (m : gmap (string * string * string) Subscription)
    : list string :=
  (λ kv : string * string * string * Subscription, sub_id kv.2) <$> map_to_list m.

(** [prisma.subscription.upsert({ where: { userId_targetType_targetId },
    update: { inApp, email, push }, create: { userId, targetType, targetId,
    inApp, email, push } })] *)
Definition prisma_subscription_upsert (env : Env) (key : string * string * string)
    (inApp email push : bool) : M Subscription :=
  λ s, let row :=
         match subscriptions s !! key with
         | Some old =>
             {| sub_id := sub_id old; sub_inApp := inApp; sub_email := email;
                sub_push := push; sub_createdAt := sub_createdAt old |}
         | None =>
             {| sub_id := fresh (subscription_ids (subscriptions s));
                sub_inApp := inApp; sub_email := email; sub_push := push;
                sub_createdAt := now env |}
         end in
       (Ok row, set_subscriptions (insert key row) s).

Inductive SubscribeBody : Type :=
  | SubscribeError (error : string)
  | Subscribed (subscription : Subscription)
  | SubscriptionList (subscriptions : list (string * string * string * Subscription)).

(** [router.post('/subscriptions', requireAuth, ...)]; the three flags of
    the body default to [true], [false], [false]. *)
Definition post_subscriptions (env : Env) (user : option string)
    (targetType targetId : string) (inApp email push : option bool)
    : Store → outcome SubscribeBody * Store :=
  handler (
    match truthy user with
    | None => ret (401, SubscribeError "Authentication required")
    | Some userId =>
        let inApp := default true inApp in
        let email := default false email in
        let push := default false push in
        let! subscription :=
          prisma_subscription_upsert env (userId, targetType, targetId)
            inApp email push in
        ret (201, Subscribed subscription)
    end).

(** [orderBy: { createdAt: 'desc' }] on subscriptions. *)
Definition newest_subscription_first
    (a b : string * string * string * Subscription) : Prop :=
  sub_createdAt b.2 ≤ sub_createdAt a.2.

Global Instance newest_subscription_first_dec : RelDecision newest_subscription_first.
Proof. intros a b. unfold newest_subscription_first. apply _. Defined.

(** [prisma.subscription.findMany({ where: { userId }, orderBy })] *)
Definition subscriptions_of (userId : string) (s : Store)
    : list (string * string * string * Subscription) :=
  merge_sort newest_subscription_first
    (filter (λ kv : string * string * string * Subscription, kv.1.1.1 = userId)
       (map_to_list (subscriptions s))).

(** [router.get('/subscriptions', requireAuth, ...)] *)
Definition get_subscriptions (user : option string)
    : Store → outcome SubscribeBody * Store :=
  handler (
    match truthy user with
    | None => ret (401, SubscribeError "Authentication required")
    | Some userId =>
        let! subscriptions := get (subscriptions_of userId) in
        ret (200, SubscriptionList subscriptions)
    end).

(** [data: { viewCount: { increment: d } }] *)
Definition post_viewCount_add (d : Z) (p : Post) : Post :=
  {| post_title := post_title p; post_content := post_content p;
     post_authorId := post_authorId p; post_groupId := post_groupId p;
     post_status := post_status p;
     post_reactionCount := post_reactionCount p;
     post_commentCount := post_commentCount p;
     post_viewCount := post_viewCount p + d;
     post_scheduledFor := post_scheduledFor p;
     post_publishedAt := post_publishedAt p;
     post_createdAt := post_createdAt p |}.

(** [orderBy: { createdAt: 'asc' }] on comments. *)
Definition oldest_comment_first (a b : string * Comment) : Prop :=
  comment_createdAt a.2 ≤ comment_createdAt b.2.

Global Instance oldest_comment_first_dec : RelDecision oldest_comment_first.
Proof. intros a b. unfold oldest_comment_first. apply _. Defined.

(** A post as [/posts/:id] sends it: the row with its author, its group, its
    comments oldest first, and the two [_count] values. *)
Record PostDetail := {
  detail_id : string;
  detail_post : Post;
  detail_author : option User;
  detail_group : option Group;
  detail_comments : list (string * Comment);
  detail_count_comments : Z;
  detail_count_reactions : Z
}.

Inductive PostDetailBody : Type :=
  | PostDetailError (error : string)
  | PostDetailOk (post : PostDetail).

(** [prisma.post.findUnique({ where: { id }, include: { author, group,
    comments, _count } })] *)
Definition post_detail (s : Store) (id : string) : option PostDetail :=
  (λ p, {| detail_id := id; detail_post := p;
           detail_author := users s !! post_authorId p;
           detail_group := post_groupId p ≫= λ g, groups s !! g;
           detail_comments :=
             merge_sort oldest_comment_first
               (filter (λ kv : string * Comment, comment_postId kv.2 = id)
                  (map_to_list (comments s)));
           detail_count_comments := count_comments s id;
           detail_count_reactions := count_reactions s id |})
  <$> posts s !! id.

(** [router.get('/posts/:id', ...)] *)
Definition get_posts_id (id : string) : Store → outcome PostDetailBody * Store :=
  handler (
    let! post := get (λ s, post_detail s id) in
    match post with
    | None => ret (404, PostDetailError "Post not found")
    | Some post =>
        let! _ := prisma_post_update id (post_viewCount_add 1) in
        ret (200, PostDetailOk post)
    end).

(** [createCommentSchema]: the body of [/comments]. *)
Record CreateComment := {
  create_postId : string;
  create_parentId : option string;
  create_comment_content : string
}.

(** [createCommentSchema.parse(req.body)] *)
Definition parse_createComment (b : CreateComment) : M CreateComment :=
  if (1 <=? Z.of_nat (String.length (create_comment_content b)))
     && (Z.of_nat (String.length (create_comment_content b)) <=? 2000)
  then ret b else throw ZodError.

(** [prisma.comment.create({ data: { ...validatedData, authorId } })]: the
    parent, when one is given, must be a comment. *)
Definition prisma_comment_create_data (env : Env) (data : CreateComment)
    (authorId : string) : M (string * Comment) :=
  λ s, match create_parentId data ≫= λ p,
               match comments s !! p with Some _ => None | None => Some p end with
       | Some _ => (Throw ForeignKeyViolation, s)
       | None =>
           let id := fresh (dom (comments s)) in
           let c := {| comment_postId := create_postId data;
                       comment_authorId := authorId;
                       comment_content := create_comment_content data;
                       comment_parentId := create_parentId data;
                       comment_reactionCount := 0;
                       comment_createdAt := now env |} in
           (Ok (id, c), set_comments (insert id c) s)
       end.

Inductive CommentRouteBody : Type :=
  | CommentRouteError (error : string)
  | CommentRouteCreated (id : string) (comment : Comment) (author : option User)
      (reactions : Z).

(** [router.post('/comments', requireAuth, ...)]; the membership is looked
    up under [post.groupId], and Prisma rejects the lookup when that is
    [null]. *)
Definition post_comments (env : Env) (user : option string) (body : CreateComment)
    : Store → outcome CommentRouteBody * Store :=
  handler (
    match truthy user with
    | None => ret (401, CommentRouteError "Authentication required")
    | Some userId =>
        let! validatedData := parse_createComment body in
        let! post := prisma_post_findUnique (create_postId validatedData) in
        match post with
        | None => ret (404, CommentRouteError "Post not found")
        | Some post =>
            let! membership :=
              match post_groupId post with
              | Some groupId => prisma_groupMember_findUnique (groupId, userId)
              | None => throw InvalidArgument
              end in
            if match membership with
               | Some m => bool_decide (member_status m = "active")
               | None => false
               end
            then
              let! comment := prisma_comment_create_data env validatedData userId in
              let! author := prisma_user_findUnique userId in
              let! count :=
                get (λ s, Z.of_nat (live_rows s ("comment", comment.1))) in
              let! _ :=
                prisma_post_update (create_postId validatedData)
                  (post_commentCount_add 1) in
              ret (201, CommentRouteCreated comment.1 comment.2 author count)
            else ret (403, CommentRouteError "Not a member of this group")
        end
    end).





(** The order the feed gives its rows under [sort]. *)
Definition feed_order (sort : option string) : relation (string * Post) :=
  if decide (sort = Some "top") then by_reactionCount_desc
  else if decide (sort = Some "trending") then by_trending
  else by_createdAt_desc.

(** A computation that returns normally, leaves the primary tables as they
    were and every existing notification in place. *)
Definition additive (m : M unit) : Prop :=
  ∀ s, ∃ s', m s = (Ok tt, s') ∧ same_primary s s' ∧
             notifications s ⊆ notifications s'.

(** The distance between the [commentCount] of a post and the number of
    comments stored for it. *)
Definition comment_drift (s : Store) (id : string) : option Z :=
  (λ p, post_commentCount p - count_comments s id) <$> posts s !! id.

(** Every reply has its parent among the comments of the same post. *)
Definition parents_same_post (s : Store) : Prop :=
  ∀ cid c pid,
    comments s !! cid = Some c → comment_parentId c = Some pid →
    ∃ pc, comments s !! pid = Some pc ∧ comment_postId pc = comment_postId c.

(** [n] requests for [/posts/:id], one after the other: what each was
    answered, and the store they leave. *)
Fixpoint view_times (n : nat) (id : string) (s : Store)
    : list (outcome PostDetailBody) * Store :=
  match n with
  | O => ([], s)
  | S n => let r := get_posts_id id s in
           let rs := view_times n id r.2 in (r.1 :: rs.1, rs.2)
  end.

(** The detail [d] of a post with [k] more views counted. *)
Definition viewed (k : Z) (d : PostDetail) : PostDetail :=
  {| detail_id := detail_id d;
     detail_post := post_viewCount_add k (detail_post d);
     detail_author := detail_author d; detail_group := detail_group d;
     detail_comments := detail_comments d;
     detail_count_comments := detail_count_comments d;
     detail_count_reactions := detail_count_reactions d |}.

(** ** More example data *)

(** The example store after user ["u2"] has liked post ["p1"]. *)
Definition example_liked : Store :=
  (post_posts_id_reactions example_env (Some "u2") "p1" None example_store).2.

(** A like through [/posts/:id/reactions] and a toggle through
    [/reactions]. *)
Definition example_like : toggle :=
  {| toggle_route := PostsIdReactions; toggle_env := example_env;
     toggle_type := None |}.

Definition example_unlike : toggle :=
  {| toggle_route := Reactions; toggle_env := example_env;
     toggle_type := Some "love" |}.

(** Group ["g1"] with user ["u2"] as a second active member. *)
Definition example_members : Store :=
  set_groupMembers
    (insert ("g1", "u2") {| member_role := "member"; member_status := "active" |})
    example_group_store.

(** A post for group ["g1"]. *)
Definition example_group_post : CreatePost :=
  {| create_title := None; create_content := " Hi all ";
     create_groupId := Some "g1"; create_scheduledFor := None |}.

(** Group ["g1"] with a second post ["pg2"] and a comment ["c1"] on it. *)
Definition example_threads : Store :=
  set_comments
    (insert "c1" {| comment_postId := "pg2"; comment_authorId := "u1";
                    comment_content := "On the other post";
                    comment_parentId := None; comment_reactionCount := 0;
                    comment_createdAt := 30 |})
    (set_posts
       (insert "pg2" {| post_title := None; post_content := "Another one";
                        post_authorId := "u1"; post_groupId := Some "g1";
                        post_status := "published"; post_reactionCount := 0;
                        post_commentCount := 1; post_viewCount := 0;
                        post_scheduledFor := None; post_publishedAt := Some 20;
                        post_createdAt := 20 |})
       example_group_store).

(** A reply sent to [/comments] for post ["pg"] under comment ["c1"]. *)
Definition example_reply : CreateComment :=
  {| create_postId := "pg"; create_parentId := Some "c1";
     create_comment_content := "Me too" |}.

(** * Properties *)

Lemma same_primary_refl s : same_primary s s.
Proof. by repeat split. Qed.

Lemma same_primary_trans s1 s2 s3 :
  same_primary s1 s2 → same_primary s2 s3 → same_primary s1 s3.
Proof.
  intros (?&?&?&?&?&?&?) (?&?&?&?&?&?&?). repeat split; congruence.
Qed.

Lemma truthy_Some U : U ≠ "" → truthy (Some U) = Some U.
Proof. by destruct U. Qed.

Lemma quiet_ret : quiet (ret tt).
Proof. intros s. exists s. split; [done | apply same_primary_refl]. Qed.

Lemma quiet_console_error msg : quiet (console_error msg).
Proof. intros s. eexists. split; [done | by repeat split]. Qed.

Lemma quiet_createNotification env userId payload :
  quiet (NotificationService.createNotification env userId payload).
Proof.
  intros s. unfold NotificationService.createNotification, try_catch,
    prisma_notification_create.
  destruct (notification_insert_fails env).
  - apply quiet_console_error.
  - eexists. split; [done | by repeat split].
Qed.

Lemma quiet_createBulkNotifications env userIds payload :
  quiet (NotificationService.createBulkNotifications env userIds payload).
Proof.
  intros s. unfold NotificationService.createBulkNotifications, try_catch,
    prisma_notification_createMany.
  destruct (notification_insert_fails env).
  - apply quiet_console_error.
  - eexists. split; [done | by repeat split].
Qed.

Lemma quiet_sendReactionNotification env a r tt' tid ty :
  quiet (NotificationService.sendReactionNotification env a r tt' tid ty).
Proof.
  intros s. unfold NotificationService.sendReactionNotification, bind,
    prisma_user_findUnique, get.
  destruct (users s !! r); [| apply quiet_ret].
  case_decide; [apply quiet_ret | apply quiet_createNotification].
Qed.

Lemma quiet_sendReplyNotification env a r p c content :
  quiet (NotificationService.sendReplyNotification env a r p c content).
Proof.
  intros s. unfold NotificationService.sendReplyNotification, bind,
    prisma_user_findUnique, get.
  destruct (users s !! r); [| apply quiet_ret].
  case_decide; [apply quiet_ret | apply quiet_createNotification].
Qed.

Lemma quiet_sendMentionNotification env a r tt' tid content :
  quiet (NotificationService.sendMentionNotification env a r tt' tid content).
Proof.
  intros s. unfold NotificationService.sendMentionNotification, bind,
    prisma_user_findUnique, get.
  destruct (users s !! r); [apply quiet_createNotification | apply quiet_ret].
Qed.

(** ** The reaction ledger *)

(** The notification block of [/posts/:id/reactions]: whatever happens in
    it, it returns normally and leaves the primary tables alone. *)
Lemma quiet_try_catch (body : M unit) msg :
  (∀ s, same_primary s (body s).2) →
  quiet (try_catch body (λ _, console_error msg)).
Proof.
  intros Hbody s. unfold try_catch. specialize (Hbody s).
  destruct (body s) as [[[]|e] s']; simpl in *.
  - by exists s'.
  - destruct (quiet_console_error msg s') as (s''&->&?).
    exists s''. split; [done|]. by eapply same_primary_trans.
Qed.

Lemma quiet_snd (m : M unit) s : quiet m → same_primary s (m s).2.
Proof. intros Hq. by destruct (Hq s) as (s'&->&?). Qed.

Lemma live_rows_insert s T U r :
  reactions s !! (T.1, T.2, U) = None →
  size (filter (λ kv : string * string * string * Reaction, kv.1.1 = T)
          (<[(T.1, T.2, U) := r]> (reactions s)))
  = S (live_rows s T).
Proof.
  intros Hnone. rewrite map_filter_insert_True; [| by destruct T].
  rewrite map_size_insert_None; [done|].
  by rewrite map_lookup_filter_None; left.
Qed.

Lemma live_rows_delete s T U r :
  reactions s !! (T.1, T.2, U) = Some r →
  S (size (filter (λ kv : string * string * string * Reaction, kv.1.1 = T)
             (delete (T.1, T.2, U) (reactions s))))
  = live_rows s T.
Proof.
  intros Hsome. rewrite map_filter_delete. unfold live_rows.
  assert (Hl : filter (λ kv : string * string * string * Reaction, kv.1.1 = T)
            (reactions s) !! (T.1, T.2, U) = Some r).
  { apply map_lookup_filter_Some. split; [done | by destruct T]. }
  rewrite map_size_delete, Hl.
  destruct (size _) eqn:Hz; [| done].
  apply map_size_empty_inv in Hz. rewrite Hz in Hl. by rewrite lookup_empty in Hl.
Qed.

Lemma quiet_notify_reaction env id userId type :
  quiet (notify_reaction env id userId type).
Proof.
  apply quiet_try_catch. intros s. unfold bind, prisma_post_findUnique, get.
  destruct (posts s !! id); [| apply same_primary_refl].
  case_decide; [| apply same_primary_refl].
  apply quiet_snd, quiet_sendReactionNotification.
Qed.

(** One toggle request by an authenticated user on an existing target
    flips the row of [(T, U)] and moves the counter of [T] by one in the
    same direction. *)
Lemma toggle_step T U c s :
  U ≠ "" → is_Some (target_counter s T) → route_serves T c →
  let s' := (toggleReaction T U c s).2 in
  match reactions s !! (T.1, T.2, U) with
  | Some _ =>
      reactions s' = delete (T.1, T.2, U) (reactions s) ∧
      target_counter s' T = (λ n, n - 1) <$> target_counter s T
  | None =>
      (∃ r, reactions s' = <[(T.1, T.2, U) := r]> (reactions s)) ∧
      target_counter s' T = (λ n, n + 1) <$> target_counter s T
  end.
Proof.
  destruct T as [ty tid], c as [rt env type]. unfold route_serves, toggleReaction.
  cbn [fst snd toggle_route toggle_env toggle_type]. intros HU Hex Hroute.
  destruct rt.
  - (* /posts/:id/reactions *)
    assert (ty = "post") as -> by auto. clear Hroute.
    unfold target_counter in *. cbn [fst snd] in *.
    rewrite decide_True in Hex by done. rewrite !decide_True by done.
    destruct (posts s !! tid) as [p|] eqn:Hp; [| by destruct Hex].
    unfold post_posts_id_reactions, handler, bind. rewrite (truthy_Some U HU).
    unfold prisma_post_findUnique, prisma_reaction_findUnique, get.
    rewrite Hp.
    destruct (reactions s !! ("post", tid, U)) as [r|] eqn:Hr.
    + unfold prisma_reaction_delete, prisma_post_update. rewrite Hr. cbn.
      rewrite Hp. cbn. split; [done|]. by rewrite lookup_insert_eq.
    + unfold prisma_reaction_create, prisma_post_update. rewrite Hr. cbn.
      rewrite Hp.
      match goal with
      | |- context [notify_reaction ?e ?i ?u ?t ?st] =>
          destruct (quiet_notify_reaction e i u t st) as (s'&->&Hq)
      end.
      destruct Hq as (_&Hposts&_&Hreact&_). cbn in *.
      rewrite Hposts, Hreact. split; [eauto|]. by rewrite lookup_insert_eq.
  - (* /reactions *)
    clear Hroute. unfold target_counter in *. cbn [fst snd] in *.
    unfold post_reactions, handler, bind. rewrite (truthy_Some U HU).
    unfold prisma_reaction_findUnique, get, update_count, bind.
    destruct (decide (ty = "post")) as [->|Hpost].
    + destruct (posts s !! tid) as [p|] eqn:Hp; [| by destruct Hex].
      destruct (reactions s !! ("post", tid, U)) as [r|] eqn:Hr.
      * unfold prisma_reaction_delete, prisma_post_update. rewrite Hr. cbn.
        rewrite Hp. cbn. split; [done|]. by rewrite lookup_insert_eq.
      * unfold prisma_reaction_create, prisma_post_update. rewrite Hr. cbn.
        rewrite Hp. cbn.
        split; [eauto|]. by rewrite lookup_insert_eq.
    + destruct (decide (ty = "comment")) as [->|Hcomment]; [| by destruct Hex].
      destruct (comments s !! tid) as [p|] eqn:Hp; [| by destruct Hex].
      destruct (reactions s !! ("comment", tid, U)) as [r|] eqn:Hr.
      * unfold prisma_reaction_delete, prisma_comment_update. rewrite Hr. cbn.
        rewrite Hp. cbn. split; [done|]. by rewrite lookup_insert_eq.
      * unfold prisma_reaction_create, prisma_comment_update. rewrite Hr. cbn.
        rewrite Hp. cbn.
        split; [eauto|]. by rewrite lookup_insert_eq.
Qed.

Lemma toggle_step_inv T U c s :
  U ≠ "" → is_Some (target_counter s T) → route_serves T c →
  let s' := (toggleReaction T U c s).2 in
  is_Some (target_counter s' T) ∧
  bool_decide (is_Some (reactions s' !! (T.1, T.2, U)))
  = negb (bool_decide (is_Some (reactions s !! (T.1, T.2, U)))) ∧
  counter_drift s' T = counter_drift s T.
Proof.
  intros HU Hex Hroute. pose proof (toggle_step T U c s HU Hex Hroute) as Hstep.
  cbn zeta in *. destruct Hex as [n Hn]. unfold counter_drift.
  destruct (reactions s !! (T.1, T.2, U)) as [r|] eqn:Hr.
  - destruct Hstep as [Hreact Hcount]. rewrite Hcount, Hn, Hreact. cbn.
    rewrite lookup_delete_eq. split; [eauto|]. split; [done|].
    unfold live_rows at 1. rewrite Hreact.
    rewrite <- (live_rows_delete s T U r Hr). f_equal. lia.
  - destruct Hstep as [[r Hreact] Hcount]. rewrite Hcount, Hn, Hreact. cbn.
    rewrite lookup_insert_eq. split; [eauto|]. split; [done|].
    unfold live_rows at 1. rewrite Hreact.
    rewrite (live_rows_insert s T U r Hr). f_equal. lia.
Qed.

Lemma run_toggles_inv T U calls : ∀ s,
  U ≠ "" → is_Some (target_counter s T) → Forall (route_serves T) calls →
  let s' := run_toggles T U calls s in
  is_Some (target_counter s' T) ∧
  bool_decide (is_Some (reactions s' !! (T.1, T.2, U)))
  = xorb (bool_decide (is_Some (reactions s !! (T.1, T.2, U))))
         (Nat.odd (length calls)) ∧
  counter_drift s' T = counter_drift s T.
Proof.
  induction calls as [|c calls IH]; intros s HU Hex Hserve; cbn zeta.
  - cbn. split; [done|]. split; [| done]. by rewrite xorb_false_r.
  - apply Forall_cons in Hserve as [Hc Hcalls].
    destruct (toggle_step_inv T U c s HU Hex Hc) as (Hex'&Hflip&Hdrift).
    destruct (IH _ HU Hex' Hcalls) as (Hex''&Hpar&Hdrift').
    cbn [run_toggles foldl] in *. split; [done|]. split.
    + unfold run_toggles in Hpar. rewrite Hpar, Hflip.
      change (length (c :: calls)) with (S (length calls)).
      rewrite Nat.odd_succ, <- Nat.negb_odd.
      by destruct (bool_decide (is_Some (reactions s !! _))), (Nat.odd _).
    + unfold run_toggles in Hdrift'. by rewrite Hdrift'.
Qed.

(** C1. For a target [T] that is an existing post or comment and an
    authenticated user [U] with no reaction on [T], after any finite sequence
    of toggle requests by [U] on [T] (through either reaction route, the
    post route serving posts only) the ledger holds a row for [(T, U)]
    exactly when the number of requests is odd; and if the [reactionCount]
    of [T] was the number of ledger rows of [T] over all users before, it is
    again afterwards. *)
Theorem toggle_parity_and_counter (s : Store) (T : target) (U : string)
    (calls : list toggle) :
  U ≠ "" →
  is_Some (target_counter s T) →
  Forall (route_serves T) calls →
  reactions s !! (T.1, T.2, U) = None →
  let s' := run_toggles T U calls s in
  (is_Some (reactions s' !! (T.1, T.2, U)) ↔ Nat.Odd (length calls)) ∧
  (target_counter s T = Some (Z.of_nat (live_rows s T)) →
   target_counter s' T = Some (Z.of_nat (live_rows s' T))).
Proof.
  intros HU Hex Hserve Hnone.
  destruct (run_toggles_inv T U calls s HU Hex Hserve) as (Hex'&Hpar&Hdrift).
  cbn zeta in *. split.
  - rewrite Hnone in Hpar.
    rewrite (bool_decide_eq_false_2 (is_Some None)) in Hpar
      by apply is_Some_None.
    rewrite xorb_false_l in Hpar. rewrite <- Nat.odd_spec, <- Hpar.
    by rewrite bool_decide_eq_true.
  - intros Hcons. unfold counter_drift in Hdrift. rewrite Hcons in Hdrift.
    destruct Hex' as [n Hn]. rewrite Hn in *. cbn in Hdrift.
    f_equal. injection Hdrift. lia.
Qed.

(** C10. On the generic route, a [targetType] that is neither ['post'] nor
    ['comment'] still toggles the ledger row of the triple
    [(targetType, targetId, userId)], answering ['added'] with the new row
    or ['removed'], and no post and no comment is written. *)
Theorem other_target_no_counter (env : Env) (U targetType targetId : string)
    (type : option string) (s : Store) :
  U ≠ "" → targetType ≠ "post" → targetType ≠ "comment" →
  let key := (targetType, targetId, U) in
  let res := post_reactions env (Some U) targetType targetId type s in
  posts res.2 = posts s ∧ comments res.2 = comments s ∧
  match reactions s !! key with
  | None =>
      ∃ r, res.1 = Respond 201 (ReactionToggled None "added" (Some r)) ∧
           reaction_type r = default "like" type ∧
           reactions res.2 = <[key := r]> (reactions s)
  | Some _ =>
      res.1 = Respond 200 (ReactionToggled None "removed" None) ∧
      reactions res.2 = delete key (reactions s)
  end.
Proof.
  intros HU Hpost Hcomment. cbn zeta.
  unfold post_reactions, handler, bind. rewrite (truthy_Some U HU).
  unfold prisma_reaction_findUnique, get, update_count.
  rewrite !(decide_False (P := targetType = "post")) by done.
  rewrite !(decide_False (P := targetType = "comment")) by done.
  destruct (reactions s !! (targetType, targetId, U)) as [r|] eqn:Hr.
  - unfold prisma_reaction_delete. rewrite Hr. by cbn.
  - unfold prisma_reaction_create. rewrite Hr. cbn. repeat split.
    eexists. by repeat split.
Qed.

(** ** The inbox *)

(** C4. Marking a notification read answers 404 when no notification has
    the id, 403 when it belongs to another user, both without writing; for
    the recipient it answers 200 and stores the notification with [readAt]
    the current time and status [delivered]. *)
Theorem mark_read_outcomes (env : Env) (U id : string) (s : Store) :
  U ≠ "" →
  match notifications s !! id with
  | None =>
      post_notifications_id_read env (Some U) id s
      = (Respond 404 (InboxError "Notification not found"), s)
  | Some n =>
      if decide (notif_userId n = U) then
        ∃ n', post_notifications_id_read env (Some U) id s
              = (Respond 200 (InboxNotification n'),
                 set_notifications (insert id n') s) ∧
              notif_readAt n' = Some (now env) ∧ notif_status n' = delivered ∧
              n' = mark_read (now env) n
      else
        post_notifications_id_read env (Some U) id s
        = (Respond 403 (InboxError "Not authorized"), s)
  end.
Proof.
  intros HU. unfold post_notifications_id_read, handler, bind.
  rewrite (truthy_Some U HU). unfold prisma_notification_findUnique, get.
  destruct (notifications s !! id) as [n|] eqn:Hn; [| done].
  destruct (decide (notif_userId n = U)) as [Hown|Hother].
  - rewrite decide_False by (by intros ?). unfold prisma_notification_update.
    rewrite Hn. by eexists.
  - by rewrite decide_True.
Qed.

Lemma mark_all_twice U t1 t2 (m : gmap string Notification) :
  (λ n, if unread_of U n then mark_read t2 n else n)
  <$> ((λ n, if unread_of U n then mark_read t1 n else n) <$> m)
  = (λ n, if unread_of U n then mark_read t1 n else n) <$> m.
Proof.
  rewrite <- map_fmap_compose. apply map_fmap_ext. intros id n _. cbn.
  destruct (unread_of U n) eqn:Hu; [| by rewrite Hu].
  unfold unread_of. cbn. by rewrite andb_false_r.
Qed.

(** C8. Marking all read a second time, at whatever later time, changes
    nothing: the store after two calls is the store after one, and both
    calls send the same answer.  After the first call no notification of the
    user is unread, so the second call matches no row. *)
Theorem mark_all_read_idempotent (env1 env2 : Env) (user : option string)
    (s : Store) :
  let once := post_notifications_read_all env1 user s in
  post_notifications_read_all env2 user once.2 = (once.1, once.2) ∧
  ∀ U id n, truthy user = Some U →
            notifications once.2 !! id = Some n → unread_of U n = false.
Proof.
  cbn zeta. unfold post_notifications_read_all, handler, bind.
  destruct (truthy user) as [U|]; [| done].
  unfold prisma_notification_updateMany, modify. cbn. split.
  - f_equal. destruct s. unfold set_notifications. cbn. f_equal.
    apply mark_all_twice.
  - intros ? id n [= <-]. rewrite lookup_fmap.
    destruct (notifications s !! id) as [n0|]; [| done]. cbn. intros [= <-].
    destruct (unread_of U n0) eqn:Hu; [| done].
    unfold unread_of. cbn. apply andb_false_r.
Qed.

(** ** The builders *)

Lemma substring_0_length n : ∀ s,
  (n ≤ String.length s)%nat → String.length (String.substring 0 n s) = n.
Proof.
  induction n as [|n IH]; intros [|a s] Hle; cbn in *; try done; try lia.
  f_equal. apply IH. lia.
Qed.

Lemma substring_0_prefix n : ∀ s,
  ∃ rest, s = String.substring 0 n s +:+ rest.
Proof.
  induction n as [|n IH]; intros [|a s]; cbn.
  - by exists "".
  - by exists (String a s).
  - by exists "".
  - destruct (IH s) as [rest Hrest]. exists rest.
    change (String a s = String a (String.substring 0 n s +:+ rest)).
    by rewrite <- Hrest.
Qed.

Lemma substring_0_all n : ∀ s,
  (String.length s ≤ n)%nat → String.substring 0 n s = s.
Proof.
  induction n as [|n IH]; intros [|a s] Hle; cbn in *; try done; try lia.
  f_equal. apply IH. lia.
Qed.

Lemma append_empty_r s : s +:+ "" = s.
Proof.
  induction s as [|a s IH]; [done|].
  change (String a (s +:+ "") = String a s). by rewrite IH.
Qed.

Lemma excerpt_long content :
  (100 < String.length content)%nat →
  ∃ first rest, content = first +:+ rest ∧ String.length first = 100%nat ∧
                excerpt content = first +:+ "...".
Proof.
  intros Hlong. destruct (substring_0_prefix 100 content) as [rest Hrest].
  exists (String.substring 0 100 content), rest. split; [done|]. split.
  - apply substring_0_length. lia.
  - unfold excerpt. by rewrite decide_True.
Qed.

Lemma excerpt_short content :
  (String.length content ≤ 100)%nat → excerpt content = content.
Proof.
  intros Hshort. unfold excerpt. rewrite decide_False by lia.
  rewrite substring_0_all by done. apply append_empty_r.
Qed.

(** A notification insert that the storage accepts adds one row under an
    unused id. *)
Lemma created_insert env i s :
  created s (set_notifications (insert_notification env i) s)
  = {[fresh (dom (notifications s)) := notification_of_input env i]}.
Proof.
  unfold created, insert_notification. cbn.
  assert (Hfresh : notifications s !! fresh (dom (notifications s)) = None).
  { apply not_elem_of_dom, is_fresh. }
  apply map_eq. intros id. rewrite lookup_difference.
  destruct (decide (id = fresh (dom (notifications s)))) as [->|Hne].
  - by rewrite Hfresh, lookup_insert_eq, lookup_singleton_eq.
  - rewrite lookup_insert_ne, lookup_singleton_ne by done.
    by destruct (notifications s !! id).
Qed.

Lemma run_createNotification env userId payload s :
  notification_insert_fails env = false →
  NotificationService.createNotification env userId payload s
  = (Ok tt,
     set_notifications
       (insert_notification env
          {| input_userId := userId;
             input_type := payload_type payload;
             input_title := payload_title payload;
             input_message := payload_message payload;
             input_scheduledFor := now env;
             input_status := scheduled;
             input_metadata := {| meta_data := payload_data payload;
                                  meta_actionUrl := payload_actionUrl payload |} |})
       s).
Proof.
  intros Hok. unfold NotificationService.createNotification, try_catch,
    prisma_notification_create. by rewrite Hok.
Qed.

(** C7. When the storage accepts the insert and the actor is a user other
    than the recipient, the mention builder and the reply builder each
    create one notification, and both store the same content: for a content
    longer than 100 characters, its first 100 characters followed by
    ["..."]; for a content of at most 100 characters, the content itself. *)
Theorem content_truncated (env : Env) (s : Store) (recipient actor : string)
    (who : User) (targetType targetId postId commentId content : string) :
  notification_insert_fails env = false →
  users s !! actor = Some who →
  recipient ≠ actor →
  let after_mention :=
    (NotificationService.sendMentionNotification env recipient actor
       targetType targetId content s).2 in
  let after_reply :=
    (NotificationService.sendReplyNotification env recipient actor
       postId commentId content s).2 in
  ∃ id1 n1 id2 n2 stored,
    created s after_mention = {[id1 := n1]} ∧ notif_type n1 = MENTION ∧
    created s after_reply = {[id2 := n2]} ∧ notif_type n2 = REPLY ∧
    stored_content n1 = Some stored ∧ stored_content n2 = Some stored ∧
    ((100 < String.length content)%nat →
       ∃ first rest, content = first +:+ rest ∧ String.length first = 100%nat ∧
                     stored = first +:+ "...") ∧
    ((String.length content ≤ 100)%nat → stored = content).
Proof.
  intros Hok Hwho Hne. cbn zeta.
  unfold NotificationService.sendMentionNotification,
    NotificationService.sendReplyNotification, bind, prisma_user_findUnique, get.
  rewrite Hwho. rewrite decide_False by done.
  rewrite !run_createNotification by done. cbn [snd].
  rewrite !created_insert.
  do 4 eexists. exists (excerpt content).
  split; [done|]. split; [done|]. split; [done|]. split; [done|].
  split; [done|]. split; [done|]. split.
  - apply excerpt_long.
  - apply excerpt_short.
Qed.

(** C3, as the code has it. The reply builder and the reaction builder
    create nothing, and return normally, when the actor is the author of
    the content or when no user has the actor's id; the mention builder
    creates nothing when no user has the mentioner's id; the post approval
    builder, which is given no actor, creates nothing when the post does not
    exist. *)
Theorem builders_silent (env : Env) (s : Store) :
  (∀ author actor targetType targetId reactionType,
     author = actor ∨ users s !! actor = None →
     NotificationService.sendReactionNotification env author actor
       targetType targetId reactionType s = (Ok tt, s)) ∧
  (∀ author actor postId commentId content,
     author = actor ∨ users s !! actor = None →
     NotificationService.sendReplyNotification env author actor
       postId commentId content s = (Ok tt, s)) ∧
  (∀ mentioned actor targetType targetId content,
     users s !! actor = None →
     NotificationService.sendMentionNotification env mentioned actor
       targetType targetId content s = (Ok tt, s)) ∧
  (∀ author postId approved,
     posts s !! postId = None →
     NotificationService.sendPostApprovalNotification env author postId approved s
     = (Ok tt, s)).
Proof.
  repeat split.
  - intros author actor ??? Hself.
    unfold NotificationService.sendReactionNotification, bind,
      prisma_user_findUnique, get.
    destruct (users s !! actor); [| done].
    destruct Hself as [->|?]; [| done]. by rewrite decide_True.
  - intros author actor ??? Hself.
    unfold NotificationService.sendReplyNotification, bind,
      prisma_user_findUnique, get.
    destruct (users s !! actor); [| done].
    destruct Hself as [->|?]; [| done]. by rewrite decide_True.
  - intros ????? Hnone.
    unfold NotificationService.sendMentionNotification, bind,
      prisma_user_findUnique, get. by rewrite Hnone.
  - intros ??? Hnone.
    unfold NotificationService.sendPostApprovalNotification, bind,
      prisma_post_findUnique, get. by rewrite Hnone.
Qed.

(** ** Paging *)

Global Instance newest_first_total : Total newest_first.
Proof. intros a b. unfold newest_first. lia. Qed.

Global Instance newest_first_trans : Transitive newest_first.
Proof. intros a b c. unfold newest_first. lia. Qed.

Lemma window_offset {A} (rows : list A) (skip limit : Z) :
  0 ≤ skip → 0 ≤ limit →
  window rows skip limit
  = Ok (take (Z.to_nat limit) (drop (Z.to_nat skip) rows)).
Proof.
  intros Hskip Hlimit. unfold window.
  rewrite decide_False by lia. by rewrite decide_True.
Qed.

Lemma window_subseteq {A} (rows xs : list A) (skip limit : Z) :
  window rows skip limit = Ok xs → xs ⊆ rows.
Proof.
  unfold window. repeat case_decide; intros [= <-]; intros x Hx.
  - eapply subseteq_drop, subseteq_take, Hx.
  - rewrite elem_of_reverse in Hx. rewrite <- elem_of_reverse.
    eapply subseteq_drop, subseteq_take, Hx.
Qed.

Lemma inbox_where_unread U n :
  inbox_where U (Some "true") n = unread_of U n.
Proof. unfold inbox_where, unread_of. by rewrite decide_True. Qed.

Lemma notification_rows_ext P Q s :
  (∀ n, P n = Q n) → notification_rows P s = notification_rows Q s.
Proof.
  intros Hext. unfold notification_rows. apply list_filter_iff.
  intros kv. by rewrite Hext.
Qed.

(** C6, as the code has it. For an authenticated user, a page number of at
    least 1 and a page size of at least 0, the inbox answers with the
    user's notifications (the unread ones only when [unreadOnly] is
    ['true']) ordered newest first, cut to [limit] rows after skipping
    [(page - 1) * limit], and with an unread count taken over all unread
    notifications of the user, whatever the page, the page size and
    [unreadOnly]; the store is not written.  For a user with exactly three
    unread notifications, the first page of the unread-only list has
    [min 3 limit] rows (three as soon as the page size is at least three) and
    the unread count is three. *)
Theorem inbox_list (U : string) (page limit : Z) (unreadOnly : option string)
    (s : Store) :
  U ≠ "" → 1 ≤ page → 0 ≤ limit →
  let matching := notification_rows (inbox_where U unreadOnly) s in
  let ordered := merge_sort newest_first matching in
  let rows := take (Z.to_nat limit) (drop (Z.to_nat ((page - 1) * limit)) ordered) in
  let unread := Z.of_nat (length (notification_rows (unread_of U) s)) in
  (∃ pagination,
     get_notifications (Some U) (Some page) (Some limit) unreadOnly s
     = (Respond 200 (InboxPage (transform <$> rows) unread pagination), s)) ∧
  StronglySorted newest_first ordered ∧
  ordered ≡ₚ matching ∧
  Forall (λ kv, notif_userId kv.2 = U) ordered ∧
  (unreadOnly = Some "true" → page = 1 → unread = 3 →
   length (transform <$> rows) = Z.to_nat (Z.min 3 limit)).
Proof.
  intros HU Hpage Hlimit. cbn zeta. repeat split.
  - unfold get_notifications, handler, bind. rewrite (truthy_Some U HU). cbn.
    unfold prisma_notification_findMany.
    rewrite window_offset by nia. by eexists.
  - apply StronglySorted_merge_sort; apply _.
  - apply merge_sort_Permutation.
  - rewrite merge_sort_Permutation. unfold notification_rows.
    apply Forall_forall. intros kv [Hkv _]%list_elem_of_filter.
    unfold inbox_where in Hkv. apply andb_prop in Hkv as [Hkv _].
    by apply bool_decide_eq_true in Hkv.
  - intros -> -> Hthree. rewrite length_fmap, length_take, length_drop.
    rewrite merge_sort_Permutation.
    rewrite (notification_rows_ext _ (unread_of U)) by apply inbox_where_unread.
    cbn. lia.
Qed.

(** C6, the scenario as the specification words it, on a page size of two:
    user ["u1"] has three unread and two read notifications, and the
    unread-only list returns two rows, not three. *)
Lemma inbox_page_of_two :
  length (notification_rows (unread_of "u1") example_inbox) = 3%nat ∧
  length (notification_rows
            (λ n, bool_decide (notif_userId n = "u1")
                  && bool_decide (notif_readAt n ≠ None)) example_inbox) = 2%nat ∧
  ∃ rows pagination,
    get_notifications (Some "u1") (Some 1) (Some 2) (Some "true") example_inbox
    = (Respond 200 (InboxPage rows 3 pagination), example_inbox) ∧
    view_id <$> rows = ["n5"; "n3"] ∧
    length rows ≠ 3%nat.
Proof.
  split; [by vm_compute|]. split; [by vm_compute|].
  do 2 eexists. split; [vm_compute; reflexivity|]. by vm_compute.
Qed.

(** ** The feed *)

Lemma order_posts_Permutation sort rows : order_posts sort rows ≡ₚ rows.
Proof. unfold order_posts. repeat case_decide; apply merge_sort_Permutation. Qed.

Lemma post_rows_below_cursor s c groupId search kv :
  c ≠ "" → kv ∈ post_rows s (Some c) groupId search → String.ltb kv.1 c = true.
Proof.
  intros Hc [Hkv _]%list_elem_of_filter. unfold feed_where in Hkv.
  rewrite (truthy_Some c Hc) in Hkv.
  apply andb_prop in Hkv as [Hkv _]. apply andb_prop in Hkv as [Hkv _].
  by apply andb_prop in Hkv as [_ Hkv].
Qed.

(** What [/posts] answers, whatever the request. *)
Lemma get_posts_run sort page limit cursor search groupId s :
  let p := default 1 page in
  let l := default 20 limit in
  let skip := feed_skip cursor p l in
  let total := Z.of_nat (length (post_rows s cursor groupId search)) in
  get_posts sort page limit cursor search groupId s
  = match window (order_posts sort (post_rows s cursor groupId search)) skip l with
    | Ok rows =>
        (Respond 200
           (FeedPage (feed_item s <$> rows)
              {| pagination_page := p; pagination_limit := l;
                 pagination_total := total;
                 pagination_pages := pages_of total l;
                 pagination_hasMore := Some (bool_decide (skip + l < total)) |}),
         s)
    | Throw e => (Next e, s)
    end.
Proof.
  cbn zeta. unfold get_posts, handler, bind.
  by destruct (window _ _ _).
Qed.

(** C9. The feed uses the offset [feed_skip]: zero when a cursor is given,
    [(page - 1) * limit] when none is.  With a cursor, whatever the page
    argument, the request is answered with rows whose ids are all strictly
    below the cursor, cut from the start of the ordered rows, and the same
    rows, total and [hasMore] come back for any other page argument.
    Without a cursor, for a page of at least 1 and a page size of at least
    0, the rows are those after the first [(page - 1) * limit].  In both
    modes [hasMore] is [offset + limit < total]. *)
Theorem feed_pagination (sort : option string) (page limit : option Z)
    (cursor search groupId : option string) (s : Store) :
  let p := default 1 page in
  let l := default 20 limit in
  let ordered := order_posts sort (post_rows s cursor groupId search) in
  let total := Z.of_nat (length (post_rows s cursor groupId search)) in
  (∀ c, cursor = Some c → c ≠ "" →
     feed_skip cursor p l = 0 ∧
     ∃ rows pagination,
       window ordered 0 l = Ok rows ∧
       get_posts sort page limit cursor search groupId s
       = (Respond 200 (FeedPage (feed_item s <$> rows) pagination), s) ∧
       Forall (λ kv, String.ltb kv.1 c = true) rows ∧
       pagination_total pagination = total ∧
       pagination_hasMore pagination = Some (bool_decide (0 + l < total)) ∧
       ∀ page', ∃ pagination',
         get_posts sort page' limit cursor search groupId s
         = (Respond 200 (FeedPage (feed_item s <$> rows) pagination'), s) ∧
         pagination_total pagination' = total ∧
         pagination_hasMore pagination' = pagination_hasMore pagination) ∧
  (truthy cursor = None → 1 ≤ p → 0 ≤ l →
     feed_skip cursor p l = (p - 1) * l ∧
     ∃ pagination,
       get_posts sort page limit cursor search groupId s
       = (Respond 200
            (FeedPage (feed_item s <$> take (Z.to_nat l)
                                        (drop (Z.to_nat ((p - 1) * l)) ordered))
               pagination), s) ∧
       pagination_total pagination = total ∧
       pagination_hasMore pagination
       = Some (bool_decide ((p - 1) * l + l < total))).
Proof.
  cbn zeta. split.
  - intros c -> Hc.
    assert (Hskip : ∀ x y, feed_skip (Some c) x y = 0).
    { intros x y. unfold feed_skip. by rewrite (truthy_Some c Hc). }
    split; [apply Hskip|].
    assert (Hwin : ∃ rows,
      window (order_posts sort (post_rows s (Some c) groupId search)) 0
        (default 20 limit) = Ok rows).
    { unfold window. rewrite decide_False by lia. case_decide; eauto. }
    destruct Hwin as [rows Hwin]. exists rows. eexists.
    split; [done|]. split.
    { rewrite get_posts_run. cbn zeta. rewrite Hskip, Hwin. done. }
    split.
    { apply Forall_forall. intros kv Hkv%(window_subseteq _ _ _ _ Hwin).
      rewrite order_posts_Permutation in Hkv.
      by eapply post_rows_below_cursor. }
    split; [done|]. split; [done|].
    intros page'. eexists. split.
    { rewrite get_posts_run. cbn zeta. rewrite Hskip, Hwin. done. }
    done.
  - intros Hno Hp Hl.
    assert (Hskip : feed_skip cursor (default 1 page) (default 20 limit)
                    = (default 1 page - 1) * default 20 limit).
    { unfold feed_skip. by rewrite Hno. }
    split; [done|]. eexists. split.
    { rewrite get_posts_run. cbn zeta. rewrite Hskip.
      rewrite window_offset by nia. done. }
    done.
Qed.

(** ** Best-effort dispatch *)

Lemma same_primary_join s a b :
  same_primary s a → same_primary s b → same_primary a b.
Proof.
  intros (?&?&?&?&?&?&?) (?&?&?&?&?&?&?). repeat split; congruence.
Qed.

Lemma quiet_notify_reply env id userId commentId content :
  quiet (notify_reply env id userId commentId content).
Proof.
  apply quiet_try_catch. intros s. unfold bind, prisma_post_findUnique, get.
  destruct (posts s !! id); [| apply same_primary_refl].
  case_decide; [| apply same_primary_refl].
  apply quiet_snd, quiet_sendReplyNotification.
Qed.

Lemma quiet_notify_group env groupId userId postId :
  quiet (notify_group env groupId userId postId).
Proof.
  apply quiet_try_catch. intros s. unfold bind, active_members_except, get.
  case_decide; [| apply same_primary_refl].
  apply quiet_snd, quiet_createBulkNotifications.
Qed.

Lemma quiet_notify_owner env group userId membership :
  quiet (notify_owner env group userId membership).
Proof.
  apply quiet_try_catch. intros s.
  case_decide; [| apply same_primary_refl].
  apply quiet_snd, quiet_createNotification.
Qed.

(** Case analysis on the innermost storage call both runs share; a
    notification block is replaced by its result. *)
Ltac agree_step :=
  match goal with
  | |- context [notify_reaction ?e ?i ?u ?t ?st] =>
      let s' := fresh "s'" in let H := fresh "Hq" in
      destruct (quiet_notify_reaction e i u t st) as (s' & -> & H)
  | |- context [notify_reply ?e ?i ?u ?c ?t ?st] =>
      let s' := fresh "s'" in let H := fresh "Hq" in
      destruct (quiet_notify_reply e i u c t st) as (s' & -> & H)
  | |- context [notify_group ?e ?g ?u ?p ?st] =>
      let s' := fresh "s'" in let H := fresh "Hq" in
      destruct (quiet_notify_group e g u p st) as (s' & -> & H)
  | |- context [notify_owner ?e ?g ?u ?m ?st] =>
      let s' := fresh "s'" in let H := fresh "Hq" in
      destruct (quiet_notify_owner e g u m st) as (s' & -> & H)
  | |- context [match ?x with _ => _ end] =>
      lazymatch x with
      | context [match _ with _ => _ end] => fail
      | context [notify_reaction] => fail
      | context [notify_reply] => fail
      | context [notify_group] => fail
      | context [notify_owner] => fail
      | _ => destruct x eqn:?
      end
  end.

Ltac agree_done :=
  split; [done | first [apply same_primary_refl | by eapply same_primary_join]].

Lemma reaction_agrees env b user id type s :
  agree (post_posts_id_reactions (with_insert_failure b env) user id type s)
        (post_posts_id_reactions env user id type s).
Proof.
  unfold post_posts_id_reactions, handler, bind, prisma_post_findUnique,
    prisma_reaction_findUnique, prisma_reaction_delete, prisma_reaction_create,
    prisma_post_update, get, ret.
  cbn [now with_insert_failure].
  repeat (agree_step; cbn beta iota zeta delta [fst snd]); try agree_done.
Qed.

Lemma comment_agrees env b user id content parentId s :
  agree (post_posts_id_comments (with_insert_failure b env) user id content parentId s)
        (post_posts_id_comments env user id content parentId s).
Proof.
  unfold post_posts_id_comments, handler, bind, prisma_post_findUnique,
    prisma_comment_findUnique, prisma_comment_create, prisma_post_update, get, ret.
  cbn [now with_insert_failure].
  repeat (agree_step; cbn beta iota zeta delta [fst snd]); try agree_done.
Qed.

Lemma post_agrees env b user body s :
  agree (post_posts (with_insert_failure b env) user body s)
        (post_posts env user body s).
Proof.
  unfold post_posts, handler, bind, parse_createPost, prisma_groupMember_findUnique,
    prisma_post_create, get, ret, throw.
  cbn [now with_insert_failure].
  repeat (agree_step; cbn beta iota zeta delta [fst snd]); try agree_done.
Qed.

Lemma join_agrees env b user slug s :
  agree (post_groups_slug_join (with_insert_failure b env) user slug s)
        (post_groups_slug_join env user slug s).
Proof.
  unfold post_groups_slug_join, handler, bind, prisma_group_findUnique_slug,
    prisma_groupMember_findUnique, prisma_groupMember_create, get, ret.
  cbn [now with_insert_failure].
  repeat (agree_step; cbn beta iota zeta delta [fst snd]); try agree_done.
Qed.

(** C2. [createNotification] always returns normally and leaves the primary
    tables alone; when the storage accepts the insert it adds exactly one
    notification, for the recipient, with status [scheduled], [scheduledFor]
    the current time and [readAt] null, and when the storage refuses it adds
    none.  The four actions that notify (reacting to a post, commenting on a
    post, creating a post, joining a group) leave the same outcome and the
    same primary tables whether or not the storage refuses the notification
    insert. *)
Theorem dispatch_best_effort (env : Env) (s : Store) :
  (∀ userId payload,
     ∃ s', NotificationService.createNotification env userId payload s = (Ok tt, s') ∧
           same_primary s s' ∧
           if notification_insert_fails env then notifications s' = notifications s
           else ∃ id n,
             created s s' = {[id := n]} ∧ notifications s !! id = None ∧
             notifications s' = <[id := n]> (notifications s) ∧
             notif_userId n = userId ∧ notif_status n = scheduled ∧
             notif_scheduledFor n = now env ∧ notif_readAt n = None ∧
             notif_type n = payload_type payload ∧
             notif_title n = payload_title payload ∧
             notif_message n = payload_message payload) ∧
  (∀ b user id type,
     agree (post_posts_id_reactions (with_insert_failure b env) user id type s)
           (post_posts_id_reactions env user id type s)) ∧
  (∀ b user id content parentId,
     agree (post_posts_id_comments (with_insert_failure b env) user id content parentId s)
           (post_posts_id_comments env user id content parentId s)) ∧
  (∀ b user body,
     agree (post_posts (with_insert_failure b env) user body s)
           (post_posts env user body s)) ∧
  (∀ b user slug,
     agree (post_groups_slug_join (with_insert_failure b env) user slug s)
           (post_groups_slug_join env user slug s)).
Proof.
  split; [| by auto using reaction_agrees, comment_agrees, post_agrees, join_agrees].
  intros userId payload.
  destruct (notification_insert_fails env) eqn:Hfail.
  - unfold NotificationService.createNotification, try_catch,
      prisma_notification_create. rewrite Hfail.
    eexists. split; [done|]. split; [by repeat split | done].
  - rewrite run_createNotification by done.
    eexists. split; [done|]. split; [by repeat split|].
    do 2 eexists. split; [apply created_insert|].
    split; [apply not_elem_of_dom, is_fresh|]. by repeat split.
Qed.

(** ** The subscription registry *)

(** What unsubscribing does for an authenticated user.  When no row matches
    the triple, the storage's record-not-found exception is handed to [next]
    and nothing is written, the handler sending no response of its own; when
    a row matches, it is removed and the handler answers 200. *)
Lemma unsubscribe_outcomes (U targetType targetId : string) (s : Store) :
  U ≠ "" →
  let key := (U, targetType, targetId) in
  match subscriptions s !! key with
  | None =>
      delete_subscriptions (Some U) targetType targetId s
      = (Next RecordNotFound, s)
  | Some _ =>
      delete_subscriptions (Some U) targetType targetId s
      = (Respond 200 (SubscriptionMessage "Unsubscribed successfully"),
         set_subscriptions (delete key) s) ∧
      subscriptions (delete_subscriptions (Some U) targetType targetId s).2 !! key
      = None
  end.
Proof.
  intros HU. cbn zeta. unfold delete_subscriptions, handler, bind.
  rewrite (truthy_Some U HU). unfold prisma_subscription_delete.
  destruct (subscriptions s !! (U, targetType, targetId)); [| done].
  split; [done|]. cbn. apply lookup_delete_eq.
Qed.

Example unsubscribe_existing :
  delete_subscriptions (Some "u1") "post" "p1" example_subscribed
  = (Respond 200 (SubscriptionMessage "Unsubscribed successfully"),
     set_subscriptions (delete ("u1", "post", "p1")) example_subscribed) ∧
  subscriptions
    (delete_subscriptions (Some "u1") "post" "p1" example_subscribed).2
  !! ("u1", "post", "p1") = None.
Proof.
  exact (unsubscribe_outcomes "u1" "post" "p1" example_subscribed ltac:(done)).
Qed.


(** ** The properties on the example community *)

Lemma toggle_parity_and_counter_witness :
  "u2" ≠ "" ∧
  is_Some (target_counter example_store ("post", "p1")) ∧
  Forall (route_serves ("post", "p1")) example_toggles ∧
  reactions example_store !! ("post", "p1", "u2") = None ∧
  let s' := run_toggles ("post", "p1") "u2" example_toggles example_store in
  (is_Some (reactions s' !! ("post", "p1", "u2"))
   ↔ Nat.Odd (length example_toggles)) ∧
  (target_counter example_store ("post", "p1")
   = Some (Z.of_nat (live_rows example_store ("post", "p1"))) →
   target_counter s' ("post", "p1")
   = Some (Z.of_nat (live_rows s' ("post", "p1")))).
Proof.
  assert (H1 : "u2" ≠ "") by done.
  assert (H2 : is_Some (target_counter example_store ("post", "p1")))
    by (by eexists).
  assert (H3 : Forall (route_serves ("post", "p1")) example_toggles)
    by (by repeat constructor).
  assert (H4 : reactions example_store !! ("post", "p1", "u2") = None) by done.
  repeat split; try done;
    apply (toggle_parity_and_counter example_store ("post", "p1") "u2"
             example_toggles H1 H2 H3 H4).
Defined.

Lemma other_target_no_counter_witness :
  "u2" ≠ "" ∧ "group" ≠ "post" ∧ "group" ≠ "comment" ∧
  let res := post_reactions example_env (Some "u2") "group" "g1" None example_store in
  posts res.2 = posts example_store ∧ comments res.2 = comments example_store ∧
  ∃ r, res.1 = Respond 201 (ReactionToggled None "added" (Some r)) ∧
       reaction_type r = "like" ∧
       reactions res.2 = <[("group", "g1", "u2") := r]> (reactions example_store).
Proof.
  repeat split; try done;
    apply (other_target_no_counter example_env "u2" "group" "g1" None
             example_store ltac:(done) ltac:(done) ltac:(done)).
Defined.

Lemma mark_read_outcomes_witness :
  "u1" ≠ "" ∧
  ∃ n', post_notifications_id_read example_env (Some "u1") "n1" example_inbox
        = (Respond 200 (InboxNotification n'),
           set_notifications (insert "n1" n') example_inbox) ∧
        notif_readAt n' = Some 1000 ∧ notif_status n' = delivered ∧
        n' = mark_read 1000 (example_notification 1 None).
Proof.
  split; [done|].
  exact (mark_read_outcomes example_env "u1" "n1" example_inbox ltac:(done)).
Defined.

Lemma inbox_list_witness :
  "u1" ≠ "" ∧ 1 ≤ 1 ∧ 0 ≤ 20 ∧
  let matching := notification_rows (inbox_where "u1" (Some "true")) example_inbox in
  let ordered := merge_sort newest_first matching in
  let rows := take (Z.to_nat 20) (drop (Z.to_nat ((1 - 1) * 20)) ordered) in
  let unread := Z.of_nat (length (notification_rows (unread_of "u1") example_inbox)) in
  (∃ pagination,
     get_notifications (Some "u1") (Some 1) (Some 20) (Some "true") example_inbox
     = (Respond 200 (InboxPage (transform <$> rows) unread pagination),
        example_inbox)) ∧
  StronglySorted newest_first ordered ∧
  ordered ≡ₚ matching ∧
  Forall (λ kv, notif_userId kv.2 = "u1") ordered ∧
  (Some "true" = Some "true" → 1 = 1 → unread = 3 →
   length (transform <$> rows) = Z.to_nat (Z.min 3 20)).
Proof.
  split; [done|]. split; [lia|]. split; [lia|].
  exact (inbox_list "u1" 1 20 (Some "true") example_inbox
           ltac:(done) ltac:(lia) ltac:(lia)).
Defined.

Lemma content_truncated_witness :
  notification_insert_fails example_env = false ∧
  users example_store !! "u2" = Some bob ∧
  "u1" ≠ "u2" ∧
  let after_mention :=
    (NotificationService.sendMentionNotification example_env "u1" "u2"
       "post" "p1" "short" example_store).2 in
  let after_reply :=
    (NotificationService.sendReplyNotification example_env "u1" "u2"
       "p1" "c1" "short" example_store).2 in
  ∃ id1 n1 id2 n2 stored,
    created example_store after_mention = {[id1 := n1]} ∧ notif_type n1 = MENTION ∧
    created example_store after_reply = {[id2 := n2]} ∧ notif_type n2 = REPLY ∧
    stored_content n1 = Some stored ∧ stored_content n2 = Some stored ∧
    ((100 < String.length "short")%nat →
       ∃ first rest, "short" = first +:+ rest ∧ String.length first = 100%nat ∧
                     stored = first +:+ "...") ∧
    ((String.length "short" ≤ 100)%nat → stored = "short").
Proof.
  split; [done|]. split; [done|]. split; [done|].
  exact (content_truncated example_env example_store "u1" "u2" bob
           "post" "p1" "p1" "c1" "short" ltac:(done) ltac:(done) ltac:(done)).
Defined.

Lemma feed_pagination_witness :
  Some "p3" = Some "p3" ∧ "p3" ≠ "" ∧
  feed_skip (Some "p3") 7 2 = 0 ∧
  ∃ rows pagination,
    window (order_posts None (post_rows example_feed (Some "p3") None None)) 0 2
    = Ok rows ∧
    get_posts None (Some 7) (Some 2) (Some "p3") None None example_feed
    = (Respond 200 (FeedPage (feed_item example_feed <$> rows) pagination),
       example_feed) ∧
    Forall (λ kv, String.ltb kv.1 "p3" = true) rows ∧
    pagination_total pagination
    = Z.of_nat (length (post_rows example_feed (Some "p3") None None)) ∧
    pagination_hasMore pagination
    = Some (bool_decide
              (0 + 2 < Z.of_nat (length (post_rows example_feed (Some "p3") None None)))) ∧
    ∀ page', ∃ pagination',
      get_posts None page' (Some 2) (Some "p3") None None example_feed
      = (Respond 200 (FeedPage (feed_item example_feed <$> rows) pagination'),
         example_feed) ∧
      pagination_total pagination'
      = Z.of_nat (length (post_rows example_feed (Some "p3") None None)) ∧
      pagination_hasMore pagination' = pagination_hasMore pagination.
Proof.
  split; [done|]. split; [done|].
  exact (proj1 (feed_pagination None (Some 7) (Some 2) (Some "p3") None None
                  example_feed) "p3" eq_refl ltac:(done)).
Defined.

Lemma builders_silent_witness :
  NotificationService.sendReactionNotification example_env "u1" "u1"
    "post" "p1" "like" example_store = (Ok tt, example_store) ∧
  NotificationService.sendReplyNotification example_env "u1" "u9"
    "p1" "c1" "hello" example_store = (Ok tt, example_store) ∧
  NotificationService.sendMentionNotification example_env "u1" "u9"
    "post" "p1" "hello" example_store = (Ok tt, example_store) ∧
  NotificationService.sendPostApprovalNotification example_env "u1" "p9" true
    example_store = (Ok tt, example_store).
Proof.
  destruct (builders_silent example_env example_store) as (Hreact & Hreply & Hmention & Happroval).
  split; [apply Hreact; by left|].
  split; [apply Hreply; by right|].
  split; [by apply Hmention | by apply Happroval].
Defined.


(** C3, the claim as the specification words it, on a user who mentions
    herself: the mention builder creates a notification for the actor.  And
    the post approval builder, which is told the author and the post but not
    who approved, notifies the author in every case, her own approval
    included. *)
Lemma mention_notifies_the_actor :
  users example_store !! "u1" = Some ann ∧
  (∃ id n,
     created example_store
       (NotificationService.sendMentionNotification example_env "u1" "u1"
          "post" "p1" "hello" example_store).2
     = {[id := n]} ∧
     notif_userId n = "u1" ∧ notif_type n = MENTION ∧
     meta_data (notif_metadata n)
     = [("mentionerId", JStr "u1"); ("targetType", JStr "post");
        ("targetId", JStr "p1"); ("content", JStr "hello")]) ∧
  (∃ id n,
     created example_group_store
       (NotificationService.sendPostApprovalNotification example_env "u1"
          "pg" true example_group_store).2
     = {[id := n]} ∧
     notif_userId n = "u1" ∧ notif_type n = POST_APPROVED).
Proof.
  split; [done|]. split.
  - unfold NotificationService.sendMentionNotification, bind,
      prisma_user_findUnique, get.
    change (users example_store !! "u1") with (Some ann). cbn beta iota.
    rewrite run_createNotification by done. cbn [snd].
    rewrite created_insert. do 2 eexists. split; [done|]. by vm_compute.
  - unfold NotificationService.sendPostApprovalNotification, bind,
      prisma_post_findUnique, get.
    change (posts example_group_store !! "pg")
      with (Some {| post_title := None; post_content := "In the group";
                    post_authorId := "u1"; post_groupId := Some "g1";
                    post_status := "published"; post_reactionCount := 0;
                    post_commentCount := 0; post_viewCount := 0;
                    post_scheduledFor := None; post_publishedAt := Some 10;
                    post_createdAt := 10 |}).
    cbn beta iota delta [post_groupId mbind option_bind].
    change (groups example_group_store !! "g1")
      with (Some {| group_slug := "general"; group_name := "General";
                    group_ownerId := "u1"; group_visibility := "public" |}).
    cbn beta iota.
    rewrite run_createNotification by done. cbn [snd].
    rewrite created_insert. by do 2 eexists.
Qed.

(** ** Scenarios of the specification, run on the example community *)

(** User ["u2"] reacts to the post of ["u1"]: the answer is ['added'], the
    counter becomes 1 and ["u1"] has one notification of type [REACTION];
    reacting again answers ['removed'], the counter returns to 0 and no
    notification is added. *)
Example react_twice :
  let first := post_posts_id_reactions example_env (Some "u2") "p1" None example_store in
  let second := post_posts_id_reactions example_env (Some "u2") "p1" None first.2 in
  (∃ r, first.1 = Respond 200 (ReactionToggled (Some "Post erfolgreich geliked!")
                                 "added" (Some r))) ∧
  post_reactionCount <$> posts first.2 !! "p1" = Some 1 ∧
  (λ kv : string * Notification, (notif_userId kv.2, notif_type kv.2))
  <$> map_to_list (notifications first.2) = [("u1", REACTION)] ∧
  second.1 = Respond 200 (ReactionToggled (Some "Like erfolgreich entfernt!")
                            "removed" None) ∧
  post_reactionCount <$> posts second.2 !! "p1" = Some 0 ∧
  notifications second.2 = notifications first.2.
Proof.
  cbn zeta. split; [by eexists|]. by vm_compute.
Qed.

(** The same reaction while the storage refuses notification inserts: the
    answer and the counter are the same, and no notification exists. *)
Example react_without_notification :
  let run := post_posts_id_reactions (with_insert_failure true example_env)
               (Some "u2") "p1" None example_store in
  (∃ r, run.1 = Respond 200 (ReactionToggled (Some "Post erfolgreich geliked!")
                               "added" (Some r))) ∧
  post_reactionCount <$> posts run.2 !! "p1" = Some 1 ∧
  notifications run.2 = ∅ ∧
  console run.2 = ["Error creating notification:"].
Proof.
  cbn zeta. split; [by eexists|]. by vm_compute.
Qed.

(** A content of 104 characters is cut to 100 and marked. *)
Example excerpt_of_long_content :
  String.length example_long_content = 104%nat ∧
  excerpt example_long_content
  = "0123456789012345678901234567890123456789012345678901234567890123456789012345678901234567890123456789...".
Proof. by vm_compute. Qed.

(** The feed below cursor ["p3"], newest first, whatever the page. *)
Example feed_below_cursor :
  ∃ items pagination,
    (get_posts None (Some 7) (Some 20) (Some "p3") None None example_feed).1
    = Respond 200 (FeedPage items pagination) ∧
    item_id <$> items = ["p2"; "p1"] ∧
    pagination_hasMore pagination = Some false.
Proof. do 2 eexists. split; [by vm_compute|]. by vm_compute. Qed.

(** The feed by page: the second page of size 2, by reaction count. *)
Example feed_second_page :
  ∃ items pagination,
    (get_posts (Some "top") (Some 2) (Some 2) None None None example_feed).1
    = Respond 200 (FeedPage items pagination) ∧
    item_id <$> items = ["p2"] ∧
    pagination_hasMore pagination = Some false.
Proof. do 2 eexists. split; [by vm_compute|]. by vm_compute. Qed.

(** * Further properties of the routes *)

(** ** Reactions: removal, round trips and partial writes *)

Lemma store_eq s s' :
  users s = users s' → posts s = posts s' → comments s = comments s' →
  reactions s = reactions s' → notifications s = notifications s' →
  subscriptions s = subscriptions s' → groups s = groups s' →
  groupMembers s = groupMembers s' → console s = console s' → s = s'.
Proof. destruct s, s'. cbn. by intros -> -> -> -> -> -> -> -> ->. Qed.

Lemma post_reactionCount_add_add d1 d2 p :
  post_reactionCount_add d2 (post_reactionCount_add d1 p)
  = post_reactionCount_add (d1 + d2) p.
Proof. destruct p. unfold post_reactionCount_add. cbn. f_equal. lia. Qed.

Lemma post_reactionCount_add_0 p : post_reactionCount_add 0 p = p.
Proof. destruct p. unfold post_reactionCount_add. cbn. f_equal. lia. Qed.

Lemma comment_reactionCount_add_add d1 d2 c :
  comment_reactionCount_add d2 (comment_reactionCount_add d1 c)
  = comment_reactionCount_add (d1 + d2) c.
Proof. destruct c. unfold comment_reactionCount_add. cbn. f_equal. lia. Qed.

Lemma comment_reactionCount_add_0 c : comment_reactionCount_add 0 c = c.
Proof. destruct c. unfold comment_reactionCount_add. cbn. f_equal. lia. Qed.

(** What [DELETE /posts/:id/reactions] does for an authenticated user. *)
Lemma delete_posts_id_reactions_run U id s :
  U ≠ "" →
  delete_posts_id_reactions (Some U) id s
  = match reactions s !! ("post", id, U) with
    | None => (Respond 404 (MessageError "Reaction not found"), s)
    | Some _ =>
        match posts s !! id with
        | Some p =>
            (Respond 200 (MessageOk "Like erfolgreich entfernt!"),
             set_posts (insert id (post_reactionCount_add (-1) p))
               (set_reactions (delete ("post", id, U)) s))
        | None => (Next RecordNotFound, set_reactions (delete ("post", id, U)) s)
        end
    end.
Proof.
  intros HU. unfold delete_posts_id_reactions, handler, bind.
  rewrite (truthy_Some U HU). unfold prisma_reaction_findUnique, get.
  destruct (reactions s !! ("post", id, U)) as [r|] eqn:Hr; [| done].
  unfold prisma_reaction_delete, prisma_post_update. rewrite Hr. cbn.
  by destruct (posts s !! id).
Qed.

(** X1. Removing a reaction from a post: without a row for the user the
    answer is 404 and nothing is written; with a row and an existing post
    the answer is 200, the post has one ledger row less and its counter is
    one lower, so the distance between counter and ledger is kept. *)
Theorem remove_reaction_keeps_drift (U id : string) (s : Store) :
  U ≠ "" → is_Some (posts s !! id) →
  let res := delete_posts_id_reactions (Some U) id s in
  match reactions s !! ("post", id, U) with
  | None => res = (Respond 404 (MessageError "Reaction not found"), s)
  | Some _ =>
      res.1 = Respond 200 (MessageOk "Like erfolgreich entfernt!") ∧
      reactions res.2 !! ("post", id, U) = None ∧
      S (live_rows res.2 ("post", id)) = live_rows s ("post", id) ∧
      target_counter res.2 ("post", id)
      = (λ n, n - 1) <$> target_counter s ("post", id) ∧
      counter_drift res.2 ("post", id) = counter_drift s ("post", id)
  end.
Proof.
  intros HU [p Hp]. cbn zeta. rewrite delete_posts_id_reactions_run by done.
  destruct (reactions s !! ("post", id, U)) as [r|] eqn:Hr; [| done].
  rewrite Hp. cbn [fst snd]. split; [done|].
  split; [cbn; apply lookup_delete_eq|].
  assert (Hrows : S (live_rows
                       (set_posts (insert id (post_reactionCount_add (-1) p))
                          (set_reactions (delete ("post", id, U)) s))
                       ("post", id)) = live_rows s ("post", id)).
  { apply (live_rows_delete s ("post", id) U r Hr). }
  split; [done|].
  assert (Hcount : target_counter
                     (set_posts (insert id (post_reactionCount_add (-1) p))
                        (set_reactions (delete ("post", id, U)) s)) ("post", id)
                   = (λ n, n - 1) <$> target_counter s ("post", id)).
  { unfold target_counter. cbn. by rewrite lookup_insert_eq, Hp. }
  split; [done|].
  unfold counter_drift. rewrite Hcount, <- Hrows.
  unfold target_counter. cbn [fst snd]. rewrite decide_True by done.
  rewrite Hp. cbn. f_equal. lia.
Qed.

Lemma insert_as_alter {K A} `{Countable K} (f : A → A) (k : K) (x : A) (m : gmap K A) :
  m !! k = Some x → <[k := f x]> m = alter f k m.
Proof.
  intros Hk. apply map_eq. intros j. destruct (decide (j = k)) as [->|Hne].
  - by rewrite lookup_insert_eq, lookup_alter_eq, Hk.
  - by rewrite lookup_insert_ne, lookup_alter_ne.
Qed.

Lemma update_count_run targetType targetId d s :
  update_count targetType targetId d s
  = if decide (targetType = "post") then
      match posts s !! targetId with
      | Some p => (Ok tt, set_posts (insert targetId (post_reactionCount_add d p)) s)
      | None => (Throw RecordNotFound, s)
      end
    else if decide (targetType = "comment") then
      match comments s !! targetId with
      | Some c =>
          (Ok tt, set_comments (insert targetId (comment_reactionCount_add d c)) s)
      | None => (Throw RecordNotFound, s)
      end
    else (Ok tt, s).
Proof.
  unfold update_count, bind, prisma_post_update, prisma_comment_update.
  repeat case_decide; try done.
  - by destruct (posts s !! targetId).
  - by destruct (comments s !! targetId).
Qed.

(** What [POST /reactions] does for an authenticated user. *)
Lemma post_reactions_run env U targetType targetId type s :
  U ≠ "" →
  let key := (targetType, targetId, U) in
  post_reactions env (Some U) targetType targetId type s
  = match reactions s !! key with
    | Some _ =>
        match update_count targetType targetId (-1) (set_reactions (delete key) s) with
        | (Ok _, s') => (Respond 200 (ReactionToggled None "removed" None), s')
        | (Throw e, s') => (Next e, s')
        end
    | None =>
        let r := {| reaction_id := fresh (reaction_ids (reactions s));
                    reaction_type := default "like" type;
                    reaction_createdAt := now env |} in
        match update_count targetType targetId 1 (set_reactions (insert key r) s) with
        | (Ok _, s') => (Respond 201 (ReactionToggled None "added" (Some r)), s')
        | (Throw e, s') => (Next e, s')
        end
    end.
Proof.
  intros HU. cbn zeta. unfold post_reactions, handler, bind.
  rewrite (truthy_Some U HU). unfold prisma_reaction_findUnique, get.
  destruct (reactions s !! (targetType, targetId, U)) as [r|] eqn:Hr.
  - unfold prisma_reaction_delete. rewrite Hr.
    by destruct (update_count _ _ _ _) as [[[]|e] s'].
  - unfold prisma_reaction_create. rewrite Hr.
    by destruct (update_count _ _ _ _) as [[[]|e] s'].
Qed.

(** The tables after one toggle request on an existing target. *)
Lemma toggle_tables T U c s :
  U ≠ "" → is_Some (target_counter s T) → route_serves T c →
  let s' := (toggleReaction T U c s).2 in
  let d := match reactions s !! (T.1, T.2, U) with Some _ => -1 | None => 1 end in
  posts s'
  = (if decide (T.1 = "post") then alter (post_reactionCount_add d) T.2 (posts s)
     else posts s) ∧
  comments s'
  = (if decide (T.1 = "post") then comments s
     else alter (comment_reactionCount_add d) T.2 (comments s)) ∧
  users s' = users s ∧ subscriptions s' = subscriptions s ∧
  groups s' = groups s ∧ groupMembers s' = groupMembers s.
Proof.
  destruct T as [ty tid], c as [rt env type]. unfold route_serves, toggleReaction.
  cbn [fst snd toggle_route toggle_env toggle_type]. intros HU Hex Hroute.
  destruct rt.
  - assert (ty = "post") as -> by auto. clear Hroute.
    unfold target_counter in Hex. cbn [fst snd] in Hex.
    rewrite decide_True in Hex by done. rewrite !decide_True by done.
    destruct (posts s !! tid) as [p|] eqn:Hp; [| by destruct Hex].
    unfold post_posts_id_reactions, handler, bind. rewrite (truthy_Some U HU).
    unfold prisma_post_findUnique, prisma_reaction_findUnique, get.
    rewrite Hp.
    destruct (reactions s !! ("post", tid, U)) as [r|] eqn:Hr.
    + unfold prisma_reaction_delete, prisma_post_update. rewrite Hr. cbn.
      rewrite Hp. cbn. by rewrite (insert_as_alter _ _ p).
    + unfold prisma_reaction_create, prisma_post_update. rewrite Hr. cbn.
      rewrite Hp.
      match goal with
      | |- context [notify_reaction ?e ?i ?u ?t ?st] =>
          destruct (quiet_notify_reaction e i u t st) as (s'&->&Hq)
      end.
      destruct Hq as (Hu&Hposts&Hc&_&Hsub&Hg&Hgm). cbn in *.
      rewrite Hposts, Hc, Hu, Hsub, Hg, Hgm. by rewrite (insert_as_alter _ _ p).
  - clear Hroute. unfold target_counter in Hex. cbn [fst snd] in Hex.
    rewrite post_reactions_run by done. cbn zeta.
    destruct (decide (ty = "post")) as [->|Hpost].
    + destruct (posts s !! tid) as [p|] eqn:Hp; [| by destruct Hex].
      destruct (reactions s !! ("post", tid, U)); rewrite update_count_run;
        rewrite decide_True by done; cbn; rewrite Hp; cbn;
        by rewrite (insert_as_alter _ _ p).
    + destruct (decide (ty = "comment")) as [->|Hcomment]; [| by destruct Hex].
      destruct (comments s !! tid) as [p|] eqn:Hp; [| by destruct Hex].
      destruct (reactions s !! ("comment", tid, U)); rewrite update_count_run;
        rewrite decide_False by done; rewrite decide_True by done; cbn;
        rewrite Hp; cbn; by rewrite (insert_as_alter _ _ p).
Qed.

(** X2. Two toggle requests in a row, through whichever routes, by a user
    who had not reacted: every primary table, the ledger and the counters
    included, is as it was before the two requests. *)
Theorem toggle_twice_restores (s : Store) (T : target) (U : string)
    (c1 c2 : toggle) :
  U ≠ "" → is_Some (target_counter s T) →
  route_serves T c1 → route_serves T c2 →
  reactions s !! (T.1, T.2, U) = None →
  same_primary s (run_toggles T U [c1; c2] s).
Proof.
  intros HU Hex H1 H2 Hnone. cbn [run_toggles foldl].
  pose proof (toggle_step T U c1 s HU Hex H1) as Hs1.
  pose proof (toggle_tables T U c1 s HU Hex H1) as Ht1.
  destruct (toggle_step_inv T U c1 s HU Hex H1) as (Hex1&_&_).
  cbn zeta in *. rewrite Hnone in Hs1, Ht1.
  destruct Hs1 as [[r Hr1] _].
  set (s1 := (toggleReaction T U c1 s).2) in *.
  pose proof (toggle_step T U c2 s1 HU Hex1 H2) as Hs2.
  pose proof (toggle_tables T U c2 s1 HU Hex1 H2) as Ht2.
  cbn zeta in *. rewrite Hr1, lookup_insert_eq in Hs2, Ht2.
  destruct Hs2 as [Hr2 _].
  destruct Ht1 as (Hp1&Hc1&Hu1&Hsub1&Hg1&Hgm1).
  destruct Ht2 as (Hp2&Hc2&Hu2&Hsub2&Hg2&Hgm2).
  repeat split; try congruence.
  - rewrite Hp2, Hp1. case_decide; [| done].
    rewrite alter_alter_eq. apply map_eq. intros j.
    destruct (decide (j = T.2)) as [->|Hne].
    + rewrite lookup_alter_eq. destruct (posts s !! T.2) as [p|]; [| done].
      cbn. by rewrite post_reactionCount_add_add, post_reactionCount_add_0.
    + by rewrite lookup_alter_ne.
  - rewrite Hc2, Hc1. case_decide; [done|].
    rewrite alter_alter_eq. apply map_eq. intros j.
    destruct (decide (j = T.2)) as [->|Hne].
    + rewrite lookup_alter_eq. destruct (comments s !! T.2) as [p|]; [| done].
      cbn. by rewrite comment_reactionCount_add_add, comment_reactionCount_add_0.
    + by rewrite lookup_alter_ne.
  - rewrite Hr2. by apply delete_insert_id.
Qed.

(** X3. Reacting to a post and then removing the reaction through
    [DELETE /posts/:id/reactions]: both requests answer 200 and every primary
    table is as before. *)
Theorem react_then_remove_restores (env : Env) (U id : string)
    (type : option string) (s : Store) :
  U ≠ "" → is_Some (posts s !! id) → reactions s !! ("post", id, U) = None →
  let added := post_posts_id_reactions env (Some U) id type s in
  let removed := delete_posts_id_reactions (Some U) id added.2 in
  (∃ r, added.1 = Respond 200 (ReactionToggled (Some "Post erfolgreich geliked!")
                                 "added" (Some r)) ∧
        reactions added.2 !! ("post", id, U) = Some r) ∧
  removed.1 = Respond 200 (MessageOk "Like erfolgreich entfernt!") ∧
  same_primary s removed.2.
Proof.
  intros HU [p Hp] Hnone. cbn zeta.
  set (c := {| toggle_route := PostsIdReactions; toggle_env := env;
               toggle_type := type |}).
  assert (Hex : is_Some (target_counter s ("post", id))).
  { unfold target_counter. cbn. rewrite Hp. by eexists. }
  assert (Hserve : route_serves ("post", id) c) by done.
  pose proof (toggle_step ("post", id) U c s HU Hex Hserve) as Hstep.
  pose proof (toggle_tables ("post", id) U c s HU Hex Hserve) as Htab.
  unfold toggleReaction in Hstep, Htab. cbn in Hstep, Htab.
  rewrite Hnone in Hstep, Htab. destruct Hstep as [[r Hr] _].
  destruct Htab as (Hp1&Hc1&Hu1&Hsub1&Hg1&Hgm1).
  rewrite decide_True in Hp1 by done. rewrite decide_True in Hc1 by done.
  split.
  - assert (Hans : ∃ r', (post_posts_id_reactions env (Some U) id type s).1
                         = Respond 200 (ReactionToggled
                                          (Some "Post erfolgreich geliked!")
                                          "added" (Some r'))
                         ∧ reactions (post_posts_id_reactions env (Some U) id type s).2
                           !! ("post", id, U) = Some r').
    { unfold post_posts_id_reactions, handler, bind. rewrite (truthy_Some U HU).
      unfold prisma_post_findUnique, prisma_reaction_findUnique, get.
      rewrite Hp, Hnone. unfold prisma_reaction_create, prisma_post_update.
      rewrite Hnone. cbn. rewrite Hp.
      match goal with
      | |- context [notify_reaction ?e ?i ?u ?t ?st] =>
          destruct (quiet_notify_reaction e i u t st) as (s'&->&Hq)
      end.
      destruct Hq as (_&_&_&Hreact&_). cbn in *. eexists. split; [done|].
      rewrite Hreact. apply lookup_insert_eq. }
    done.
  - set (s1 := (post_posts_id_reactions env (Some U) id type s).2) in *.
    rewrite delete_posts_id_reactions_run by done.
    rewrite Hr, lookup_insert_eq. rewrite Hp1, lookup_alter_eq, Hp. cbn.
    split; [done|]. repeat split; cbn; try done.
    + rewrite Hp1. rewrite post_reactionCount_add_add.
      change (1 + -1) with 0. rewrite post_reactionCount_add_0.
      apply map_eq. intros j. destruct (decide (j = id)) as [->|Hne].
      * by rewrite lookup_insert_eq.
      * by rewrite lookup_insert_ne, lookup_alter_ne.
    + rewrite Hr. by apply delete_insert_id.
Qed.

(** X4. The generic route writes the ledger before it looks at the target:
    for a [targetType] of ['post'] or ['comment'] whose target does not
    exist, a first request by a user without a row hands the storage's
    record-not-found exception to [next] and yet leaves the new row in the
    ledger; nothing else is written. *)
Theorem reaction_on_missing_target (env : Env) (U targetType targetId : string)
    (type : option string) (s : Store) :
  U ≠ "" →
  targetType = "post" ∨ targetType = "comment" →
  target_counter s (targetType, targetId) = None →
  reactions s !! (targetType, targetId, U) = None →
  let res := post_reactions env (Some U) targetType targetId type s in
  res.1 = Next RecordNotFound ∧
  (∃ r, res.2 = set_reactions (insert (targetType, targetId, U) r) s) ∧
  live_rows res.2 (targetType, targetId) = S (live_rows s (targetType, targetId)).
Proof.
  intros HU Hty Hmissing Hnone. cbn zeta.
  rewrite post_reactions_run by done. cbn zeta. rewrite Hnone.
  rewrite update_count_run. unfold target_counter in Hmissing. cbn in Hmissing.
  assert (Hthrow :
    ∀ r, (if decide (targetType = "post") then
            match posts (set_reactions (insert (targetType, targetId, U) r) s)
                  !! targetId with
            | Some p =>
                (Ok tt, set_posts (insert targetId (post_reactionCount_add 1 p))
                          (set_reactions (insert (targetType, targetId, U) r) s))
            | None =>
                (Throw RecordNotFound,
                 set_reactions (insert (targetType, targetId, U) r) s)
            end
          else if decide (targetType = "comment") then
            match comments (set_reactions (insert (targetType, targetId, U) r) s)
                  !! targetId with
            | Some c =>
                (Ok tt, set_comments (insert targetId (comment_reactionCount_add 1 c))
                          (set_reactions (insert (targetType, targetId, U) r) s))
            | None =>
                (Throw RecordNotFound,
                 set_reactions (insert (targetType, targetId, U) r) s)
            end
          else (Ok tt, set_reactions (insert (targetType, targetId, U) r) s))
         = (Throw RecordNotFound,
            set_reactions (insert (targetType, targetId, U) r) s)).
  { intros r. cbn. destruct Hty as [-> | ->].
    - rewrite decide_True by done. rewrite decide_True in Hmissing by done.
      by destruct (posts s !! targetId).
    - rewrite decide_False by done. rewrite decide_True by done.
      rewrite decide_False in Hmissing by done.
      rewrite decide_True in Hmissing by done.
      by destruct (comments s !! targetId). }
  rewrite Hthrow. cbn [fst snd]. split; [done|]. split; [by eexists|].
  apply (live_rows_insert s (targetType, targetId) U _ Hnone).
Qed.

(** ** Reactions and notifications *)

Lemma created_by_insert env i s s' :
  notifications s' = insert_notification env i (notifications s) →
  created s s' = {[fresh (dom (notifications s)) := notification_of_input env i]}.
Proof.
  intros Hn. rewrite <- (created_insert env i s). unfold created. by rewrite Hn.
Qed.

Lemma created_none s s' :
  notifications s' = notifications s → created s s' = ∅.
Proof. unfold created. intros ->. apply map_difference_diag. Qed.

(** X5. Which reactions are silent.  The generic route [POST /reactions]
    never touches the notification table or the log, whatever the request.
    On [POST /posts/:id/reactions], a request that removes the reaction, and
    a request by the author of the post, leave the notification table as it
    was. *)
Theorem silent_reactions (env : Env) (user : option string) (s : Store) :
  (∀ targetType targetId type,
     notifications (post_reactions env user targetType targetId type s).2
     = notifications s ∧
     console (post_reactions env user targetType targetId type s).2 = console s) ∧
  (∀ id type p U,
     truthy user = Some U → posts s !! id = Some p →
     post_authorId p = U ∨ is_Some (reactions s !! ("post", id, U)) →
     notifications (post_posts_id_reactions env user id type s).2
     = notifications s).
Proof.
  split.
  - intros targetType targetId type.
    unfold post_reactions, handler, bind. destruct (truthy user) as [U|]; [| done].
    unfold prisma_reaction_findUnique, get.
    destruct (reactions s !! (targetType, targetId, U)) as [r|] eqn:Hr.
    + unfold prisma_reaction_delete. rewrite Hr. rewrite update_count_run.
      cbn [posts comments set_reactions].
      repeat case_decide; [destruct (posts s !! targetId)
                          | destruct (comments s !! targetId) |]; done.
    + unfold prisma_reaction_create. rewrite Hr. rewrite update_count_run.
      cbn [posts comments set_reactions].
      repeat case_decide; [destruct (posts s !! targetId)
                          | destruct (comments s !! targetId) |]; done.
  - intros id type p U HU Hp Hsilent.
    unfold post_posts_id_reactions, handler, bind. rewrite HU.
    unfold prisma_post_findUnique, prisma_reaction_findUnique, get. rewrite Hp.
    destruct (reactions s !! ("post", id, U)) as [r|] eqn:Hr.
    + unfold prisma_reaction_delete, prisma_post_update. rewrite Hr. cbn.
      by rewrite Hp.
    + destruct Hsilent as [Hown | [? [=]]].
      unfold prisma_reaction_create, prisma_post_update. rewrite Hr. cbn.
      rewrite Hp. unfold notify_reaction, try_catch, bind, prisma_post_findUnique, get.
      cbn. rewrite lookup_insert_eq. cbn. rewrite decide_False; [done|].
      by intros Hne.
Qed.

(** X6. A first reaction to somebody else's post, by a user whose row
    exists and while the storage accepts inserts, creates exactly one
    notification: for the author of the post, of type [REACTION], scheduled
    at the request's time and unread, linking to the post and naming the
    reactor by name, or by handle when the name is empty or null. *)
Theorem reaction_notifies_author (env : Env) (U id : string) (type : option string)
    (p : Post) (u : User) (s : Store) :
  U ≠ "" → notification_insert_fails env = false →
  posts s !! id = Some p → post_authorId p ≠ U →
  users s !! U = Some u → reactions s !! ("post", id, U) = None →
  ∃ nid n,
    created s (post_posts_id_reactions env (Some U) id type s).2 = {[nid := n]} ∧
    notif_userId n = post_authorId p ∧ notif_type n = REACTION ∧
    notif_status n = scheduled ∧ notif_scheduledFor n = now env ∧
    notif_readAt n = None ∧
    meta_actionUrl (notif_metadata n) = Some ("/posts/" +:+ id) ∧
    notif_message n
    = tmpl (js_or (user_name u) (user_handle u)) +:+ " hat deinen Post mit "
      +:+ default "like" type +:+ " reagiert".
Proof.
  intros HU Hok Hp Hauthor Hu Hnone.
  unfold post_posts_id_reactions, handler, bind. rewrite (truthy_Some U HU).
  unfold prisma_post_findUnique, prisma_reaction_findUnique, get.
  rewrite Hp, Hnone. unfold prisma_reaction_create, prisma_post_update.
  rewrite Hnone. cbn. rewrite Hp.
  unfold notify_reaction, try_catch, bind, prisma_post_findUnique, get.
  cbn. rewrite lookup_insert_eq. cbn. rewrite decide_True by done.
  unfold NotificationService.sendReactionNotification, bind,
    prisma_user_findUnique, get. cbn. rewrite Hu.
  rewrite decide_False by done. rewrite run_createNotification by done.
  cbn [fst snd]. do 2 eexists. split.
  - by apply created_by_insert.
  - by repeat split.
Qed.

(** ** The subscription registry *)

Lemma filter_none {A} (P : A → Prop) `{∀ x, Decision (P x)} (l : list A) :
  (∀ x, x ∈ l → ¬ P x) → filter P l = [].
Proof.
  induction l as [|x l IH]; intros Hall; [done|].
  rewrite filter_cons_False by (apply Hall; left).
  apply IH. intros y Hy. apply Hall. by right.
Qed.

Lemma filter_key_map_to_list {K A} `{Countable K} (m : gmap K A) (k : K) (v : A) :
  m !! k = Some v →
  filter (λ kv : K * A, kv.1 = k) (map_to_list m) = [(k, v)].
Proof.
  intros Hk. apply Permutation_singleton_r.
  rewrite <- (map_to_list_delete m k v Hk).
  rewrite filter_cons_True by done.
  rewrite (filter_none _ (map_to_list (delete k m))); [done|].
  intros [k' v'] Hin%elem_of_map_to_list Heq. cbn in Heq. subst k'.
  by rewrite lookup_delete_eq in Hin.
Qed.

(** What [POST /subscriptions] does for an authenticated user. *)
Lemma post_subscriptions_run env U targetType targetId inApp email push s :
  U ≠ "" →
  let key := (U, targetType, targetId) in
  let row :=
    match subscriptions s !! key with
    | Some old =>
        {| sub_id := sub_id old; sub_inApp := default true inApp;
           sub_email := default false email; sub_push := default false push;
           sub_createdAt := sub_createdAt old |}
    | None =>
        {| sub_id := fresh (subscription_ids (subscriptions s));
           sub_inApp := default true inApp; sub_email := default false email;
           sub_push := default false push; sub_createdAt := now env |}
    end in
  post_subscriptions env (Some U) targetType targetId inApp email push s
  = (Respond 201 (Subscribed row), set_subscriptions (insert key row) s).
Proof.
  intros HU. cbn zeta. unfold post_subscriptions, handler, bind.
  by rewrite (truthy_Some U HU).
Qed.

(** X7. After a user subscribes to a target, however often they had
    subscribed before, their list of subscriptions holds exactly one row for
    that target, with the flags of this last request ([inApp] defaulting to
    true, [email] and [push] to false); the list holds their rows only, newest
    first. *)
Theorem subscribe_then_list (env : Env) (U targetType targetId : string)
    (inApp email push : option bool) (s : Store) :
  U ≠ "" →
  let s1 := (post_subscriptions env (Some U) targetType targetId inApp email push s).2 in
  ∃ rows row,
    get_subscriptions (Some U) s1 = (Respond 200 (SubscriptionList rows), s1) ∧
    filter (λ kv : string * string * string * Subscription,
              kv.1 = (U, targetType, targetId)) rows
    = [((U, targetType, targetId), row)] ∧
    sub_inApp row = default true inApp ∧
    sub_email row = default false email ∧
    sub_push row = default false push ∧
    Forall (λ kv : string * string * string * Subscription, kv.1.1.1 = U) rows ∧
    StronglySorted newest_subscription_first rows.
Proof.
  intros HU. cbn zeta. rewrite post_subscriptions_run by done. cbn zeta.
  cbn [snd].
  match goal with
  | |- context [set_subscriptions (insert ?k ?r) s] => set (row := r); set (key := k)
  end.
  exists (subscriptions_of U (set_subscriptions (insert key row) s)), row.
  split.
  { unfold get_subscriptions, handler, bind. by rewrite (truthy_Some U HU). }
  split.
  { apply Permutation_singleton_r. unfold subscriptions_of.
    rewrite merge_sort_Permutation. rewrite list_filter_filter.
    rewrite (list_filter_iff _
               (λ kv : string * string * string * Subscription, kv.1 = key)).
    - cbn [subscriptions set_subscriptions].
      rewrite (filter_key_map_to_list _ key row); [done|].
      apply lookup_insert_eq.
    - intros [[[u t] i] v]. cbn. unfold key.
      split; [by intros [? _] | intros Heq; split; [done | by injection Heq]]. }
  split; [by unfold row; destruct (subscriptions s !! (U, targetType, targetId))|].
  split; [by unfold row; destruct (subscriptions s !! (U, targetType, targetId))|].
  split; [by unfold row; destruct (subscriptions s !! (U, targetType, targetId))|].
  split.
  - unfold subscriptions_of. rewrite merge_sort_Permutation.
    apply Forall_forall. by intros kv [? _]%list_elem_of_filter.
  - apply StronglySorted_merge_sort.
    + intros a b c. unfold newest_subscription_first. lia.
    + intros a b. unfold newest_subscription_first. lia.
Qed.

(** X8. Subscribing is an upsert on the triple: no other row of the table
    changes; a first subscription adds one row, created at the request's
    time; a repeated one keeps the row's id and creation time, replaces its
    three flags and leaves the size of the table as it was. *)
Theorem subscribe_is_upsert (env : Env) (U targetType targetId : string)
    (inApp email push : option bool) (s : Store) :
  U ≠ "" →
  let key := (U, targetType, targetId) in
  let s1 := (post_subscriptions env (Some U) targetType targetId inApp email push s).2 in
  (∀ k, k ≠ key → subscriptions s1 !! k = subscriptions s !! k) ∧
  ∃ row,
    subscriptions s1 !! key = Some row ∧
    (sub_inApp row, sub_email row, sub_push row)
    = (default true inApp, default false email, default false push) ∧
    match subscriptions s !! key with
    | Some old =>
        size (subscriptions s1) = size (subscriptions s) ∧
        sub_id row = sub_id old ∧ sub_createdAt row = sub_createdAt old
    | None =>
        size (subscriptions s1) = S (size (subscriptions s)) ∧
        sub_createdAt row = now env
    end.
Proof.
  intros HU. cbn zeta. rewrite post_subscriptions_run by done. cbn zeta.
  cbn [snd subscriptions set_subscriptions]. split.
  - intros k Hk. by rewrite lookup_insert_ne.
  - eexists. split; [apply lookup_insert_eq|].
    destruct (subscriptions s !! (U, targetType, targetId)) as [old|] eqn:Hold.
    + split; [done|]. split; [| done].
      apply map_size_insert_Some. by eexists.
    + split; [done|]. split; [| done]. by apply map_size_insert_None.
Qed.

(** X9. Subscribing to a target one did not follow and unsubscribing again
    gives back the store as it was: the second request answers 200 and
    every table is unchanged. *)
Theorem subscribe_then_unsubscribe (env : Env) (U targetType targetId : string)
    (inApp email push : option bool) (s : Store) :
  U ≠ "" → subscriptions s !! (U, targetType, targetId) = None →
  let s1 := (post_subscriptions env (Some U) targetType targetId inApp email push s).2 in
  delete_subscriptions (Some U) targetType targetId s1
  = (Respond 200 (SubscriptionMessage "Unsubscribed successfully"), s).
Proof.
  intros HU Hnone. cbn zeta. rewrite post_subscriptions_run by done. cbn zeta.
  cbn [snd]. rewrite Hnone.
  pose proof (unsubscribe_outcomes U targetType targetId
                (set_subscriptions
                   (insert (U, targetType, targetId)
                      {| sub_id := fresh (subscription_ids (subscriptions s));
                         sub_inApp := default true inApp;
                         sub_email := default false email;
                         sub_push := default false push;
                         sub_createdAt := now env |}) s) HU) as Hun.
  cbn zeta in Hun. cbn [subscriptions set_subscriptions] in Hun.
  rewrite lookup_insert_eq in Hun. destruct Hun as [-> _]. f_equal.
  apply store_eq; try done. cbn. by apply delete_insert_id.
Qed.

(** ** The inbox: deleting, reading, counting *)

(** X10. Deleting a notification answers 404 when no notification has the
    id and 403 when it belongs to another user, both without writing; for
    the recipient it answers 200, removes that row and no other, and a later
    attempt to read or delete it answers 404. *)
Theorem delete_notification_outcomes (env : Env) (U id : string) (s : Store) :
  U ≠ "" →
  match notifications s !! id with
  | None =>
      delete_notifications_id (Some U) id s
      = (Respond 404 (MessageError "Notification not found"), s)
  | Some n =>
      if decide (notif_userId n = U) then
        let s1 := set_notifications (delete id) s in
        delete_notifications_id (Some U) id s
        = (Respond 200 (MessageOk "Notification deleted"), s1) ∧
        (∀ id', id' ≠ id → notifications s1 !! id' = notifications s !! id') ∧
        delete_notifications_id (Some U) id s1
        = (Respond 404 (MessageError "Notification not found"), s1) ∧
        post_notifications_id_read env (Some U) id s1
        = (Respond 404 (InboxError "Notification not found"), s1)
      else
        delete_notifications_id (Some U) id s
        = (Respond 403 (MessageError "Not authorized"), s)
  end.
Proof.
  intros HU.
  assert (Hrun : ∀ s0, delete_notifications_id (Some U) id s0
    = match notifications s0 !! id with
      | None => (Respond 404 (MessageError "Notification not found"), s0)
      | Some n =>
          if decide (notif_userId n ≠ U) then
            (Respond 403 (MessageError "Not authorized"), s0)
          else (Respond 200 (MessageOk "Notification deleted"),
                set_notifications (delete id) s0)
      end).
  { intros s0. unfold delete_notifications_id, handler, bind.
    rewrite (truthy_Some U HU). unfold prisma_notification_findUnique, get.
    destruct (notifications s0 !! id) as [n|] eqn:Hn; [| done].
    case_decide; [done|]. unfold prisma_notification_delete. by rewrite Hn. }
  rewrite !Hrun.
  destruct (notifications s !! id) as [n|] eqn:Hn; [| done].
  destruct (decide (notif_userId n = U)) as [Hown|Hother].
  - rewrite decide_False by (by intros ?). cbn zeta. split; [done|].
    split; [intros id' Hne; cbn; by rewrite lookup_delete_ne|].
    rewrite Hrun. cbn [notifications set_notifications].
    rewrite lookup_delete_eq. split; [done|].
    unfold post_notifications_id_read, handler, bind.
    rewrite (truthy_Some U HU). unfold prisma_notification_findUnique, get.
    cbn [notifications set_notifications]. by rewrite lookup_delete_eq.
  - by rewrite decide_True.
Qed.

Lemma notification_rows_insert P id n n' s :
  notifications s !! id = Some n →
  (length (notification_rows P (set_notifications (insert id n') s))
   + (if P n then 1 else 0)
   = length (notification_rows P s) + (if P n' then 1 else 0))%nat.
Proof.
  intros Hn. unfold notification_rows. cbn [notifications set_notifications].
  rewrite <- (map_to_list_delete (notifications s) id n Hn).
  rewrite <- (insert_delete_eq (notifications s)).
  rewrite map_to_list_insert by apply lookup_delete_eq.
  rewrite !filter_cons. cbn [snd].
  destruct (P n), (P n'); repeat case_decide; try done; cbn [length]; lia.
Qed.

(** X11. Marking one of their notifications read lowers the user's unread
    count by one when it was unread and leaves it as it was otherwise; in
    both cases the stored [readAt] becomes the time of this request, so
    reading again moves the read time. *)
Theorem mark_read_counts (env : Env) (U id : string) (n : Notification)
    (s : Store) :
  U ≠ "" → notifications s !! id = Some n → notif_userId n = U →
  let s1 := (post_notifications_id_read env (Some U) id s).2 in
  let unread st := Z.of_nat (length (notification_rows (unread_of U) st)) in
  unread s1 = unread s - (match notif_readAt n with None => 1 | Some _ => 0 end) ∧
  notifications s1 !! id = Some (mark_read (now env) n) ∧
  notif_readAt (mark_read (now env) n) = Some (now env).
Proof.
  intros HU Hn Hown. cbn zeta.
  unfold post_notifications_id_read, handler, bind.
  rewrite (truthy_Some U HU). unfold prisma_notification_findUnique, get.
  rewrite Hn. rewrite decide_False by (by intros ?).
  unfold prisma_notification_update. rewrite Hn. cbn [fst snd ret].
  split; [| split; [cbn; apply lookup_insert_eq | done]].
  pose proof (notification_rows_insert (unread_of U) id n
                (mark_read (now env) n) s Hn) as Hlen.
  assert (Hafter : unread_of U (mark_read (now env) n) = false).
  { unfold unread_of. cbn. apply andb_false_r. }
  rewrite Hafter in Hlen.
  assert (Hbefore : unread_of U n
                    = match notif_readAt n with None => true | Some _ => false end).
  { unfold unread_of. rewrite Hown, bool_decide_eq_true_2 by done.
    by destruct (notif_readAt n). }
  rewrite Hbefore in Hlen. destruct (notif_readAt n); cbn beta iota in Hlen; lia.
Qed.

Lemma unread_of_marked U t n :
  unread_of U (if unread_of U n then mark_read t n else n) = false.
Proof.
  destruct (unread_of U n) eqn:Hu; [| done].
  unfold unread_of. cbn. apply andb_false_r.
Qed.

(** X12. After a user marks all read they have no unread notification.  No
    notification is added or removed; those of other users and those already
    read are left exactly as they were, and each of their unread ones gets
    this request's time as [readAt] and status [delivered]. *)
Theorem mark_all_read_effect (env : Env) (U : string) (s : Store) :
  U ≠ "" →
  let s1 := (post_notifications_read_all env (Some U) s).2 in
  notification_rows (unread_of U) s1 = [] ∧
  dom (notifications s1) = dom (notifications s) ∧
  ∀ id n, notifications s !! id = Some n →
          notifications s1 !! id
          = Some (if bool_decide (notif_userId n = U ∧ notif_readAt n = None)
                  then mark_read (now env) n else n).
Proof.
  intros HU. cbn zeta. unfold post_notifications_read_all, handler, bind.
  rewrite (truthy_Some U HU). unfold prisma_notification_updateMany, modify, ret.
  cbn [fst snd notifications set_notifications]. split; [| split].
  - unfold notification_rows. cbn [notifications set_notifications].
    apply filter_none. intros [id n'] Hin%elem_of_map_to_list. cbn [snd].
    rewrite lookup_fmap in Hin.
    destruct (notifications s !! id) as [n|]; [| done]. cbn in Hin.
    injection Hin as <-. by rewrite unread_of_marked.
  - apply dom_fmap_L.
  - intros id n Hn. rewrite lookup_fmap, Hn. cbn. f_equal.
    unfold unread_of. by rewrite bool_decide_and.
Qed.

(** ** Paging and ordering *)

Lemma pages_of_ceiling total limit :
  0 < limit → ∃ k, pages_of total limit = Some k ∧
                   (k - 1) * limit < total ∧ total ≤ k * limit.
Proof.
  intros Hl. unfold pages_of. rewrite decide_False by lia.
  exists (- ((- total) `div` limit)). split; [done|].
  pose proof (Z.div_mod (- total) limit ltac:(lia)) as Hdm.
  pose proof (Z.mod_pos_bound (- total) limit Hl) as Hmod.
  set (q := (- total) `div` limit) in *. set (r := (- total) `mod` limit) in *.
  split; nia.
Qed.

(** X13. The [pages] of the inbox answer is the number of the last page
    that has rows: for a page size above 0 and a page number of at least 1,
    the page returned is non-empty exactly when the page number is at most
    [pages]. *)
Theorem inbox_pages (U : string) (page limit : Z) (unreadOnly : option string)
    (s : Store) :
  U ≠ "" → 1 ≤ page → 0 < limit →
  ∃ rows unread total k,
    get_notifications (Some U) (Some page) (Some limit) unreadOnly s
    = (Respond 200
         (InboxPage rows unread
            {| pagination_page := page; pagination_limit := limit;
               pagination_total := total; pagination_pages := Some k;
               pagination_hasMore := None |}), s) ∧
    total = Z.of_nat (length (notification_rows (inbox_where U unreadOnly) s)) ∧
    (rows ≠ [] ↔ page ≤ k).
Proof.
  intros HU Hpage Hlimit.
  destruct (pages_of_ceiling
              (Z.of_nat (length (notification_rows (inbox_where U unreadOnly) s)))
              limit Hlimit) as (k & Hk & Hlo & Hhi).
  unfold get_notifications, handler, bind. rewrite (truthy_Some U HU).
  unfold default. cbn [from_option id].
  unfold prisma_notification_findMany, prisma_notification_count, get.
  assert (Hskip : 0 ≤ (page - 1) * limit) by (apply Z.mul_nonneg_nonneg; lia).
  rewrite window_offset by lia. cbn [fst snd ret]. rewrite Hk.
  do 4 eexists. split; [done|]. split; [done|].
  set (ordered := merge_sort newest_first _).
  assert (Hlen : length ordered
                 = length (notification_rows (inbox_where U unreadOnly) s)).
  { unfold ordered. by rewrite merge_sort_Permutation. }
  rewrite <- Hlen in Hlo, Hhi.
  assert (Hrows : length (transform <$>
                    take (Z.to_nat limit) (drop (Z.to_nat ((page - 1) * limit)) ordered))
                  = Nat.min (Z.to_nat limit)
                      (length ordered - Z.to_nat ((page - 1) * limit))).
  { by rewrite length_fmap, length_take, length_drop. }
  split.
  - intros Hne. destruct (decide (page ≤ k)) as [|Hgt]; [done|]. exfalso.
    apply Hne. apply nil_length_inv. rewrite Hrows. nia.
  - intros Hle Hnil. apply (f_equal length) in Hnil. rewrite Hrows in Hnil.
    cbn in Hnil. nia.
Qed.







(** X15. [hasMore] of the feed tells whether matching posts lie behind the
    rows returned: for a page size of at least 0 and an offset of at least
    0 (a cursor, or a page number of at least 1), it is true exactly when
    rows remain after [offset + limit]. *)
Theorem feed_hasMore_exact (sort : option string) (page limit : Z)
    (cursor search groupId : option string) (s : Store) :
  0 ≤ limit → 0 ≤ feed_skip cursor page limit →
  let ordered := order_posts sort (post_rows s cursor groupId search) in
  ∃ items pagination,
    get_posts sort (Some page) (Some limit) cursor search groupId s
    = (Respond 200 (FeedPage items pagination), s) ∧
    (pagination_hasMore pagination = Some true
     ↔ drop (Z.to_nat (feed_skip cursor page limit + limit)) ordered ≠ []).
Proof.
  intros Hlimit Hskip. cbn zeta. rewrite get_posts_run. cbn zeta.
  unfold default. cbn [from_option id].
  rewrite window_offset by done. do 2 eexists. split; [done|].
  cbn [pagination_hasMore].
  assert (Hlen : length (order_posts sort (post_rows s cursor groupId search))
                 = length (post_rows s cursor groupId search)).
  { by rewrite order_posts_Permutation. }
  rewrite <- Hlen. split.
  - intros [= Hb%bool_decide_eq_true] Hnil.
    apply drop_nil_inv in Hnil. lia.
  - intros Hne. f_equal. apply bool_decide_eq_true.
    destruct (decide (feed_skip cursor page limit + limit
                      < Z.of_nat (length (order_posts sort
                                            (post_rows s cursor groupId search)))))
      as [|Hge]; [done|].
    exfalso. apply Hne. apply drop_ge. lia.
Qed.

Global Instance feed_order_total sort : Total (feed_order sort).
Proof.
  intros a b. unfold feed_order, by_reactionCount_desc, by_trending,
    by_createdAt_desc. repeat case_decide; lia.
Qed.

Global Instance feed_order_trans sort : Transitive (feed_order sort).
Proof.
  intros a b c. unfold feed_order, by_reactionCount_desc, by_trending,
    by_createdAt_desc. repeat case_decide; lia.
Qed.

Lemma order_posts_sorted sort rows :
  StronglySorted (feed_order sort) (order_posts sort rows).
Proof.
  unfold feed_order, order_posts.
  repeat case_decide;
    (apply StronglySorted_merge_sort;
     [intros a b c | intros a b];
     unfold by_reactionCount_desc, by_trending, by_createdAt_desc; lia).
Qed.

Lemma StronglySorted_take_drop {A} (R : relation A) (l : list A) n m :
  StronglySorted R l → StronglySorted R (take n (drop m l)).
Proof.
  intros Hs. rewrite <- (take_drop m l) in Hs.
  apply StronglySorted_app_1_r in Hs.
  rewrite <- (take_drop n (drop m l)) in Hs.
  by apply StronglySorted_app_1_l in Hs.
Qed.

(** X16. What the feed returns, for a page size of at least 0 and an offset
    of at least 0: rows of the post table, each once, all published (and of
    the group asked for, when one is), in the order of the sort mode:
    newest first, or by reaction count downwards for ['top'], with ties
    newest first for ['trending']. *)
Theorem feed_rows_sound (sort : option string) (page limit : Z)
    (cursor search groupId : option string) (s : Store) :
  0 ≤ limit → 0 ≤ feed_skip cursor page limit →
  ∃ rows pagination,
    get_posts sort (Some page) (Some limit) cursor search groupId s
    = (Respond 200 (FeedPage (feed_item s <$> rows) pagination), s) ∧
    StronglySorted (feed_order sort) rows ∧
    NoDup rows.*1 ∧
    Forall (λ kv : string * Post,
              posts s !! kv.1 = Some kv.2 ∧ post_status kv.2 = "published" ∧
              ∀ g, truthy groupId = Some g → post_groupId kv.2 = Some g) rows.
Proof.
  intros Hlimit Hskip. rewrite get_posts_run. cbn zeta.
  unfold default. cbn [from_option id]. rewrite window_offset by done.
  do 2 eexists. split; [done|].
  set (ordered := order_posts sort (post_rows s cursor groupId search)).
  split; [apply StronglySorted_take_drop, order_posts_sorted|]. split.
  - apply (sublist_NoDup _ (ordered.*1)).
    + unfold ordered. rewrite order_posts_Permutation. unfold post_rows.
      apply (sublist_NoDup _ ((map_to_list (posts s)).*1));
        [apply NoDup_fst_map_to_list|].
      apply fmap_sublist, sublist_filter.
    + apply fmap_sublist. etrans; [apply sublist_take | apply sublist_drop].
  - apply Forall_forall. intros kv Hkv.
    apply subseteq_take, subseteq_drop in Hkv. unfold ordered in Hkv.
    rewrite order_posts_Permutation in Hkv.
    apply list_elem_of_filter in Hkv as [Hwhere Hin].
    destruct kv as [id p]. apply elem_of_map_to_list in Hin. cbn [fst snd].
    split; [done|]. unfold feed_where in Hwhere. cbn [fst snd] in Hwhere.
    apply andb_prop in Hwhere as [Hwhere _]. apply andb_prop in Hwhere as [Hwhere Hg].
    apply andb_prop in Hwhere as [Hpub _]. apply bool_decide_eq_true in Hpub.
    split; [done|]. intros g Hgid. rewrite Hgid in Hg.
    by apply bool_decide_eq_true in Hg.
Qed.

(** ** The dispatcher: batches and what it leaves alone *)

Lemma bulk_insert env (l : list NotificationCreateInput) :
  ∀ m : gmap string Notification,
    let m' := foldl (λ m i, insert_notification env i m) m l in
    m ⊆ m' ∧ (map_to_list (m' ∖ m)).*2 ≡ₚ notification_of_input env <$> l.
Proof.
  induction l as [|i l IH] using rev_ind; intros m; cbn zeta.
  - cbn. split; [done|]. by rewrite map_difference_diag, map_to_list_empty.
  - rewrite foldl_app. cbn [foldl]. destruct (IH m) as [Hsub Hperm]. cbn zeta in *.
    set (m1 := foldl (λ m i, insert_notification env i m) m l) in *.
    change (insert_notification env i m1)
      with (<[fresh (dom m1) := notification_of_input env i]> m1).
    assert (Hfresh : m1 !! fresh (dom m1) = None) by apply not_elem_of_dom, is_fresh.
    assert (Hfresh' : m !! fresh (dom m1) = None).
    { destruct (m !! fresh (dom m1)) as [x|] eqn:Hx; [| done].
      eapply lookup_weaken in Hx; [| exact Hsub]. congruence. }
    split.
    + etrans; [exact Hsub|]. by apply insert_subseteq.
    + rewrite <- insert_difference' by done.
      rewrite map_to_list_insert by (by rewrite lookup_difference, Hfresh').
      rewrite fmap_app, fmap_cons. cbn [snd fmap list_fmap].
      rewrite Hperm. by rewrite (comm (++)).
Qed.

(** X17. A batch of notifications is all or nothing and one per recipient:
    [createBulkNotifications] always returns normally and leaves the
    primary tables and the existing notifications as they are; when the
    storage accepts the batch, the notifications it adds have exactly the
    recipients of the list, with repetitions, each scheduled at the
    request's time and unread; when it refuses, it adds none. *)
Theorem bulk_notifications (env : Env) (userIds : list string)
    (payload : NotificationPayload) (s : Store) :
  ∃ s', NotificationService.createBulkNotifications env userIds payload s
        = (Ok tt, s') ∧
        same_primary s s' ∧ notifications s ⊆ notifications s' ∧
        if notification_insert_fails env then notifications s' = notifications s
        else
          notif_userId <$> (map_to_list (created s s')).*2 ≡ₚ userIds ∧
          Forall (λ n, notif_status n = scheduled ∧ notif_readAt n = None ∧
                       notif_scheduledFor n = now env ∧
                       notif_type n = payload_type payload ∧
                       notif_message n = payload_message payload)
            (map_to_list (created s s')).*2.
Proof.
  unfold NotificationService.createBulkNotifications, try_catch,
    prisma_notification_createMany.
  destruct (notification_insert_fails env).
  - eexists. split; [done|]. split; [by repeat split|]. by split.
  - eexists. split; [done|]. split; [by repeat split|].
    unfold created. cbn [notifications set_notifications].
    match goal with
    | |- context [foldl _ (notifications s) ?l] =>
        destruct (bulk_insert env l (notifications s)) as [Hsub Hperm]
    end.
    cbn zeta in *. split; [done|]. split.
    + rewrite Hperm. rewrite <- !list_fmap_compose.
      rewrite (list_fmap_ext _ id userIds) by done. by rewrite list_fmap_id.
    + rewrite Hperm. apply Forall_fmap, Forall_fmap, Forall_forall.
      by intros u _.
Qed.

Lemma additive_ret : additive (ret tt).
Proof. intros s. exists s. split; [done|]. split; [apply same_primary_refl | done]. Qed.

Lemma additive_console_error msg : additive (console_error msg).
Proof. intros s. eexists. split; [done|]. split; [by repeat split | done]. Qed.

Lemma additive_createNotification env userId payload :
  additive (NotificationService.createNotification env userId payload).
Proof.
  intros s. unfold NotificationService.createNotification, try_catch,
    prisma_notification_create.
  destruct (notification_insert_fails env).
  - apply additive_console_error.
  - eexists. split; [done|]. split; [by repeat split|].
    cbn. apply insert_subseteq, not_elem_of_dom, is_fresh.
Qed.

Lemma additive_createBulkNotifications env userIds payload :
  additive (NotificationService.createBulkNotifications env userIds payload).
Proof.
  intros s. unfold NotificationService.createBulkNotifications, try_catch,
    prisma_notification_createMany.
  destruct (notification_insert_fails env).
  - apply additive_console_error.
  - eexists. split; [done|]. split; [by repeat split|].
    cbn. apply bulk_insert.
Qed.

Lemma additive_try_catch (body : M unit) msg :
  (∀ s, same_primary s (body s).2 ∧ notifications s ⊆ notifications (body s).2) →
  additive (try_catch body (λ _, console_error msg)).
Proof.
  intros Hbody s. unfold try_catch. destruct (Hbody s) as [Hp Hn].
  destruct (body s) as [[[]|e] s']; cbn in *.
  - by exists s'.
  - eexists. split; [done|]. split; [| done].
    destruct Hp as (?&?&?&?&?&?&?). by repeat split.
Qed.

Lemma additive_snd (m : M unit) s :
  additive m → same_primary s (m s).2 ∧ notifications s ⊆ notifications (m s).2.
Proof. intros Ha. by destruct (Ha s) as (s'&->&?&?). Qed.

Lemma additive_sendReactionNotification env a r tt' tid ty :
  additive (NotificationService.sendReactionNotification env a r tt' tid ty).
Proof.
  intros s. unfold NotificationService.sendReactionNotification, bind,
    prisma_user_findUnique, get.
  destruct (users s !! r); [| apply additive_ret].
  case_decide; [apply additive_ret | apply additive_createNotification].
Qed.

Lemma additive_sendReplyNotification env a r p c content :
  additive (NotificationService.sendReplyNotification env a r p c content).
Proof.
  intros s. unfold NotificationService.sendReplyNotification, bind,
    prisma_user_findUnique, get.
  destruct (users s !! r); [| apply additive_ret].
  case_decide; [apply additive_ret | apply additive_createNotification].
Qed.

Lemma additive_notify_reaction env id userId type :
  additive (notify_reaction env id userId type).
Proof.
  apply additive_try_catch. intros s. unfold bind, prisma_post_findUnique, get.
  destruct (posts s !! id); [| split; [apply same_primary_refl | done]].
  case_decide; [| split; [apply same_primary_refl | done]].
  apply additive_snd, additive_sendReactionNotification.
Qed.

Lemma additive_notify_reply env id userId commentId content :
  additive (notify_reply env id userId commentId content).
Proof.
  apply additive_try_catch. intros s. unfold bind, prisma_post_findUnique, get.
  destruct (posts s !! id); [| split; [apply same_primary_refl | done]].
  case_decide; [| split; [apply same_primary_refl | done]].
  apply additive_snd, additive_sendReplyNotification.
Qed.

Lemma additive_notify_group env groupId userId postId :
  additive (notify_group env groupId userId postId).
Proof.
  apply additive_try_catch. intros s. unfold bind, active_members_except, get.
  case_decide; [| split; [apply same_primary_refl | done]].
  apply additive_snd, additive_createBulkNotifications.
Qed.

Lemma additive_notify_owner env group userId membership :
  additive (notify_owner env group userId membership).
Proof.
  apply additive_try_catch. intros s.
  case_decide; [| split; [apply same_primary_refl | done]].
  apply additive_snd, additive_createNotification.
Qed.

(** Case analysis along one run of a handler; a notification block is
    replaced by its result. *)
Ltac run_step :=
  match goal with
  | |- context [notify_reaction ?e ?i ?u ?t ?st] =>
      let s' := fresh "s'" in let H := fresh "Hq" in let Hn := fresh "Hsub" in
      destruct (additive_notify_reaction e i u t st) as (s' & -> & H & Hn)
  | |- context [notify_reply ?e ?i ?u ?c ?t ?st] =>
      let s' := fresh "s'" in let H := fresh "Hq" in let Hn := fresh "Hsub" in
      destruct (additive_notify_reply e i u c t st) as (s' & -> & H & Hn)
  | |- context [notify_group ?e ?g ?u ?p ?st] =>
      let s' := fresh "s'" in let H := fresh "Hq" in let Hn := fresh "Hsub" in
      destruct (additive_notify_group e g u p st) as (s' & -> & H & Hn)
  | |- context [notify_owner ?e ?g ?u ?m ?st] =>
      let s' := fresh "s'" in let H := fresh "Hq" in let Hn := fresh "Hsub" in
      destruct (additive_notify_owner e g u m st) as (s' & -> & H & Hn)
  | |- context [match ?x with _ => _ end] =>
      lazymatch x with
      | context [match _ with _ => _ end] => fail
      | context [notify_reaction] => fail
      | context [notify_reply] => fail
      | context [notify_group] => fail
      | context [notify_owner] => fail
      | _ => destruct x eqn:?
      end
  end.

(** X18. No action rewrites or removes a notification it did not create:
    after reacting to a post, commenting on a post, creating a post or
    joining a group, whatever the request and whether or not the storage
    accepts inserts, every notification that existed before is still there,
    unchanged. *)
Theorem actions_keep_notifications (env : Env) (user : option string) (s : Store) :
  (∀ id type,
     notifications s ⊆ notifications (post_posts_id_reactions env user id type s).2) ∧
  (∀ id content parentId,
     notifications s
     ⊆ notifications (post_posts_id_comments env user id content parentId s).2) ∧
  (∀ body, notifications s ⊆ notifications (post_posts env user body s).2) ∧
  (∀ slug, notifications s ⊆ notifications (post_groups_slug_join env user slug s).2).
Proof.
  repeat split.
  - intros id type.
    unfold post_posts_id_reactions, handler, bind, prisma_post_findUnique,
      prisma_reaction_findUnique, prisma_reaction_delete, prisma_reaction_create,
      prisma_post_update, get, ret.
    repeat (run_step; cbn beta iota zeta delta [fst snd]); by cbn in *.
  - intros id content parentId.
    unfold post_posts_id_comments, handler, bind, prisma_post_findUnique,
      prisma_comment_findUnique, prisma_comment_create, prisma_post_update, get, ret.
    repeat (run_step; cbn beta iota zeta delta [fst snd]); by cbn in *.
  - intros body.
    unfold post_posts, handler, bind, parse_createPost, prisma_groupMember_findUnique,
      prisma_post_create, get, ret, throw.
    repeat (run_step; cbn beta iota zeta delta [fst snd]); by cbn in *.
  - intros slug.
    unfold post_groups_slug_join, handler, bind, prisma_group_findUnique_slug,
      prisma_groupMember_findUnique, prisma_groupMember_create, get, ret.
    repeat (run_step; cbn beta iota zeta delta [fst snd]); by cbn in *.
Qed.

Lemma createBulk_recipients env userIds payload s :
  notification_insert_fails env = false →
  ∃ s', NotificationService.createBulkNotifications env userIds payload s
        = (Ok tt, s') ∧
        same_primary s s' ∧
        notif_userId <$> (map_to_list (notifications s' ∖ notifications s)).*2
        ≡ₚ userIds.
Proof.
  intros Hok. unfold NotificationService.createBulkNotifications, try_catch,
    prisma_notification_createMany. rewrite Hok.
  eexists. split; [done|]. split; [by repeat split|].
  cbn [notifications set_notifications].
  match goal with
  | |- context [foldl _ (notifications s) ?l] =>
      destruct (bulk_insert env l (notifications s)) as [_ Hperm]
  end.
  cbn zeta in Hperm. rewrite Hperm. rewrite <- !list_fmap_compose.
  rewrite (list_fmap_ext _ id userIds) by done. by rewrite list_fmap_id.
Qed.

(** X19. A post created in a group by an active member, while the storage
    accepts inserts: the answer is 201, the new post is stored under an
    unused id with the trimmed content, and the notifications created are
    addressed to exactly the active members of the group other than the
    author, one each; the author is never among them. *)
Theorem group_post_fans_out (env : Env) (U g : string) (body : CreatePost)
    (m : GroupMember) (s : Store) :
  U ≠ "" → notification_insert_fails env = false →
  parse_createPost body = ret body →
  trim (create_content body) ≠ "" →
  truthy (create_groupId body) = Some g →
  groupMembers s !! (g, U) = Some m → member_status m = "active" →
  let res := post_posts env (Some U) body s in
  let recipients := notif_userId <$> (map_to_list (created s res.2)).*2 in
  (∃ id p rc cc,
     res.1 = Respond 201 (PostCreated id p rc cc 0 "Post erfolgreich erstellt!") ∧
     posts s !! id = None ∧ posts res.2 !! id = Some p ∧
     post_authorId p = U ∧ post_content p = trim (create_content body) ∧
     post_groupId p = Some g) ∧
  recipients
  ≡ₚ (λ kv : string * string * GroupMember, kv.1.2)
     <$> filter (λ kv : string * string * GroupMember,
                   kv.1.1 = g ∧ member_status kv.2 = "active" ∧ kv.1.2 ≠ U)
           (map_to_list (groupMembers s)) ∧
  U ∉ recipients.
Proof.
  intros HU Hok Hparse Hcontent Hg Hm Hactive. cbn zeta.
  assert (Hrun : ∃ s2 id p rc cc,
    post_posts env (Some U) body s
    = (Respond 201 (PostCreated id p rc cc 0 "Post erfolgreich erstellt!"), s2) ∧
    posts s !! id = None ∧ posts s2 !! id = Some p ∧
    post_authorId p = U ∧ post_content p = trim (create_content body) ∧
    post_groupId p = Some g ∧
    notif_userId <$> (map_to_list (notifications s2 ∖ notifications s)).*2
    ≡ₚ (λ kv : string * string * GroupMember, kv.1.2)
       <$> filter (λ kv : string * string * GroupMember,
                     kv.1.1 = g ∧ member_status kv.2 = "active" ∧ kv.1.2 ≠ U)
             (map_to_list (groupMembers s))).
  { unfold post_posts, handler, bind. rewrite (truthy_Some U HU), Hparse.
    unfold ret at 1. cbn beta iota. rewrite decide_False by done.
    rewrite Hg. unfold prisma_groupMember_findUnique, get. rewrite Hm.
    unfold ret at 1. cbn beta iota. rewrite Hactive.
    rewrite bool_decide_eq_true_2 by done. cbn [negb].
    unfold prisma_post_create. cbn beta iota zeta. cbn [fst snd].
    unfold notify_group, try_catch, bind, active_members_except, get.
    cbn [groupMembers set_posts].
    set (members := (λ kv : string * string * GroupMember, kv.1.2)
                    <$> filter _ (map_to_list (groupMembers s))).
    assert (Hfresh : posts s !! fresh (dom (posts s)) = None)
      by apply not_elem_of_dom, is_fresh.
    destruct (decide (0 < length members)%nat) as [Hsome|Hnone].
    - match goal with
      | |- context [NotificationService.createBulkNotifications ?e ?l ?pl ?st] =>
          destruct (createBulk_recipients e l pl st Hok) as (s2 & -> & Hq & Hrec)
      end.
      unfold ret. cbn beta iota. do 5 eexists. split; [done|].
      destruct Hq as (_&Hposts&_). cbn in Hposts. rewrite Hposts.
      split; [done|]. split; [apply lookup_insert_eq|]. by repeat split.
    - unfold ret. cbn beta iota. do 5 eexists. split; [done|].
      split; [done|]. split; [cbn; apply lookup_insert_eq|].
      split; [done|]. split; [done|]. split; [done|].
      cbn [notifications set_posts]. rewrite map_difference_diag, map_to_list_empty.
      destruct members; [done | cbn in Hnone; lia]. }
  destruct Hrun as (s2 & id & p & rc & cc & -> & Hnone & Hp & Hau & Hco & Hgr & Hrec).
  cbn [fst snd]. split; [by do 4 eexists|]. unfold created. split; [done|].
  rewrite Hrec. intros Hin. apply list_elem_of_fmap in Hin as (kv & -> & Hkv).
  apply list_elem_of_filter in Hkv as [(_&_&Hne) _]. done.
Qed.

(** X20. A post for a group is refused to anyone who is not an active
    member: the answer is 403 and nothing is written, no post and no
    notification. *)
Theorem group_post_refused (env : Env) (U g : string) (body : CreatePost)
    (s : Store) :
  U ≠ "" →
  parse_createPost body = ret body →
  trim (create_content body) ≠ "" →
  truthy (create_groupId body) = Some g →
  (∀ m, groupMembers s !! (g, U) = Some m → member_status m ≠ "active") →
  post_posts env (Some U) body s
  = (Respond 403 (PostError "Not a member of this group"), s).
Proof.
  intros HU Hparse Hcontent Hg Hnot.
  unfold post_posts, handler, bind. rewrite (truthy_Some U HU), Hparse.
  unfold ret at 1. cbn beta iota. rewrite decide_False by done.
  rewrite Hg. unfold prisma_groupMember_findUnique, get.
  destruct (groupMembers s !! (g, U)) as [m|] eqn:Hm; [| done].
  unfold ret at 1. cbn beta iota.
  by rewrite bool_decide_eq_false_2 by (by apply Hnot).
Qed.

(** ** Groups *)

Lemma find_group_by_slug slug gid g s :
  groups s !! gid = Some g → group_slug g = slug →
  (∀ gid' g', groups s !! gid' = Some g' → group_slug g' = slug → gid' = gid) →
  prisma_group_findUnique_slug slug s = (Ok (Some (gid, g)), s).
Proof.
  intros Hg Hslug Huniq. unfold prisma_group_findUnique_slug, get. do 2 f_equal.
  assert (Hfilter : filter (λ kv : string * Group, group_slug kv.2 = slug)
                      (map_to_list (groups s)) = [(gid, g)]).
  { apply Permutation_singleton_r.
    rewrite <- (map_to_list_delete (groups s) gid g Hg).
    rewrite filter_cons_True by done.
    rewrite (filter_none _ (map_to_list (delete gid (groups s)))); [done|].
    intros [gid' g'] Hin%elem_of_map_to_list Hs. cbn in Hs.
    destruct (decide (gid' = gid)) as [->|Hne].
    - by rewrite lookup_delete_eq in Hin.
    - rewrite lookup_delete_ne in Hin by done. by apply Hne, (Huniq gid' g'). }
  by rewrite Hfilter.
Qed.

(** X21. Joining a group, found by its unique slug.  A user who already
    has a membership row, of whatever status, gets 400 and nothing is
    written.  Otherwise a membership with role ['member'] is stored, active
    when the group is public and pending when it is not, the answer is 201,
    an owner who joins their own group gets no notification, and joining once
    more answers 400 without writing. *)
Theorem join_outcomes (env : Env) (U slug gid : string) (g : Group) (u : User)
    (s : Store) :
  U ≠ "" → groups s !! gid = Some g → group_slug g = slug →
  (∀ gid' g', groups s !! gid' = Some g' → group_slug g' = slug → gid' = gid) →
  users s !! U = Some u →
  match groupMembers s !! (gid, U) with
  | Some _ =>
      post_groups_slug_join env (Some U) slug s
      = (Respond 400 (JoinError "Already a member of this group"), s)
  | None =>
      let membership :=
        {| member_role := "member";
           member_status :=
             if decide (group_visibility g = "public") then "active" else "pending" |} in
      ∃ s1,
        post_groups_slug_join env (Some U) slug s
        = (Respond 201 (Joined membership u), s1) ∧
        groupMembers s1 = <[(gid, U) := membership]> (groupMembers s) ∧
        (group_ownerId g = U → notifications s1 = notifications s) ∧
        post_groups_slug_join env (Some U) slug s1
        = (Respond 400 (JoinError "Already a member of this group"), s1)
  end.
Proof.
  intros HU Hg Hslug Huniq Hu.
  assert (Hrun : ∀ s0, groups s0 = groups s →
    is_Some (groupMembers s0 !! (gid, U)) →
    post_groups_slug_join env (Some U) slug s0
    = (Respond 400 (JoinError "Already a member of this group"), s0)).
  { intros s0 Hgroups [m Hm]. unfold post_groups_slug_join, handler, bind.
    rewrite (truthy_Some U HU).
    rewrite (find_group_by_slug slug gid g s0) by (by rewrite ?Hgroups).
    unfold prisma_groupMember_findUnique, get. cbn [fst]. by rewrite Hm. }
  destruct (groupMembers s !! (gid, U)) as [m|] eqn:Hm.
  - apply Hrun; [done | by eexists].
  - cbn zeta.
    assert (Hfirst : ∃ s1,
      post_groups_slug_join env (Some U) slug s
      = (Respond 201
           (Joined {| member_role := "member";
                      member_status :=
                        if decide (group_visibility g = "public")
                        then "active" else "pending" |} u), s1) ∧
      groupMembers s1
      = <[(gid, U) := {| member_role := "member";
                         member_status :=
                           if decide (group_visibility g = "public")
                           then "active" else "pending" |}]> (groupMembers s) ∧
      groups s1 = groups s ∧
      (group_ownerId g = U → notifications s1 = notifications s)).
    { unfold post_groups_slug_join, handler, bind.
      rewrite (truthy_Some U HU).
      rewrite (find_group_by_slug slug gid g s) by done.
      unfold prisma_groupMember_findUnique, get. cbn [fst]. rewrite Hm.
      unfold prisma_groupMember_create. cbn [fst snd]. rewrite Hm, Hu.
      unfold notify_owner, try_catch. cbn [fst snd].
      destruct (decide (group_ownerId g ≠ U)) as [Hother|Hself].
      + match goal with
        | |- context [NotificationService.createNotification ?e ?o ?pl ?st] =>
            destruct (additive_createNotification e o pl st) as (s1 & -> & Hq & _)
        end.
        unfold ret. cbn beta iota. exists s1. split; [done|].
        destruct Hq as (_&_&_&_&_&Hgr&Hgm). cbn in Hgr, Hgm.
        split; [done|]. split; [done|]. by intros ?.
      + unfold ret. cbn beta iota. eexists. split; [done|].
        split; [done|]. split; done. }
    destruct Hfirst as (s1 & Hres & Hgm & Hgr & Hown).
    exists s1. split; [done|]. split; [done|]. split; [done|].
    apply Hrun; [done|]. rewrite Hgm, lookup_insert_eq. by eexists.
Qed.

(** ** Comments *)

(** One run of [POST /posts/:id/comments]: either nothing is written, or a
    comment is stored under an unused id and the post's [commentCount] is
    raised by one. *)
Lemma comment_run env user id content parentId s :
  let res := post_posts_id_comments env user id content parentId s in
  (res.2 = s ∧ ∀ st body, res.1 = Respond st body → st ≠ 201) ∨
  ∃ U c0 p cid c s2 count,
    truthy user = Some U ∧ truthy content = Some c0 ∧ trim c0 ≠ "" ∧
    posts s !! id = Some p ∧ comments s !! cid = None ∧
    cid = fresh (dom (comments s)) ∧
    c = {| comment_postId := id; comment_authorId := U;
           comment_content := trim c0; comment_parentId := truthy parentId;
           comment_reactionCount := 0; comment_createdAt := now env |} ∧
    (∀ pid, truthy parentId = Some pid →
            ∃ pc, comments s !! pid = Some pc ∧ comment_postId pc = id) ∧
    res = (Respond 201 (CommentCreated cid c count "Kommentar erfolgreich erstellt!"),
           s2) ∧
    notify_reply env id U cid c0
      (set_posts (insert id (post_commentCount_add 1 p))
         (set_comments (insert cid c) s))
    = (Ok tt, s2) ∧
    same_primary
      (set_posts (insert id (post_commentCount_add 1 p))
         (set_comments (insert cid c) s)) s2 ∧
    notifications s ⊆ notifications s2.
Proof.
  cbn zeta. unfold post_posts_id_comments, handler, bind.
  destruct (truthy content) as [c0|] eqn:Hc0;
    [| left; split; [done | by intros ?? [= <- _]]].
  destruct (decide (trim c0 = "")) as [|Htrim];
    [left; split; [done | by intros ?? [= <- _]]|].
  destruct (truthy user) as [U|] eqn:HU;
    [| left; split; [done | by intros ?? [= <- _]]].
  unfold prisma_post_findUnique, get.
  destruct (posts s !! id) as [p|] eqn:Hp;
    [| left; split; [done | by intros ?? [= <- _]]].
  destruct (truthy parentId) as [pid|] eqn:Hpid.
  - unfold prisma_comment_findUnique, get, ret.
    destruct (comments s !! pid) as [pc|] eqn:Hpc;
      [| left; split; [done | by intros ?? [= <- _]]].
    destruct (bool_decide (comment_postId pc = id)) eqn:Hb;
      [| left; split; [done | by intros ?? [= <- _]]].
    apply bool_decide_eq_true in Hb. cbn [negb].
    unfold prisma_comment_create, prisma_post_update. cbn [fst snd].
    cbn [posts set_comments]. rewrite Hp.
    match goal with
    | |- context [notify_reply ?e ?i ?u ?c ?t ?st] =>
        destruct (additive_notify_reply e i u c t st) as (s2 & Hrun & Hq & Hsub)
    end.
    rewrite Hrun. cbn beta iota. right.
    do 7 eexists. split; [done|]. split; [done|]. split; [done|].
    split; [done|]. split; [apply not_elem_of_dom, is_fresh|].
    split; [done|]. split; [done|].
    split; [intros ? [= <-]; by exists pc|].
    split; [done|]. split; [exact Hrun|]. split; [exact Hq|]. exact Hsub.
  - unfold ret. cbn [negb].
    unfold prisma_comment_create, prisma_post_update. cbn [fst snd].
    cbn [posts set_comments]. rewrite Hp.
    match goal with
    | |- context [notify_reply ?e ?i ?u ?c ?t ?st] =>
        destruct (additive_notify_reply e i u c t st) as (s2 & Hrun & Hq & Hsub)
    end.
    rewrite Hrun. cbn beta iota. right.
    do 7 eexists. split; [done|]. split; [done|]. split; [done|].
    split; [done|]. split; [apply not_elem_of_dom, is_fresh|].
    split; [done|]. split; [done|]. split; [done|].
    split; [done|]. split; [exact Hrun|]. split; [exact Hq|]. exact Hsub.
Qed.

Lemma count_comments_insert s cid c id' :
  comments s !! cid = None →
  Z.of_nat (size (filter (λ kv : string * Comment, comment_postId kv.2 = id')
                    (<[cid := c]> (comments s))))
  = count_comments s id' + (if decide (comment_postId c = id') then 1 else 0).
Proof.
  intros Hnone. unfold count_comments. case_decide.
  - rewrite map_filter_insert_True by done.
    rewrite map_size_insert_None; [lia|].
    by rewrite map_lookup_filter_None; left.
  - rewrite map_filter_insert_not' by (done || by rewrite Hnone).
    lia.
Qed.

(** X22. Commenting on a post keeps every post's [commentCount] at the same
    distance from the number of comments stored for it: whatever the
    request, refused or not, a comment row and the increment of the counter
    come together. *)
Theorem comment_count_kept (env : Env) (user : option string) (id : string)
    (content parentId : option string) (s : Store) (id' : string) :
  comment_drift (post_posts_id_comments env user id content parentId s).2 id'
  = comment_drift s id'.
Proof.
  destruct (comment_run env user id content parentId s) as
    [[-> _] | (U&c0&p&cid&c&s2&count&_&_&_&Hp&Hcid&_&Hc&_&->&_&Hq&_)]; [done|].
  cbn [snd]. destruct Hq as (_&Hposts&Hcomments&_). cbn in Hposts, Hcomments.
  unfold comment_drift, count_comments at 1. rewrite Hposts, Hcomments.
  rewrite (count_comments_insert s cid c id' Hcid). rewrite Hc. cbn [comment_postId].
  destruct (decide (id = id')) as [<-|Hne].
  - rewrite lookup_insert_eq, Hp. cbn. f_equal. lia.
  - rewrite lookup_insert_ne by done. destruct (posts s !! id'); [| done].
    cbn. f_equal. lia.
Qed.

(** X23. Replies stay within their post: if every reply stored has its
    parent among the comments of the same post, this is still so after any
    request to [POST /posts/:id/comments]; and a comment that is stored
    carries the trimmed content, which is never empty. *)
Theorem comment_keeps_threads (env : Env) (user : option string) (id : string)
    (content parentId : option string) (s : Store) :
  parents_same_post s →
  let res := post_posts_id_comments env user id content parentId s in
  parents_same_post res.2 ∧
  ∀ cid c, comments s !! cid = None → comments res.2 !! cid = Some c →
           comment_content c ≠ "" ∧ trim <$> content = Some (comment_content c) ∧
           comment_postId c = id.
Proof.
  intros Hinv. cbn zeta.
  destruct (comment_run env user id content parentId s) as
    [[-> _] | (U&c0&p&cid&c&s2&count&_&Hc0&Htrim&Hp&Hcid&_&Hc&Hpar&->&_&Hq&_)].
  { split; [done|]. intros cid c Hnone Hsome. congruence. }
  cbn [snd]. destruct Hq as (_&_&Hcomments&_). cbn in Hcomments. split.
  - intros cid' c' pid Hc' Hpid. rewrite Hcomments in Hc' |- *.
    destruct (decide (cid' = cid)) as [->|Hne].
    + rewrite lookup_insert_eq in Hc'. injection Hc' as <-.
      rewrite Hc in Hpid |- *. cbn in Hpid |- *.
      destruct (Hpar pid Hpid) as (pc & Hpc & Hpost).
      exists pc. split; [| done].
      rewrite lookup_insert_ne; [done|]. intros <-. congruence.
    + rewrite lookup_insert_ne in Hc' by done.
      destruct (Hinv cid' c' pid Hc' Hpid) as (pc & Hpc & Hpost).
      exists pc. split; [| done].
      rewrite lookup_insert_ne; [done|]. intros <-. congruence.
  - intros cid' c' Hnone Hsome. rewrite Hcomments in Hsome.
    destruct (decide (cid' = cid)) as [->|Hne].
    + rewrite lookup_insert_eq in Hsome. injection Hsome as <-.
      rewrite Hc. cbn. split; [done|]. split; [| done].
      destruct content as [c1|]; [| done]. cbn in Hc0 |- *.
      destruct c1; [done|]. by injection Hc0 as <-.
    + rewrite lookup_insert_ne in Hsome by done. congruence.
Qed.

Lemma trim_start_nonempty c0 : trim c0 ≠ "" → c0 ≠ "".
Proof. by intros Ht ->. Qed.

(** X24. Who hears of a comment.  A top-level comment on one's own post
    creates no notification.  On somebody else's post, by a user whose row
    exists and while the storage accepts inserts, it creates exactly one:
    a [REPLY] for the author of the post, which quotes the trimmed content
    cut to 100 characters and links to the new comment. *)
Theorem comment_notifies_author (env : Env) (U id c0 : string) (p : Post)
    (u : User) (s : Store) :
  U ≠ "" → notification_insert_fails env = false → trim c0 ≠ "" →
  posts s !! id = Some p → users s !! U = Some u →
  let res := post_posts_id_comments env (Some U) id (Some c0) None s in
  if decide (post_authorId p = U) then notifications res.2 = notifications s
  else
    ∃ nid n cid c,
      created s res.2 = {[nid := n]} ∧
      notif_userId n = post_authorId p ∧ notif_type n = REPLY ∧
      stored_content n = Some (excerpt (trim c0)) ∧
      meta_actionUrl (notif_metadata n)
      = Some ("/posts/" +:+ id +:+ "#comment-" +:+ cid) ∧
      comments s !! cid = None ∧ comments res.2 !! cid = Some c ∧
      comment_authorId c = U.
Proof.
  intros HU Hok Htrim Hp Hu. cbn zeta.
  destruct (comment_run env (Some U) id (Some c0) None s) as
    [[_ Hno] | (U'&c1&p'&cid&c&s2&count&HU'&Hc1&_&Hp'&Hcid&_&Hc&_&Hres&Hrun&Hq&_)].
  { exfalso. revert Hno.
    unfold post_posts_id_comments, handler, bind.
    pose proof (trim_start_nonempty c0 Htrim) as Hne.
    rewrite (truthy_Some c0 Hne), (truthy_Some U HU).
    rewrite decide_False by done.
    unfold prisma_post_findUnique, get. rewrite Hp. cbn [truthy].
    unfold ret at 1. cbn beta iota. cbn [negb].
    unfold prisma_comment_create, prisma_post_update. cbn [fst snd].
    cbn [posts set_comments]. rewrite Hp.
    match goal with
    | |- context [notify_reply ?e ?i ?u ?c ?t ?st] =>
        destruct (additive_notify_reply e i u c t st) as (s2 & -> & _ & _)
    end.
    unfold ret. cbn beta iota. intros Hno. by eapply Hno. }
  rewrite (truthy_Some U HU) in HU'. injection HU' as <-.
  rewrite (truthy_Some c0 (trim_start_nonempty c0 Htrim)) in Hc1.
  injection Hc1 as <-. rewrite Hp in Hp'. injection Hp' as <-.
  rewrite Hres. cbn [snd].
  unfold notify_reply, try_catch, bind, prisma_post_findUnique, get in Hrun.
  cbn [posts set_posts set_comments] in Hrun. rewrite lookup_insert_eq in Hrun.
  cbn [post_authorId post_commentCount_add] in Hrun.
  destruct (decide (post_authorId p = U)) as [Hown|Hother].
  - rewrite decide_False in Hrun by (by intros ?). unfold ret in Hrun.
    by injection Hrun as <-.
  - rewrite decide_True in Hrun by done.
    unfold NotificationService.sendReplyNotification, bind,
      prisma_user_findUnique, get in Hrun.
    cbn [users set_posts set_comments] in Hrun. rewrite Hu in Hrun.
    rewrite decide_False in Hrun by done.
    rewrite run_createNotification in Hrun by done. injection Hrun as <-.
    do 4 eexists. split; [by apply created_by_insert|].
    split; [done|]. split; [done|]. split; [done|]. split; [done|].
    split; [exact Hcid|]. split; [cbn; apply lookup_insert_eq|]. by rewrite Hc.
Qed.

(** ** Reading one post *)

Lemma post_viewCount_add_add d1 d2 p :
  post_viewCount_add d2 (post_viewCount_add d1 p) = post_viewCount_add (d1 + d2) p.
Proof. destruct p. unfold post_viewCount_add. cbn. f_equal. lia. Qed.

Lemma post_viewCount_add_0 p : post_viewCount_add 0 p = p.
Proof. destruct p. unfold post_viewCount_add. cbn. f_equal. lia. Qed.

Lemma get_posts_id_run id s :
  get_posts_id id s
  = match post_detail s id with
    | None => (Respond 404 (PostDetailError "Post not found"), s)
    | Some d =>
        (Respond 200 (PostDetailOk d),
         set_posts (insert id (post_viewCount_add 1 (detail_post d))) s)
    end.
Proof.
  unfold get_posts_id, handler, bind, get, post_detail, prisma_post_update.
  destruct (posts s !! id) as [p|] eqn:Hp; cbn; by rewrite ?Hp.
Qed.

(** X25. Views are counted after the answer is built.  [n] requests for a
    post that does not exist are each answered 404 and write nothing.  For a
    post that exists each is answered 200; the [k]-th answer (from 0) shows
    the post as it was before the first request but with [k] more views, so
    a reader never sees the own view counted; afterwards the post has [n]
    more views and nothing else in the store has changed. *)
Theorem views_counted (n : nat) (id : string) (s : Store) :
  let res := view_times n id s in
  match post_detail s id with
  | None =>
      res = (replicate n (Respond 404 (PostDetailError "Post not found")), s)
  | Some d =>
      posts s !! id = Some (detail_post d) ∧
      res.1 = (λ k, Respond 200 (PostDetailOk (viewed (Z.of_nat k) d))) <$> seq 0 n ∧
      res.2 = set_posts (insert id (post_viewCount_add (Z.of_nat n) (detail_post d))) s
  end.
Proof.
  cbn zeta. revert s. induction n as [|n IH]; intros s.
  - cbn [view_times replicate seq fmap list_fmap fst snd].
    destruct (post_detail s id) as [d|] eqn:Hd; [|done].
    unfold post_detail in Hd. destruct (posts s !! id) as [p|] eqn:Hp; [|done].
    injection Hd as <-. cbn [detail_post]. split; [done|]. split; [done|].
    cbn [Z.of_nat]. rewrite post_viewCount_add_0.
    apply store_eq; try done. cbn. by rewrite insert_id.
  - cbn [view_times]. rewrite get_posts_id_run.
    destruct (post_detail s id) as [d|] eqn:Hd.
    + cbn [fst snd]. unfold post_detail in Hd.
      destruct (posts s !! id) as [p|] eqn:Hp; [|done].
      injection Hd as <-. cbn [detail_post].
      set (s1 := set_posts (insert id (post_viewCount_add 1 p)) s).
      specialize (IH s1).
      assert (Hd1 : post_detail s1 id
                    = Some (viewed 1 {| detail_id := id; detail_post := p;
                        detail_author := users s !! post_authorId p;
                        detail_group := post_groupId p ≫= λ g, groups s !! g;
                        detail_comments :=
                          merge_sort oldest_comment_first
                            (filter (λ kv : string * Comment, comment_postId kv.2 = id)
                               (map_to_list (comments s)));
                        detail_count_comments := count_comments s id;
                        detail_count_reactions := count_reactions s id |})).
      { unfold post_detail, s1. cbn [posts set_posts]. by rewrite lookup_insert_eq. }
      rewrite Hd1 in IH. destruct IH as (_ & IH1 & IH2).
      split; [done|]. split.
      * cbn [seq fmap list_fmap]. f_equal.
        { unfold viewed. cbn. by rewrite post_viewCount_add_0. }
        rewrite IH1, <- fmap_S_seq, <- list_fmap_compose.
        apply list_fmap_ext. intros _ k _. cbn. unfold viewed. cbn.
        do 3 f_equal. rewrite post_viewCount_add_add. f_equal. lia.
      * rewrite IH2. unfold viewed, s1. cbn.
        apply store_eq; try done. cbn.
        rewrite insert_insert_eq, post_viewCount_add_add. do 2 f_equal. lia.
    + cbn [fst snd]. specialize (IH s). rewrite Hd in IH. by rewrite IH.
Qed.

(** ** The [/comments] route *)

(** One run of [POST /comments]: either nothing is written, or the comment
    is stored as sent, by an active member of the post's group, and the
    post's [commentCount] is raised by one. *)
Lemma post_comments_run env user body s :
  let res := post_comments env user body s in
  (res.2 = s ∧ ∀ st b, res.1 = Respond st b → st ≠ 201) ∨
  ∃ U p g m cid c,
    truthy user = Some U ∧
    (1 ≤ Z.of_nat (String.length (create_comment_content body)) ≤ 2000) ∧
    posts s !! create_postId body = Some p ∧ post_groupId p = Some g ∧
    groupMembers s !! (g, U) = Some m ∧ member_status m = "active" ∧
    (∀ pid, create_parentId body = Some pid → is_Some (comments s !! pid)) ∧
    cid = fresh (dom (comments s)) ∧ comments s !! cid = None ∧
    c = {| comment_postId := create_postId body; comment_authorId := U;
           comment_content := create_comment_content body;
           comment_parentId := create_parentId body;
           comment_reactionCount := 0; comment_createdAt := now env |} ∧
    res = (Respond 201 (CommentRouteCreated cid c (users s !! U)
                          (Z.of_nat (live_rows s ("comment", cid)))),
           set_posts (insert (create_postId body) (post_commentCount_add 1 p))
             (set_comments (insert cid c) s)).
Proof.
  cbn zeta. unfold post_comments, handler, bind.
  destruct (truthy user) as [U|] eqn:HU;
    [| left; split; [done | by intros ?? [= <- _]]].
  unfold parse_createComment.
  destruct ((1 <=? _) && (_ <=? 2000)) eqn:Hlen;
    [| left; split; [done | by intros ?? ?]].
  apply andb_true_iff in Hlen as [Hlo Hhi].
  apply Z.leb_le in Hlo. apply Z.leb_le in Hhi.
  change (ret body s) with (Ok body, s). cbn beta iota.
  unfold prisma_post_findUnique, get.
  destruct (posts s !! create_postId body) as [p|] eqn:Hp;
    [| left; split; [done | by intros ?? [= <- _]]].
  destruct (post_groupId p) as [g|] eqn:Hg;
    [| left; split; [done | by intros ?? ?]].
  unfold prisma_groupMember_findUnique, get.
  destruct (groupMembers s !! (g, U)) as [m|] eqn:Hm;
    [| left; split; [done | by intros ?? [= <- _]]].
  destruct (bool_decide (member_status m = "active")) eqn:Hact;
    [| left; split; [done | by intros ?? [= <- _]]].
  apply bool_decide_eq_true in Hact.
  unfold prisma_comment_create_data.
  destruct (create_parentId body) as [pid|] eqn:Hpid; cbn [mbind option_bind].
  - destruct (comments s !! pid) as [pc|] eqn:Hpc;
      [| left; split; [done | by intros ?? ?]].
    unfold prisma_user_findUnique, get, prisma_post_update, ret.
    cbn [fst snd posts set_comments]. rewrite Hp. right.
    do 6 eexists. split; [done|]. split; [done|]. split; [done|].
    split; [done|]. split; [done|]. split; [done|].
    split; [intros ? [= <-]; by eexists|]. split; [done|].
    split; [apply not_elem_of_dom, is_fresh|]. split; done.
  - unfold prisma_user_findUnique, get, prisma_post_update, ret.
    cbn [fst snd posts set_comments]. rewrite Hp. right.
    do 6 eexists. split; [done|]. split; [done|]. split; [done|].
    split; [done|]. split; [done|]. split; [done|].
    split; [done|]. split; [done|].
    split; [apply not_elem_of_dom, is_fresh|]. split; done.
Qed.

(** X26. What [POST /comments] can change.  It never creates, changes or
    removes a notification and logs nothing; it keeps every post's
    [commentCount] at the same distance from the comments stored for it; and
    a comment it stores carries the content as sent, 1 to 2000 characters
    long, written by an active member of the group the post belongs to. *)
Theorem comment_route_effect (env : Env) (user : option string)
    (body : CreateComment) (s : Store) :
  let res := post_comments env user body s in
  notifications res.2 = notifications s ∧ console res.2 = console s ∧
  (∀ id', comment_drift res.2 id' = comment_drift s id') ∧
  ∀ cid c, comments s !! cid = None → comments res.2 !! cid = Some c →
    comment_content c = create_comment_content body ∧
    (1 ≤ Z.of_nat (String.length (comment_content c)) ≤ 2000) ∧
    ∃ p g m, posts s !! comment_postId c = Some p ∧ post_groupId p = Some g ∧
             groupMembers s !! (g, comment_authorId c) = Some m ∧
             member_status m = "active".
Proof.
  cbn zeta.
  destruct (post_comments_run env user body s) as
    [[-> _] | (U&p&g&m&cid&c&_&Hlen&Hp&Hg&Hm&Hact&_&_&Hcid&Hc&->)].
  { split; [done|]. split; [done|]. split; [done|]. intros ?? Hn Hs. congruence. }
  cbn [snd]. split; [done|]. split; [done|]. split.
  - intros id'. unfold comment_drift, count_comments at 1.
    cbn [posts comments set_posts set_comments].
    rewrite (count_comments_insert s cid c id' Hcid). rewrite Hc.
    cbn [comment_postId].
    destruct (decide (create_postId body = id')) as [<-|Hne].
    + rewrite lookup_insert_eq, Hp. cbn. f_equal. lia.
    + rewrite lookup_insert_ne by done. destruct (posts s !! id'); [| done].
      cbn. f_equal. lia.
  - intros cid' c' Hnone Hsome. cbn [comments set_posts set_comments] in Hsome.
    destruct (decide (cid = cid')) as [<-|Hne].
    + rewrite lookup_insert_eq in Hsome. injection Hsome as <-. rewrite Hc.
      cbn. split; [done|]. split; [done|]. by exists p, g, m.
    + rewrite lookup_insert_ne in Hsome by done. congruence.
Qed.

(** X27. [POST /comments] does not look at the parent's post.  When an
    active member of the post's group sends a valid comment whose [parentId]
    names a comment of another post, the request is answered 201 and the
    store then holds a reply whose parent belongs to a different post. *)
Theorem comment_route_crosses_posts (env : Env) (U pid g : string)
    (body : CreateComment) (p : Post) (m : GroupMember) (pc : Comment) (s : Store) :
  U ≠ "" →
  1 ≤ Z.of_nat (String.length (create_comment_content body)) ≤ 2000 →
  posts s !! create_postId body = Some p → post_groupId p = Some g →
  groupMembers s !! (g, U) = Some m → member_status m = "active" →
  create_parentId body = Some pid → comments s !! pid = Some pc →
  comment_postId pc ≠ create_postId body →
  let res := post_comments env (Some U) body s in
  (∃ cid c author count,
     res.1 = Respond 201 (CommentRouteCreated cid c author count) ∧
     comments res.2 !! cid = Some c ∧ comment_parentId c = Some pid ∧
     comments res.2 !! pid = Some pc ∧ comment_postId pc ≠ comment_postId c) ∧
  ¬ parents_same_post res.2.
Proof.
  intros HU Hlen Hp Hg Hm Hact Hpid Hpc Hne. cbn zeta.
  assert (Hex : ∃ cid c author count,
     (post_comments env (Some U) body s).1
       = Respond 201 (CommentRouteCreated cid c author count) ∧
     comments (post_comments env (Some U) body s).2 !! cid = Some c ∧
     comment_parentId c = Some pid ∧
     comments (post_comments env (Some U) body s).2 !! pid = Some pc ∧
     comment_postId pc ≠ comment_postId c).
  { unfold post_comments, handler, bind. rewrite (truthy_Some U HU).
    unfold parse_createComment.
    replace (1 <=? Z.of_nat (String.length (create_comment_content body))) with true
      by (symmetry; apply Z.leb_le; lia).
    replace (Z.of_nat (String.length (create_comment_content body)) <=? 2000) with true
      by (symmetry; apply Z.leb_le; lia).
    cbn [andb]. change (ret body s) with (Ok body, s). cbn beta iota.
    unfold prisma_post_findUnique, get. rewrite Hp, Hg.
    unfold prisma_groupMember_findUnique, get. rewrite Hm.
    rewrite bool_decide_eq_true_2 by done.
    unfold prisma_comment_create_data. rewrite Hpid. cbn [mbind option_bind].
    rewrite Hpc. unfold prisma_user_findUnique, get, prisma_post_update, ret.
    cbn [fst snd posts set_comments]. rewrite Hp. cbn [fst snd].
    do 4 eexists. split; [done|]. cbn [comments set_posts set_comments].
    split; [apply lookup_insert_eq|]. split; [done|]. split; [|done].
    rewrite lookup_insert_ne; [done|].
    intros Heq. pose proof (is_fresh (dom (comments s))) as Hfresh.
    rewrite Heq in Hfresh. apply Hfresh, elem_of_dom. by eexists. }
  split; [exact Hex|].
  destruct Hex as (cid & c & _ & _ & _ & Hc & Hpar & Hpc' & Hdiff).
  intros Hinv. destruct (Hinv cid c pid Hc Hpar) as (pc' & Hpc'' & Hsame).
  rewrite Hpc' in Hpc''. injection Hpc'' as <-. done.
Qed.

(** ** The search of the feed *)

Lemma like_percent value : like "%" value = true.
Proof. by induction value as [|a value IH]. Qed.

(** A search of [%] keeps every value that is there, whatever it is, and no
    value that is missing. *)
Lemma search_percent field :
  contains_insensitive "%" field = bool_decide (is_Some field).
Proof.
  destruct field as [v|]; [| done]. cbn [contains_insensitive].
  change (lower ("%" +:+ "%" +:+ "%")) with "%%%".
  generalize (lower v). intros w. induction w as [|a w IH]; [done|].
  change (like "%%%" (String a w))
    with (like "%%" (String a w) || like "%%%" w).
  change (like "%%" (String a w)) with (like "%" (String a w) || like "%%" w).
  by rewrite like_percent.
Qed.

Example search_folds_case :
  contains_insensitive "HELLO" (Some "Say hello!") = true ∧
  contains_insensitive "hello" (Some "Say HELLO!") = true ∧
  contains_insensitive "hello" (Some "Say hallo!") = false.
Proof. by vm_compute. Qed.

Example search_wildcards :
  contains_insensitive "h_llo" (Some "Say hallo!") = true ∧
  contains_insensitive "_" (Some "") = false ∧
  contains_insensitive "s%!" (Some "Say hallo!") = true ∧
  contains_insensitive "50\%" (Some "50% off") = true ∧
  contains_insensitive "50\%" (Some "500 off") = false ∧
  contains_insensitive "50%" (Some "500 off") = true.
Proof. by vm_compute. Qed.

(** ** The properties on the example data *)

Lemma remove_reaction_keeps_drift_witness :
  "u2" ≠ "" ∧ is_Some (posts example_liked !! "p1") ∧
  let res := delete_posts_id_reactions (Some "u2") "p1" example_liked in
  res.1 = Respond 200 (MessageOk "Like erfolgreich entfernt!") ∧
  reactions res.2 !! ("post", "p1", "u2") = None ∧
  S (live_rows res.2 ("post", "p1")) = live_rows example_liked ("post", "p1") ∧
  target_counter res.2 ("post", "p1")
  = (λ n, n - 1) <$> target_counter example_liked ("post", "p1") ∧
  counter_drift res.2 ("post", "p1") = counter_drift example_liked ("post", "p1").
Proof.
  assert (H1 : "u2" ≠ "") by done.
  assert (H2 : is_Some (posts example_liked !! "p1")) by (by eexists).
  split; [exact H1|]. split; [exact H2|].
  exact (remove_reaction_keeps_drift "u2" "p1" example_liked H1 H2).
Defined.

Lemma toggle_twice_restores_witness :
  "u2" ≠ "" ∧ is_Some (target_counter example_store ("post", "p1")) ∧
  route_serves ("post", "p1") example_like ∧
  route_serves ("post", "p1") example_unlike ∧
  reactions example_store !! ("post", "p1", "u2") = None ∧
  same_primary example_store
    (run_toggles ("post", "p1") "u2" [example_like; example_unlike] example_store).
Proof.
  assert (H1 : "u2" ≠ "") by done.
  assert (H2 : is_Some (target_counter example_store ("post", "p1")))
    by (by eexists).
  assert (H3 : route_serves ("post", "p1") example_like) by done.
  assert (H4 : route_serves ("post", "p1") example_unlike) by done.
  assert (H5 : reactions example_store !! ("post", "p1", "u2") = None) by done.
  split; [exact H1|]. split; [exact H2|]. split; [exact H3|].
  split; [exact H4|]. split; [exact H5|].
  exact (toggle_twice_restores example_store ("post", "p1") "u2"
           example_like example_unlike H1 H2 H3 H4 H5).
Defined.

Lemma react_then_remove_restores_witness :
  "u2" ≠ "" ∧ is_Some (posts example_store !! "p1") ∧
  reactions example_store !! ("post", "p1", "u2") = None ∧
  let added := post_posts_id_reactions example_env (Some "u2") "p1" None example_store in
  let removed := delete_posts_id_reactions (Some "u2") "p1" added.2 in
  (∃ r, added.1 = Respond 200 (ReactionToggled (Some "Post erfolgreich geliked!")
                                 "added" (Some r)) ∧
        reactions added.2 !! ("post", "p1", "u2") = Some r) ∧
  removed.1 = Respond 200 (MessageOk "Like erfolgreich entfernt!") ∧
  same_primary example_store removed.2.
Proof.
  assert (H1 : "u2" ≠ "") by done.
  assert (H2 : is_Some (posts example_store !! "p1")) by (by eexists).
  assert (H3 : reactions example_store !! ("post", "p1", "u2") = None) by done.
  split; [exact H1|]. split; [exact H2|]. split; [exact H3|].
  exact (react_then_remove_restores example_env "u2" "p1" None example_store
           H1 H2 H3).
Defined.

Lemma reaction_on_missing_target_witness :
  "u2" ≠ "" ∧ ("comment" = "post" ∨ "comment" = "comment") ∧
  target_counter example_store ("comment", "c9") = None ∧
  reactions example_store !! ("comment", "c9", "u2") = None ∧
  let res := post_reactions example_env (Some "u2") "comment" "c9" None example_store in
  res.1 = Next RecordNotFound ∧
  (∃ r, res.2 = set_reactions (insert ("comment", "c9", "u2") r) example_store) ∧
  live_rows res.2 ("comment", "c9") = S (live_rows example_store ("comment", "c9")).
Proof.
  assert (H1 : "u2" ≠ "") by done.
  assert (H2 : "comment" = "post" ∨ "comment" = "comment") by (by right).
  assert (H3 : target_counter example_store ("comment", "c9") = None) by done.
  assert (H4 : reactions example_store !! ("comment", "c9", "u2") = None) by done.
  split; [exact H1|]. split; [exact H2|]. split; [exact H3|]. split; [exact H4|].
  exact (reaction_on_missing_target example_env "u2" "comment" "c9" None
           example_store H1 H2 H3 H4).
Defined.

Lemma reaction_notifies_author_witness :
  "u2" ≠ "" ∧ notification_insert_fails example_env = false ∧
  posts example_store !! "p1" = Some example_post ∧
  post_authorId example_post ≠ "u2" ∧
  users example_store !! "u2" = Some bob ∧
  reactions example_store !! ("post", "p1", "u2") = None ∧
  ∃ nid n,
    created example_store
      (post_posts_id_reactions example_env (Some "u2") "p1" (Some "love")
         example_store).2 = {[nid := n]} ∧
    notif_userId n = "u1" ∧ notif_type n = REACTION ∧
    notif_status n = scheduled ∧ notif_scheduledFor n = 1000 ∧
    notif_readAt n = None ∧
    meta_actionUrl (notif_metadata n) = Some "/posts/p1" ∧
    notif_message n = "bob hat deinen Post mit love reagiert".
Proof.
  assert (H1 : "u2" ≠ "") by done.
  assert (H2 : notification_insert_fails example_env = false) by done.
  assert (H3 : posts example_store !! "p1" = Some example_post) by done.
  assert (H4 : post_authorId example_post ≠ "u2") by done.
  assert (H5 : users example_store !! "u2" = Some bob) by done.
  assert (H6 : reactions example_store !! ("post", "p1", "u2") = None) by done.
  split; [exact H1|]. split; [exact H2|]. split; [exact H3|].
  split; [exact H4|]. split; [exact H5|]. split; [exact H6|].
  exact (reaction_notifies_author example_env "u2" "p1" (Some "love")
           example_post bob example_store H1 H2 H3 H4 H5 H6).
Defined.

Lemma subscribe_then_list_witness :
  "u1" ≠ "" ∧
  let s1 := (post_subscriptions example_env (Some "u1") "post" "p1"
               None (Some true) None example_store).2 in
  ∃ rows row,
    get_subscriptions (Some "u1") s1 = (Respond 200 (SubscriptionList rows), s1) ∧
    filter (λ kv : string * string * string * Subscription,
              kv.1 = ("u1", "post", "p1")) rows
    = [(("u1", "post", "p1"), row)] ∧
    sub_inApp row = true ∧ sub_email row = true ∧ sub_push row = false ∧
    Forall (λ kv : string * string * string * Subscription, kv.1.1.1 = "u1") rows ∧
    StronglySorted newest_subscription_first rows.
Proof.
  split; [done|].
  exact (subscribe_then_list example_env "u1" "post" "p1" None (Some true) None
           example_store ltac:(done)).
Defined.

Lemma subscribe_is_upsert_witness :
  "u1" ≠ "" ∧
  let key := ("u1", "post", "p1") in
  let s1 := (post_subscriptions example_env (Some "u1") "post" "p1"
               (Some false) (Some true) None example_subscribed).2 in
  (∀ k, k ≠ key → subscriptions s1 !! k = subscriptions example_subscribed !! k) ∧
  ∃ row,
    subscriptions s1 !! key = Some row ∧
    (sub_inApp row, sub_email row, sub_push row) = (false, true, false) ∧
    size (subscriptions s1) = size (subscriptions example_subscribed) ∧
    sub_id row = sub_id example_subscription ∧
    sub_createdAt row = sub_createdAt example_subscription.
Proof.
  split; [done|].
  exact (subscribe_is_upsert example_env "u1" "post" "p1" (Some false) (Some true)
           None example_subscribed ltac:(done)).
Defined.

Lemma subscribe_then_unsubscribe_witness :
  "u1" ≠ "" ∧ subscriptions example_store !! ("u1", "post", "p1") = None ∧
  let s1 := (post_subscriptions example_env (Some "u1") "post" "p1"
               None None None example_store).2 in
  delete_subscriptions (Some "u1") "post" "p1" s1
  = (Respond 200 (SubscriptionMessage "Unsubscribed successfully"), example_store).
Proof.
  split; [done|]. split; [done|].
  exact (subscribe_then_unsubscribe example_env "u1" "post" "p1" None None None
           example_store ltac:(done) ltac:(done)).
Defined.

Lemma delete_notification_outcomes_witness :
  "u1" ≠ "" ∧
  let s1 := set_notifications (delete "n1") example_inbox in
  delete_notifications_id (Some "u1") "n1" example_inbox
  = (Respond 200 (MessageOk "Notification deleted"), s1) ∧
  (∀ id', id' ≠ "n1" → notifications s1 !! id' = notifications example_inbox !! id') ∧
  delete_notifications_id (Some "u1") "n1" s1
  = (Respond 404 (MessageError "Notification not found"), s1) ∧
  post_notifications_id_read example_env (Some "u1") "n1" s1
  = (Respond 404 (InboxError "Notification not found"), s1).
Proof.
  split; [done|].
  exact (delete_notification_outcomes example_env "u1" "n1" example_inbox
           ltac:(done)).
Defined.

Lemma mark_read_counts_witness :
  "u1" ≠ "" ∧
  notifications example_inbox !! "n1" = Some (example_notification 1 None) ∧
  notif_userId (example_notification 1 None) = "u1" ∧
  let s1 := (post_notifications_id_read example_env (Some "u1") "n1" example_inbox).2 in
  let unread st := Z.of_nat (length (notification_rows (unread_of "u1") st)) in
  unread s1 = unread example_inbox - 1 ∧
  notifications s1 !! "n1" = Some (mark_read 1000 (example_notification 1 None)) ∧
  notif_readAt (mark_read 1000 (example_notification 1 None)) = Some 1000.
Proof.
  split; [done|]. split; [done|]. split; [done|].
  exact (mark_read_counts example_env "u1" "n1" (example_notification 1 None)
           example_inbox ltac:(done) ltac:(done) ltac:(done)).
Defined.

Lemma mark_all_read_effect_witness :
  "u1" ≠ "" ∧
  let s1 := (post_notifications_read_all example_env (Some "u1") example_inbox).2 in
  notification_rows (unread_of "u1") s1 = [] ∧
  dom (notifications s1) = dom (notifications example_inbox) ∧
  ∀ id n, notifications example_inbox !! id = Some n →
          notifications s1 !! id
          = Some (if bool_decide (notif_userId n = "u1" ∧ notif_readAt n = None)
                  then mark_read 1000 n else n).
Proof.
  split; [done|].
  exact (mark_all_read_effect example_env "u1" example_inbox ltac:(done)).
Defined.

Lemma inbox_pages_witness :
  "u1" ≠ "" ∧ 1 ≤ 3 ∧ 0 < 2 ∧
  ∃ rows unread total k,
    get_notifications (Some "u1") (Some 3) (Some 2) None example_inbox
    = (Respond 200
         (InboxPage rows unread
            {| pagination_page := 3; pagination_limit := 2;
               pagination_total := total; pagination_pages := Some k;
               pagination_hasMore := None |}), example_inbox) ∧
    total = Z.of_nat (length (notification_rows (inbox_where "u1" None) example_inbox)) ∧
    (rows ≠ [] ↔ 3 ≤ k).
Proof.
  split; [done|]. split; [lia|]. split; [lia|].
  exact (inbox_pages "u1" 3 2 None example_inbox ltac:(done) ltac:(lia) ltac:(lia)).
Defined.


Lemma feed_hasMore_exact_witness :
  0 ≤ 2 ∧ 0 ≤ feed_skip None 1 2 ∧
  let ordered := order_posts (Some "top") (post_rows example_feed None None None) in
  ∃ items pagination,
    get_posts (Some "top") (Some 1) (Some 2) None None None example_feed
    = (Respond 200 (FeedPage items pagination), example_feed) ∧
    (pagination_hasMore pagination = Some true
     ↔ drop (Z.to_nat (feed_skip None 1 2 + 2)) ordered ≠ []).
Proof.
  assert (H1 : 0 ≤ 2) by lia.
  assert (H2 : 0 ≤ feed_skip None 1 2) by (by vm_compute).
  split; [exact H1|]. split; [exact H2|].
  exact (feed_hasMore_exact (Some "top") 1 2 None None None example_feed H1 H2).
Defined.

Lemma feed_rows_sound_witness :
  0 ≤ 2 ∧ 0 ≤ feed_skip None 1 2 ∧
  ∃ rows pagination,
    get_posts (Some "top") (Some 1) (Some 2) None None None example_feed
    = (Respond 200 (FeedPage (feed_item example_feed <$> rows) pagination),
       example_feed) ∧
    StronglySorted (feed_order (Some "top")) rows ∧
    NoDup rows.*1 ∧
    Forall (λ kv : string * Post,
              posts example_feed !! kv.1 = Some kv.2 ∧
              post_status kv.2 = "published" ∧
              ∀ g, truthy None = Some g → post_groupId kv.2 = Some g) rows.
Proof.
  assert (H1 : 0 ≤ 2) by lia.
  assert (H2 : 0 ≤ feed_skip None 1 2) by (by vm_compute).
  split; [exact H1|]. split; [exact H2|].
  exact (feed_rows_sound (Some "top") 1 2 None None None example_feed H1 H2).
Defined.

Lemma group_post_fans_out_witness :
  "u1" ≠ "" ∧ notification_insert_fails example_env = false ∧
  parse_createPost example_group_post = ret example_group_post ∧
  trim (create_content example_group_post) ≠ "" ∧
  truthy (create_groupId example_group_post) = Some "g1" ∧
  groupMembers example_members !! ("g1", "u1")
  = Some {| member_role := "owner"; member_status := "active" |} ∧
  let res := post_posts example_env (Some "u1") example_group_post example_members in
  let recipients :=
    notif_userId <$> (map_to_list (created example_members res.2)).*2 in
  (∃ id p rc cc,
     res.1 = Respond 201 (PostCreated id p rc cc 0 "Post erfolgreich erstellt!") ∧
     posts example_members !! id = None ∧ posts res.2 !! id = Some p ∧
     post_authorId p = "u1" ∧
     post_content p = trim (create_content example_group_post) ∧
     post_groupId p = Some "g1") ∧
  recipients
  ≡ₚ (λ kv : string * string * GroupMember, kv.1.2)
     <$> filter (λ kv : string * string * GroupMember,
                   kv.1.1 = "g1" ∧ member_status kv.2 = "active" ∧ kv.1.2 ≠ "u1")
           (map_to_list (groupMembers example_members)) ∧
  "u1" ∉ recipients.
Proof.
  assert (H1 : "u1" ≠ "") by done.
  assert (H2 : notification_insert_fails example_env = false) by done.
  assert (H3 : parse_createPost example_group_post = ret example_group_post)
    by reflexivity.
  assert (H4 : trim (create_content example_group_post) ≠ "") by (by vm_compute).
  assert (H5 : truthy (create_groupId example_group_post) = Some "g1")
    by reflexivity.
  assert (H6 : groupMembers example_members !! ("g1", "u1")
               = Some {| member_role := "owner"; member_status := "active" |})
    by (vm_compute; reflexivity).
  split; [exact H1|]. split; [exact H2|]. split; [exact H3|].
  split; [exact H4|]. split; [exact H5|]. split; [exact H6|].
  exact (group_post_fans_out example_env "u1" "g1" example_group_post
           {| member_role := "owner"; member_status := "active" |}
           example_members H1 H2 H3 H4 H5 H6 eq_refl).
Defined.

Lemma group_post_refused_witness :
  "u2" ≠ "" ∧
  parse_createPost example_group_post = ret example_group_post ∧
  trim (create_content example_group_post) ≠ "" ∧
  truthy (create_groupId example_group_post) = Some "g1" ∧
  groupMembers example_group_store !! ("g1", "u2") = None ∧
  post_posts example_env (Some "u2") example_group_post example_group_store
  = (Respond 403 (PostError "Not a member of this group"), example_group_store).
Proof.
  assert (H1 : "u2" ≠ "") by done.
  assert (H2 : parse_createPost example_group_post = ret example_group_post)
    by reflexivity.
  assert (H3 : trim (create_content example_group_post) ≠ "") by (by vm_compute).
  assert (H4 : truthy (create_groupId example_group_post) = Some "g1")
    by reflexivity.
  assert (H5 : groupMembers example_group_store !! ("g1", "u2") = None)
    by (vm_compute; reflexivity).
  split; [exact H1|]. split; [exact H2|]. split; [exact H3|].
  split; [exact H4|]. split; [exact H5|].
  refine (group_post_refused example_env "u2" "g1" example_group_post
            example_group_store H1 H2 H3 H4 _).
  intros m Hm. rewrite H5 in Hm. discriminate Hm.
Defined.

Lemma join_outcomes_witness :
  "u2" ≠ "" ∧
  (∃ g, groups example_group_store !! "g1" = Some g ∧ group_slug g = "general") ∧
  users example_group_store !! "u2" = Some bob ∧
  ∃ s1,
    post_groups_slug_join example_env (Some "u2") "general" example_group_store
    = (Respond 201 (Joined {| member_role := "member"; member_status := "active" |}
                      bob), s1) ∧
    groupMembers s1
    = <[("g1", "u2") := {| member_role := "member"; member_status := "active" |}]>
        (groupMembers example_group_store) ∧
    post_groups_slug_join example_env (Some "u2") "general" s1
    = (Respond 400 (JoinError "Already a member of this group"), s1).
Proof.
  set (g := {| group_slug := "general"; group_name := "General";
               group_ownerId := "u1"; group_visibility := "public" |}).
  assert (H1 : "u2" ≠ "") by done.
  assert (H2 : groups example_group_store !! "g1" = Some g) by done.
  assert (H3 : group_slug g = "general") by done.
  assert (H4 : ∀ gid' g', groups example_group_store !! gid' = Some g' →
                          group_slug g' = "general" → gid' = "g1").
  { intros gid' g' Hg _. unfold example_group_store in Hg. cbn [groups] in Hg.
    apply lookup_singleton_Some in Hg. symmetry. exact (proj1 Hg). }
  assert (H5 : users example_group_store !! "u2" = Some bob) by done.
  split; [exact H1|]. split; [by exists g|]. split; [exact H5|].
  destruct (join_outcomes example_env "u2" "general" "g1" g bob
              example_group_store H1 H2 H3 H4 H5) as (s1 & Ha & Hb & _ & Hc).
  exists s1. split; [exact Ha|]. split; [exact Hb|]. exact Hc.
Defined.

Lemma comment_keeps_threads_witness :
  parents_same_post example_store ∧
  let res := post_posts_id_comments example_env (Some "u2") "p1" (Some " Nice ")
               None example_store in
  parents_same_post res.2 ∧
  ∀ cid c, comments example_store !! cid = None → comments res.2 !! cid = Some c →
           comment_content c ≠ "" ∧
           trim <$> Some " Nice " = Some (comment_content c) ∧
           comment_postId c = "p1".
Proof.
  assert (H1 : parents_same_post example_store).
  { intros cid c pid Hc _. unfold example_store in Hc. cbn [comments] in Hc.
    rewrite lookup_empty in Hc. discriminate Hc. }
  split; [exact H1|].
  exact (comment_keeps_threads example_env (Some "u2") "p1" (Some " Nice ") None
           example_store H1).
Defined.

Lemma comment_notifies_author_witness :
  "u2" ≠ "" ∧ notification_insert_fails example_env = false ∧
  trim " Nice " ≠ "" ∧
  posts example_store !! "p1" = Some example_post ∧
  users example_store !! "u2" = Some bob ∧
  let res := post_posts_id_comments example_env (Some "u2") "p1" (Some " Nice ")
               None example_store in
  ∃ nid n cid c,
    created example_store res.2 = {[nid := n]} ∧
    notif_userId n = "u1" ∧ notif_type n = REPLY ∧
    stored_content n = Some (excerpt (trim " Nice ")) ∧
    meta_actionUrl (notif_metadata n)
    = Some ("/posts/" +:+ "p1" +:+ "#comment-" +:+ cid) ∧
    comments example_store !! cid = None ∧ comments res.2 !! cid = Some c ∧
    comment_authorId c = "u2".
Proof.
  assert (H1 : "u2" ≠ "") by done.
  assert (H2 : notification_insert_fails example_env = false) by done.
  assert (H3 : trim " Nice " ≠ "") by (by vm_compute).
  assert (H4 : posts example_store !! "p1" = Some example_post) by done.
  assert (H5 : users example_store !! "u2" = Some bob) by done.
  split; [exact H1|]. split; [exact H2|]. split; [exact H3|].
  split; [exact H4|]. split; [exact H5|].
  exact (comment_notifies_author example_env "u2" "p1" " Nice " example_post bob
           example_store H1 H2 H3 H4 H5).
Defined.

Lemma comment_route_crosses_posts_witness :
  "u1" ≠ "" ∧
  1 ≤ Z.of_nat (String.length (create_comment_content example_reply)) ≤ 2000 ∧
  (∃ p, posts example_threads !! create_postId example_reply = Some p ∧
        post_groupId p = Some "g1") ∧
  (∃ m, groupMembers example_threads !! ("g1", "u1") = Some m ∧
        member_status m = "active") ∧
  create_parentId example_reply = Some "c1" ∧
  (∃ pc, comments example_threads !! "c1" = Some pc ∧
         comment_postId pc ≠ create_postId example_reply) ∧
  let res := post_comments example_env (Some "u1") example_reply example_threads in
  (∃ cid c author count,
     res.1 = Respond 201 (CommentRouteCreated cid c author count) ∧
     comments res.2 !! cid = Some c ∧ comment_parentId c = Some "c1") ∧
  (parents_same_post res.2 → False).
Proof.
  destruct (posts example_threads !! create_postId example_reply) as [p|] eqn:Hp;
    [| vm_compute in Hp; discriminate Hp].
  destruct (groupMembers example_threads !! ("g1", "u1")) as [m|] eqn:Hm;
    [| vm_compute in Hm; discriminate Hm].
  destruct (comments example_threads !! "c1") as [pc|] eqn:Hpc;
    [| vm_compute in Hpc; discriminate Hpc].
  assert (Hg : post_groupId p = Some "g1")
    by (vm_compute in Hp; injection Hp as <-; reflexivity).
  assert (Hact : member_status m = "active")
    by (vm_compute in Hm; injection Hm as <-; reflexivity).
  assert (Hne : comment_postId pc ≠ create_postId example_reply)
    by (vm_compute in Hpc; injection Hpc as <-; by vm_compute).
  assert (H1 : "u1" ≠ "") by done.
  assert (H2 : 1 ≤ Z.of_nat (String.length (create_comment_content example_reply))
               ≤ 2000) by (by vm_compute).
  split; [exact H1|]. split; [exact H2|]. split; [by exists p|].
  split; [by exists m|]. split; [reflexivity|]. split; [by exists pc|].
  destruct (comment_route_crosses_posts example_env "u1" "c1" "g1" example_reply
              p m pc example_threads H1 H2 Hp Hg Hm Hact eq_refl Hpc Hne)
    as [(cid & c & author & count & Ha & Hb & Hc & _) Hno].
  split; [by exists cid, c, author, count | exact Hno].
Defined.
